(** * TTT course builder: the staged generation pipeline

    A shallow embedding of the generation service (services/geminiService.ts,
    in its present and in its earlier revision), of the wizard state and the
    refinement handler of App.tsx, and of the module numbering of
    components/SessionPlanTable.tsx, with the properties the specification
    states about them.

    The service is asynchronous code that may throw: it is written in a
    state-and-error monad over the state of the platform (remote capability,
    key store, clock), of the progress sink and of the console.  Values that
    come out of [JSON.parse] are untyped, and are kept as JavaScript values;
    what TypeScript types is a record. *)

From Stdlib Require Import ZArith List String Ascii Bool Lia Arith.
From Stdlib Require Import DecimalString.
Import ListNotations.
Open Scope string_scope.
Set Warnings "-register-all".

(** ** JavaScript strings

    Strings are byte strings holding the UTF-8 form of the text. *)

Module Text.

(** The double quote, for the templates that contain one. *)
Definition dq : string := String "034"%char EmptyString.
(** Line feed, the separator of [join('\n')]. *)
Definition lf : string := String "010"%char EmptyString.

(** [c.toLowerCase()] on one ASCII character. *)
Definition lower_ascii (c : ascii) : ascii :=
  let n := nat_of_ascii c in
  if ((65 <=? n) && (n <=? 90))%nat then ascii_of_nat (n + 32) else c.

(** [s.toLowerCase()].  Only the letters A-Z are mapped: a non-ASCII letter
    is left as it is.  No non-ASCII letter has a digit, a space or one of
    d, a, y in its lower-case form, so the tests of [numDays] below see
    the same answer as in JavaScript. *)
Fixpoint toLowerCase (s : string) : string :=
  match s with
  | EmptyString => EmptyString
  | String c rest => String (lower_ascii c) (toLowerCase rest)
  end.

(** [hay.includes(needle)]. *)
Fixpoint includes (hay needle : string) : bool :=
  String.prefix needle hay ||
  match hay with
  | EmptyString => false
  | String _ rest => includes rest needle
  end.

(** The decimal digits of an integer, with a minus sign before a negative
    one: what [String(n)] is for an integer below 2^53 in absolute value, so
    for an array index, a counter and a time value. *)
Definition ofZ (z : Z) : string := NilZero.string_of_int (Z.to_int z).
Definition ofNat (n : nat) : string := ofZ (Z.of_nat n).

(** *** Number::toString

    A Number is a double.  From 2^53 on not every integer is one, and
    [String(x)] prints the decimal with the fewest significant digits that
    reads back as [x], padded with zeros up to 21 digits and in exponent
    notation beyond: [String(2**64)] is "18446744073709552000" and
    [String(1e21)] is "1e+21". *)

(** The double nearest to the integer [a >= 2^53], as mantissa and exponent:
    [m * 2^e] with [2^52 <= m < 2^53], a tie going to the even mantissa. *)
Definition nearestDouble (a : Z) : Z * Z :=
  let e := (Z.log2 a - 52)%Z in
  let q := Z.shiftr a e in
  let r := (a - Z.shiftl q e)%Z in
  let half := Z.shiftl 1 (e - 1) in
  let m := if (r <? half)%Z then q
           else if (half <? r)%Z then (q + 1)%Z
           else if Z.even q then q else (q + 1)%Z in
  if (m =? 9007199254740992)%Z then (4503599627370496%Z, (e + 1)%Z) else (m, e).

(** The integer with the fewest significant digits among those that read
    back as the double [x], the nearest to [x] among these (the one with the
    even last digit when two are as near): a multiple of [10^j] for the
    largest [j] that has one within the rounding interval of [x], whose
    bounds are [low2 / 2] and [high2 / 2], and belong to it when the mantissa
    of [x] is even. *)
Fixpoint shortest (x low2 high2 : Z) (inclusive : bool) (j : nat) : Z * nat :=
  let p := (10 ^ Z.of_nat j)%Z in
  let c1 := (x / p * p)%Z in
  let c2 := (c1 + p)%Z in
  let within c :=
    ((0 <? c) &&
     (if inclusive then (low2 <=? 2 * c) && (2 * c <=? high2)
      else (low2 <? 2 * c) && (2 * c <? high2)))%Z in
  match within c1, within c2 with
  | true, true =>
      if (x - c1 <? c2 - x)%Z then (c1, j)
      else if (c2 - x <? x - c1)%Z then (c2, j)
      else if Z.even (c1 / p) then (c1, j) else (c2, j)
  | true, false => (c1, j)
  | false, true => (c2, j)
  | false, false =>
      match j with
      | O => (x, O)
      | S j' => shortest x low2 high2 inclusive j'
      end
  end.

(** [String(x)] for the double [x] nearest to the integer [a >= 2^53]; an
    integer from 2^1024 - 2^970 on has no double but [Infinity]. *)
Definition ofLargeNumber (a : Z) : string :=
  let (m, e) := nearestDouble a in
  if (971 <? e)%Z then "Infinity" else
  let x := (m * 2 ^ e)%Z in
  let low2 :=
    (2 * x - (if m =? 4503599627370496 then 2 ^ (e - 1) else 2 ^ e))%Z in
  let high2 := (2 * x + 2 ^ e)%Z in
  let (v, j) := shortest x low2 high2 (Z.even m) (String.length (ofZ x)) in
  let n := String.length (ofZ v) in
  if (n <=? 21)%nat then ofZ v else
  match ofZ (v / 10 ^ Z.of_nat j) with
  | String d EmptyString => String d ("e+" ++ ofNat (n - 1))
  | String d rest => String d ("." ++ rest ++ "e+" ++ ofNat (n - 1))
  | EmptyString => EmptyString
  end.

(** [String(x)], as a template literal applies it, for the Number [x] whose
    value is the integer [z] (the nearest double, should [z] be none). *)
Definition ofNumber (z : Z) : string :=
  if (Z.abs z <? 9007199254740992)%Z then ofZ z
  else if (z <? 0)%Z then "-" ++ ofLargeNumber (- z)
  else ofLargeNumber z.

(** One-byte white space and line terminators: TAB, LF, VT, FF, CR, SP. *)
Definition ws1 (c : ascii) : bool :=
  let n := nat_of_ascii c in
  (((9 <=? n) && (n <=? 13)) || (n =? 32))%nat.

(** Two-byte white space: U+00A0 (C2 A0). *)
Definition ws2 (c1 c2 : ascii) : bool :=
  ((nat_of_ascii c1 =? 194) && (nat_of_ascii c2 =? 160))%nat.

(** Three-byte white space and line terminators:
    U+1680 (E1 9A 80), U+2000..U+200A (E2 80 80..8A), U+2028, U+2029
    (E2 80 A8, A9), U+202F (E2 80 AF), U+205F (E2 81 9F),
    U+3000 (E3 80 80), U+FEFF (EF BB BF). *)
Definition ws3 (c1 c2 c3 : ascii) : bool :=
  let a := nat_of_ascii c1 in
  let b := nat_of_ascii c2 in
  let c := nat_of_ascii c3 in
  (((a =? 225) && (b =? 154) && (c =? 128)) ||
   ((a =? 226) && (b =? 128) &&
      (((128 <=? c) && (c <=? 138)) || (c =? 168) || (c =? 169) || (c =? 175))) ||
   ((a =? 226) && (b =? 129) && (c =? 159)) ||
   ((a =? 227) && (b =? 128) && (c =? 128)) ||
   ((a =? 239) && (b =? 187) && (c =? 191)))%nat.

(** [l] with its leading white space removed; [l] is a list of bytes. *)
Fixpoint dropStart (l : list ascii) : list ascii :=
  match l with
  | c1 :: l1 =>
      if ws1 c1 then dropStart l1 else
      match l1 with
      | c2 :: l2 =>
          if ws2 c1 c2 then dropStart l2 else
          match l2 with
          | c3 :: l3 => if ws3 c1 c2 c3 then dropStart l3 else l
          | [] => l
          end
      | [] => l
      end
  | [] => []
  end.

(** The same from the end, on the reversed list: the bytes of a character
    come last byte first. *)
Fixpoint dropEndRev (l : list ascii) : list ascii :=
  match l with
  | c1 :: l1 =>
      if ws1 c1 then dropEndRev l1 else
      match l1 with
      | c2 :: l2 =>
          if ws2 c2 c1 then dropEndRev l2 else
          match l2 with
          | c3 :: l3 => if ws3 c3 c2 c1 then dropEndRev l3 else l
          | [] => l
          end
      | [] => l
      end
  | [] => []
  end.

(** [s.trim()]. *)
Definition trim (s : string) : string :=
  string_of_list_ascii
    (rev (dropEndRev (rev (dropStart (list_ascii_of_string s))))).

(** A text made of white space and line terminators only. *)
Inductive blank : list ascii -> Prop :=
| blank_nil : blank []
| blank_1 c l : ws1 c = true -> blank l -> blank (c :: l)
| blank_2 c1 c2 l : ws2 c1 c2 = true -> blank l -> blank (c1 :: c2 :: l)
| blank_3 c1 c2 c3 l :
    ws3 c1 c2 c3 = true -> blank l -> blank (c1 :: c2 :: c3 :: l).

Definition whitespaceOnly (s : string) : Prop :=
  blank (list_ascii_of_string s).

(** A response text that is missing, empty or white space only. *)
Definition blankText (t : option string) : Prop :=
  match t with
  | None => True
  | Some s => whitespaceOnly s
  end.

(** [s] is falsy exactly when it is empty. *)
Definition nonEmpty (s : string) : bool :=
  match s with EmptyString => false | String _ _ => true end.

End Text.
Import Text.

(** ** JavaScript values

    What [JSON.parse] returns, and the objects the service builds from it.
    Numbers are integers (the response schemas ask for no other number);
    an object is the list of its own properties in insertion order. *)

Inductive JSValue : Type :=
| JUndefined
| JNull
| JBool (b : bool)
| JNum (n : Z)
| JStr (s : string)
| JArr (elems : list JSValue)
| JObj (props : list (string * JSValue)).

Definition JSObject : Type := list (string * JSValue).

Module JS.

(** Truthiness, as [||], [if] and [?:] test it. *)
Definition truthy (v : JSValue) : bool :=
  match v with
  | JUndefined | JNull => false
  | JBool b => b
  | JNum n => negb (n =? 0)%Z
  | JStr s => nonEmpty s
  | JArr _ | JObj _ => true
  end.

(** [a || b]. *)
Definition or (a b : JSValue) : JSValue := if truthy a then a else b.

(** [o[k]] for an object: [undefined] when [o] has no property [k]. *)
Fixpoint get (k : string) (o : JSObject) : JSValue :=
  match o with
  | [] => JUndefined
  | (k', v) :: rest => if String.eqb k k' then v else get k rest
  end.

(** [o[k] = v]: an existing property keeps its place, a new one goes last. *)
Fixpoint set (k : string) (v : JSValue) (o : JSObject) : JSObject :=
  match o with
  | [] => [(k, v)]
  | (k', v') :: rest =>
      if String.eqb k k' then (k', v) :: rest else (k', v') :: set k v rest
  end.

(** The properties [i, i+1, ...] of an array-like value. *)
Fixpoint indexed (i : nat) (l : list JSValue) : JSObject :=
  match l with
  | [] => []
  | v :: rest => (ofNat i, v) :: indexed (S i) rest
  end.

(** A continuation byte of UTF-8, 10xxxxxx. *)
Definition continuation (c : ascii) : bool :=
  let n := nat_of_ascii c in ((128 <=? n) && (n <=? 191))%nat.

(** The characters of a string, one string each. *)
Fixpoint chars (s : string) : list string :=
  match s with
  | EmptyString => []
  | String c rest =>
      match chars rest with
      | [] => [String c EmptyString]
      | x :: xs =>
          match rest with
          | String c' _ =>
              if continuation c' then String c x :: xs
              else String c EmptyString :: x :: xs
          | EmptyString => [String c EmptyString]
          end
      end
  end.

(** The own enumerable properties that [{...v}] copies: those of an object,
    the elements of an array, the characters of a string (one per UTF-16
    unit in JavaScript, which is one per character up to U+FFFF), and
    nothing for the other values. *)
Definition spread (v : JSValue) : JSObject :=
  match v with
  | JObj o => o
  | JArr l => indexed 0 l
  | JStr s => indexed 0 (map JStr (chars s))
  | JUndefined | JNull | JBool _ | JNum _ => []
  end.

(** [v.k] for a key that is no built-in member: a [TypeError] (here [None])
    on [null] and [undefined], [undefined] on the other values that are not
    objects. *)
Definition member (v : JSValue) (k : string) : option JSValue :=
  match v with
  | JUndefined | JNull => None
  | JObj o => Some (get k o)
  | JBool _ | JNum _ | JStr _ | JArr _ => Some JUndefined
  end.

(** [String(v)], as a template literal applies it. *)
Fixpoint toString (v : JSValue) : string :=
  match v with
  | JUndefined => "undefined"
  | JNull => "null"
  | JBool true => "true"
  | JBool false => "false"
  | JNum n => ofNumber n
  | JStr s => s
  | JArr l =>
      String.concat ","
        (map (fun e => match e with
                       | JUndefined | JNull => EmptyString
                       | _ => toString e
                       end) l)
  | JObj _ => "[object Object]"
  end.

(** [l.join(sep)]. *)
Definition join (sep : string) (l : list JSValue) : string :=
  String.concat sep
    (map (fun e => match e with
                   | JUndefined | JNull => EmptyString
                   | _ => toString e
                   end) l).

End JS.

(** ** types.ts *)

Record CourseBasics : Type := {
  trainerName : string;
  courseTitle : string;
  duration : string;
  location : string
}.

(** [text] holds what the outcome generator stores there: [item.text] of
    the parsed response, which no type checks; an outcome that the trainer
    has typed holds a string. *)
Record LearningOutcome : Type := {
  lo_id : string;
  lo_text : JSValue
}.

Record IceBreaker : Type := {
  ib_title : string;
  ib_description : string;
  ib_duration : string
}.

(** A [ModuleContent] is kept as the object it is at run time: the service
    builds it by spreading a parsed response, whose properties no type
    checks.  [mkModule] is the shape of types.ts. *)
Definition ModuleContent : Type := JSObject.

Definition mkModule (id title : string) (subModules : list string)
    (methodology resources duration : string) : ModuleContent :=
  [("id", JStr id); ("title", JStr title); ("duration", JStr duration);
   ("subModules", JArr (map JStr subModules));
   ("methodology", JStr methodology); ("resources", JStr resources)].

(** [summary] and [reviewQuestions] hold what the service stores there,
    which after assembly is a value of the parsed response. *)
Record DayPlan : Type := {
  dayNumber : Z;
  iceBreaker : IceBreaker;
  recap : option string;
  modules : list ModuleContent;
  summary : JSValue;
  reviewQuestions : JSValue
}.

(** ** The platform: remote capability, key store, clock, console *)

Inductive Error : Type :=
| MissingApiKey            (* [getClient]: no key in localStorage or the environment *)
| RemoteFailure (msg : string)   (* [ai.models.generateContent] rejects *)
| SyntaxError              (* [JSON.parse] rejects the text *)
| TypeError                (* a member of [null]/[undefined], or a call of a non-function *)
| IllTyped.                (* a value the declared TypeScript type excludes *)

Inductive result (A : Type) : Type :=
| Ok (a : A)
| Throw (e : Error).
Arguments Ok {A} a.
Arguments Throw {A} e.

(** The [Type.*] schemas of @google/genai that the service sends. *)
Inductive Schema : Type :=
| TString
| TInteger
| TArray (items : Schema)
| TObject (properties : list (string * Schema)) (required : list string).

Record Config : Type := {
  responseMimeType : string;
  responseSchema : option Schema
}.

Record Request : Type := {
  model : string;
  contents : string;
  config : option Config
}.

(** A response: its [text] ([None] for [undefined]) and what [JSON.parse]
    makes of that text ([None] when it throws a [SyntaxError]). *)
Record Response : Type := {
  text : option string;
  parsed : option JSValue
}.

Record Client : Type := { apiKey : string }.

(** What the service reaches outside itself.  [World] is the state of all of
    it; a call of the remote capability may fail or answer, and changes the
    world as it likes. *)
Class Platform : Type := {
  World : Type;
  generateContent : Client -> Request -> World -> result Response * World;
  localStorage_getItem : string -> World -> option string;
  process_env_API_KEY : World -> result (option string);
  Date_now : World -> Z * World
}.

Inductive LogEntry : Type :=
| ConsoleWarn (msg : string)
| ConsoleError (msg : string) (e : Error).

(** ** Asynchronous computations that may throw

    A computation runs on a state and ends with a value or a thrown error;
    the state it has reached survives a [throw], as it does in JavaScript. *)

Definition Comp (St A : Type) : Type := St -> result A * St.

Section Comp.

Context {St : Type}.

Definition ret {A} (a : A) : Comp St A := fun st => (Ok a, st).

Definition throw {A} (e : Error) : Comp St A := fun st => (Throw e, st).

Definition bind {A B} (m : Comp St A) (k : A -> Comp St B) : Comp St B :=
  fun st =>
    match m st with
    | (Ok a, st') => k a st'
    | (Throw e, st') => (Throw e, st')
    end.

(** [try { m } catch (e) { h e }]. *)
Definition try_catch {A} (m : Comp St A) (h : Error -> Comp St A) : Comp St A :=
  fun st =>
    match m st with
    | (Ok a, st') => (Ok a, st')
    | (Throw e, st') => h e st'
    end.

(** [try { m } finally { f }], for an [f] that does not throw. *)
Definition try_finally {A} (m : Comp St A) (f : St -> St) : Comp St A :=
  fun st => let (r, st') := m st in (r, f st').

Definition lift {A} (r : result A) : Comp St A := fun st => (r, st).

End Comp.

Notation "x <- m ;; k" := (bind m (fun x => k))
  (at level 61, m at next level, right associativity).
Notation "m ;;; k" := (bind m (fun _ => k))
  (at level 61, right associativity).

Section Loops.

Context {St A B : Type}.

(** A [for] loop that pushes one result per element, in order. *)
Fixpoint forEach (f : A -> Comp St B) (l : list A) : Comp St (list B) :=
  match l with
  | [] => ret []
  | x :: rest => y <- f x ;; ys <- forEach f rest ;; ret (y :: ys)
  end.

(** [l.map((x, i) => f i x)], from index [i]. *)
Fixpoint mapIndexed (f : nat -> A -> Comp St B) (i : nat) (l : list A)
    : Comp St (list B) :=
  match l with
  | [] => ret []
  | x :: rest => y <- f i x ;; ys <- mapIndexed f (S i) rest ;; ret (y :: ys)
  end.

End Loops.

(** The state the service runs on: the world, the state of the progress sink
    and the console. *)
Record State (W Sink : Type) : Type := {
  world : W;
  sink : Sink;
  console : list LogEntry
}.
Arguments world {W Sink} s.
Arguments sink {W Sink} s.
Arguments console {W Sink} s.

(** ** The service, services/geminiService.ts *)

Section Service.

Context {platform : Platform}.

(** [onProgress] is a notification channel that returns nothing and does not
    throw: a function from the message to a change of the sink's own state,
    of type [Sink]. *)
Context {Sink : Type}.

Local Abbreviation M := (Comp (State World Sink)).

Definition log (e : LogEntry) : M unit :=
  fun st => (Ok tt, {| world := world st; sink := sink st;
                       console := console st ++ [e] |}).

(** [await ai.models.generateContent(request)]. *)
Definition call (ai : Client) (request : Request) : M Response :=
  fun st =>
    let (r, w) := generateContent ai request (world st) in
    (r, {| world := w; sink := sink st; console := console st |}).

(** [Date.now()]. *)
Definition now : M Z :=
  fun st =>
    let (t, w) := Date_now (world st) in
    (Ok t, {| world := w; sink := sink st; console := console st |}).

Definition read {A} (f : World -> A) : M A := fun st => (Ok (f (world st)), st).

(** [if (onProgress) onProgress(msg)]. *)
Definition notify (onProgress : option (string -> Sink -> Sink)) (msg : string)
    : M unit :=
  match onProgress with
  | Some f =>
      fun st => (Ok tt, {| world := world st; sink := f msg (sink st);
                           console := console st |})
  | None => ret tt
  end.

(** [JSON.parse(response.text || dflt)], [dflt] being the value of the
    default literal. *)
Definition JSON_parse_or (dflt : JSValue) (response : Response) : M JSValue :=
  match text response with
  | None | Some EmptyString => ret dflt
  | Some _ =>
      match parsed response with
      | Some v => ret v
      | None => throw SyntaxError
      end
  end.

(** [v.k], which throws on [null] and [undefined]. *)
Definition member (v : JSValue) (k : string) : M JSValue :=
  match JS.member v k with
  | Some x => ret x
  | None => throw TypeError
  end.

Definition getApiKey : M (option string) :=
  userKey <- read (localStorage_getItem "MY_TTT_API_KEY") ;;
  match userKey with
  | Some (String c k) => ret (Some (String c k))
  | Some EmptyString | None =>
      try_catch
        (e <- read process_env_API_KEY ;;
         v <- lift e ;;
         match v with
         | Some (String c k) => ret (Some (String c k))
         | Some EmptyString | None => ret None
         end)
        (fun _ => log (ConsoleWarn "Environment API key not accessible") ;;;
                  ret None)
  end.

Definition getClient : M Client :=
  key <- getApiKey ;;
  match key with
  | Some k => ret {| apiKey := k |}
  | None => throw MissingApiKey
  end.

(** [outcomes.map((o, i) => `${i + 1}. ${o.text}`).join('\n')]. *)
Fixpoint numbered (i : nat) (outcomes : list LearningOutcome) : list string :=
  match outcomes with
  | [] => []
  | o :: rest =>
      (ofNat (i + 1) ++ ". " ++ JS.toString (lo_text o)) :: numbered (S i) rest
  end.

Definition outcomesTextOf (outcomes : list LearningOutcome) : string :=
  String.concat lf (numbered 0 outcomes).

Definition jsonConfig (schema : Schema) : option Config :=
  Some {| responseMimeType := "application/json";
          responseSchema := Some schema |}.

(** *** Step 3: structure *)

(** The day count read off the duration descriptor. *)
Definition numDaysOf (durationLower : string) : Z :=
  let numDays := 1%Z in
  let numDays := if includes durationLower "2 day" then 2%Z else numDays in
  let numDays := if includes durationLower "3 day" then 3%Z else numDays in
  let numDays := if includes durationLower "4 day" then 4%Z else numDays in
  let numDays := if includes durationLower "5 day" then 5%Z else numDays in
  numDays.

Definition structurePrompt (basics : CourseBasics) (numDays : Z)
    (outcomesText : string) : string :=
  "
    Act as a Master Trainer. Create a Course Outline (Structure only) for:
    Title: " ++ courseTitle basics ++ "
    Duration: " ++ duration basics ++ " (" ++ ofNumber numDays ++ " days)
    
    Learning Outcomes:
    " ++ outcomesText ++ "

    Task:
    1. Define the schedule for " ++ ofNumber numDays ++ " day(s).
    2. For each day, provide a list of MODULE TITLES.
    3. Do NOT generate module content, methodology, or ice breakers yet. Just titles and estimated duration.
    
    Return JSON array of DayPlan. Use placeholders for non-title fields.
  ".

Definition structureSchema : Schema :=
  TArray
    (TObject
       [("dayNumber", TInteger);
        ("modules",
         TArray (TObject [("id", TString); ("title", TString);
                          ("duration", TString)]
                         ["title"; "duration"]))]
       ["dayNumber"; "modules"]).

(** One module of the skeleton, [d.modules.map((m, mIdx) => ...)]. *)
Definition hydrateModule (dIdx mIdx : nat) (m : JSValue) : M ModuleContent :=
  mid <- member m "id" ;;
  id <- (if JS.truthy mid then ret mid
         else t <- now ;;
              ret (JStr ("d" ++ ofNat dIdx ++ "-m" ++ ofNat mIdx ++ "-" ++ ofZ t))) ;;
  title <- member m "title" ;;
  duration <- member m "duration" ;;
  ret [("id", id); ("title", title); ("duration", duration);
       ("subModules", JArr []); ("methodology", JStr EmptyString);
       ("resources", JStr EmptyString)].

(** One day of the skeleton, [rawDays.map((d, dIdx) => ...)].  [dayNumber] is
    a number by the type of [DayPlan] and by the schema; on a response that
    has another value there the model stops with [IllTyped], where
    JavaScript would carry the value on into the skeleton. *)
Definition hydrateDay (dIdx : nat) (d : JSValue) : M DayPlan :=
  n <- member d "dayNumber" ;;
  n <- (match n with JNum z => ret z | _ => throw IllTyped end) ;;
  ms <- member d "modules" ;;
  modules <- (match ms with
              | JArr l => mapIndexed (hydrateModule dIdx) 0 l
              | _ => throw TypeError
              end) ;;
  ret {| dayNumber := n;
         iceBreaker := {| ib_title := EmptyString; ib_description := EmptyString;
                          ib_duration := EmptyString |};
         recap := if (1 <? n)%Z then Some "Recap of previous day" else None;
         summary := JStr "Key takeaways and Q&A";
         reviewQuestions := JArr [];
         modules := modules |}.

Definition generateCourseStructure (basics : CourseBasics)
    (outcomes : list LearningOutcome) : M (list DayPlan) :=
  ai <- getClient ;;
  let outcomesText := outcomesTextOf outcomes in
  let durationLower := toLowerCase (duration basics) in
  let numDays := numDaysOf durationLower in
  let prompt := structurePrompt basics numDays outcomesText in
  response <- call ai {| model := "gemini-3-flash-preview";
                         contents := prompt;
                         config := jsonConfig structureSchema |} ;;
  rawDays <- JSON_parse_or (JArr []) response ;;
  match rawDays with
  | JArr l => mapIndexed hydrateDay 0 l
  | _ => throw TypeError
  end.

(** *** Step 5: content, module by module *)

Definition moduleSchema : Schema :=
  TObject
    [("title", TString); ("subModules", TArray TString);
     ("methodology", TString); ("resources", TString);
     ("duration", TString); ("slideNumbers", TString)]
    ["title"; "subModules"; "methodology"; "resources"; "duration"].

Definition modulePrompt (basics : CourseBasics) (moduleTitle : JSValue)
    (dayNum : Z) (outcomesText : string) : string :=
  "
    Act as a Master Trainer. Develop the content for ONE module.
    
    Course: " ++ courseTitle basics ++ "
    Module Title: " ++ dq ++ JS.toString moduleTitle ++ dq ++ "
    Day: " ++ ofNumber dayNum ++ "
    Outcomes Context: " ++ outcomesText ++ "
    
    Requirements:
    1. Sub-modules: 3-5 bullet points of specific contents.
    2. Methodology: " ++ dq ++ "Lecture: [Details] 
 Activity: [Details]" ++ dq ++ ". Keep it concise.
    3. Resources: e.g. " ++ dq ++ "Slides, Video" ++ dq ++ ".
    4. Duration: Estimate realistic duration.
    
    Return JSON.
  ".

(** Detailed content for a single module: whatever the response parses to. *)
Definition generateModuleDetail (ai : Client) (basics : CourseBasics)
    (moduleTitle : JSValue) (dayNum : Z) (outcomesText : string) : M JSValue :=
  let prompt := modulePrompt basics moduleTitle dayNum outcomesText in
  response <- call ai {| model := "gemini-3-pro-preview";
                         contents := prompt;
                         config := jsonConfig moduleSchema |} ;;
  JSON_parse_or (JObj []) response.

(** [{ ...fullMod, id: partialMod.id, title: partialMod.title }]. *)
Definition enriched (partialMod : ModuleContent) (fullMod : JSValue)
    : ModuleContent :=
  JS.set "title" (JS.get "title" partialMod)
    (JS.set "id" (JS.get "id" partialMod) (JS.spread fullMod)).

(** [{ ...partialMod, methodology: "Error generating content." }]. *)
Definition fallback (partialMod : ModuleContent) : ModuleContent :=
  JS.set "methodology" (JStr "Error generating content.") partialMod.

(** [`Writing content for Day ${day.dayNumber}: ${partialMod.title}...`]. *)
Definition writingMessage (day : DayPlan) (partialMod : ModuleContent) : string :=
  "Writing content for Day " ++ ofNumber (dayNumber day) ++ ": "
    ++ JS.toString (JS.get "title" partialMod) ++ "...".

(** [`Finalizing Day ${day.dayNumber} summary...`]. *)
Definition finalizingMessage (day : DayPlan) : string :=
  "Finalizing Day " ++ ofNumber (dayNumber day) ++ " summary...".

(** The body of the loop over the modules of a day. *)
Definition refineModule (ai : Client) (basics : CourseBasics)
    (outcomesText : string) (onProgress : option (string -> Sink -> Sink))
    (day : DayPlan) (partialMod : ModuleContent) : M ModuleContent :=
  notify onProgress (writingMessage day partialMod) ;;;
  try_catch
    (fullMod <- generateModuleDetail ai basics (JS.get "title" partialMod)
                  (dayNumber day) outcomesText ;;
     ret (enriched partialMod fullMod))
    (fun e =>
       log (ConsoleError "Failed to generate detail" e) ;;;
       ret (fallback partialMod)).

Definition summarySchema : Schema :=
  TObject [("summary", TString); ("reviewQuestions", TArray TString)] [].

Definition endOfDayPrompt (basics : CourseBasics) (day : DayPlan)
    (refinedModules : list ModuleContent) : string :=
  "
       Create a Day End Summary and 3 Review Questions for Day " ++ ofNumber (dayNumber day) ++ " of course " ++ dq ++ courseTitle basics ++ dq ++ ".
       Modules covered: " ++ JS.join ", " (map (JS.get "title") refinedModules) ++ ".
       Return JSON { " ++ dq ++ "summary" ++ dq ++ ": " ++ dq ++ "string" ++ dq ++ ", " ++ dq ++ "reviewQuestions" ++ dq ++ ": [" ++ dq ++ "string" ++ dq ++ "] }
    ".

(** The day-summary call and [JSON.parse(endResp.text || "{}")]. *)
Definition askSummary (ai : Client) (basics : CourseBasics) (day : DayPlan)
    (refinedModules : list ModuleContent) : M JSValue :=
  let endOfDayPrompt := endOfDayPrompt basics day refinedModules in
  endResp <- call ai {| model := "gemini-3-flash-preview";
                         contents := endOfDayPrompt;
                         config := jsonConfig summarySchema |} ;;
  JSON_parse_or (JObj []) endResp.

(** The summary and review questions of a day: the [summaryData] that the
    second half of the loop body ends with. *)
Definition summarize (ai : Client) (basics : CourseBasics) (day : DayPlan)
    (refinedModules : list ModuleContent) : M (JSValue * JSValue) :=
  let summaryData := (summary day, reviewQuestions day) in
  try_catch
    (parsed <- askSummary ai basics day refinedModules ;;
     s <- member parsed "summary" ;;
     q <- member parsed "reviewQuestions" ;;
     ret (JS.or s (summary day), JS.or q (reviewQuestions day)))
    (fun e =>
       log (ConsoleError "Failed to generate day summary" e) ;;;
       ret summaryData).

(** The body of the loop over the days. *)
Definition refineDay (ai : Client) (basics : CourseBasics)
    (outcomesText : string) (onProgress : option (string -> Sink -> Sink))
    (day : DayPlan) : M DayPlan :=
  refinedModules <-
    forEach (refineModule ai basics outcomesText onProgress day) (modules day) ;;
  notify onProgress (finalizingMessage day) ;;;
  summaryData <- summarize ai basics day refinedModules ;;
  ret {| dayNumber := dayNumber day;
         iceBreaker := iceBreaker day;
         recap := recap day;
         modules := refinedModules;
         summary := fst summaryData;
         reviewQuestions := snd summaryData |}.

(** The full detailed content of the entire course plan. *)
Definition generateFinalPlanContent (basics : CourseBasics)
    (outcomes : list LearningOutcome) (skeleton : list DayPlan)
    (onProgress : option (string -> Sink -> Sink)) : M (list DayPlan) :=
  ai <- getClient ;;
  let outcomesText := outcomesTextOf outcomes in
  forEach (refineDay ai basics outcomesText onProgress) skeleton.

(** *** Step 6: refine *)

Definition refinePrompt (text context : string) : string :=
  "
    Refine the following content for a corporate training plan.
    Context: " ++ context ++ "
    Original Text: " ++ text ++ "
    
    Task: Improve clarity, professional tone, and engagement while keeping it simple (CEFR B2 level).
    Return ONLY the refined text.
  ".

(** [response.text?.trim() || text]. *)
Definition trimmedOr (response : Response) (original : string) : string :=
  match text response with
  | None => original
  | Some t => if nonEmpty (trim t) then trim t else original
  end.

Definition refineContent (text context : string) : M string :=
  ai <- getClient ;;
  let prompt := refinePrompt text context in
  response <- call ai {| model := "gemini-3-flash-preview";
                         contents := prompt;
                         config := None |} ;;
  ret (trimmedOr response text).

(** *** What the remote capability did in a run

    Read off the same computations, so that a property can speak of the call
    that failed or of the response that lacked a field. *)

(** The key that [getApiKey] finds, if any. *)
Definition keyAvailable (w : World) : bool :=
  match localStorage_getItem "MY_TTT_API_KEY" w with
  | Some (String _ _) => true
  | Some EmptyString | None =>
      match process_env_API_KEY w with
      | Ok (Some (String _ _)) => true
      | _ => false
      end
  end.

(** The outcome of [generateModuleDetail] for each module of a day, in the
    state in which the loop reaches it. *)
Fixpoint moduleOutcomes (ai : Client) (basics : CourseBasics)
    (outcomesText : string) (onProgress : option (string -> Sink -> Sink))
    (day : DayPlan) (ms : list ModuleContent) (st : State World Sink)
    : list (result JSValue) :=
  match ms with
  | [] => []
  | partialMod :: rest =>
      fst (generateModuleDetail ai basics (JS.get "title" partialMod)
             (dayNumber day) outcomesText
             (snd (notify onProgress (writingMessage day partialMod) st)))
      :: moduleOutcomes ai basics outcomesText onProgress day rest
           (snd (refineModule ai basics outcomesText onProgress day
                   partialMod st))
  end.

(** What the day-summary call of a day gave, parsed: the outcome of
    [askSummary] in the state in which the loop body reaches it. *)
Definition summaryOutcome (ai : Client) (basics : CourseBasics)
    (outcomesText : string) (onProgress : option (string -> Sink -> Sink))
    (day : DayPlan) (st : State World Sink) : result JSValue :=
  match forEach (refineModule ai basics outcomesText onProgress day)
          (modules day) st with
  | (Ok refinedModules, st1) =>
      fst (askSummary ai basics day refinedModules
             (snd (notify onProgress (finalizingMessage day) st1)))
  | (Throw e, _) => Throw e
  end.

(** The state in which the loop over the days reaches each day. *)
Fixpoint dayStates (ai : Client) (basics : CourseBasics)
    (outcomesText : string) (onProgress : option (string -> Sink -> Sink))
    (skeleton : list DayPlan) (st : State World Sink)
    : list (State World Sink) :=
  match skeleton with
  | [] => []
  | day :: rest =>
      st :: dayStates ai basics outcomesText onProgress rest
              (snd (refineDay ai basics outcomesText onProgress day st))
  end.

(** Per day of a run of [generateFinalPlanContent], the outcomes of its
    module-detail calls and of its day-summary call; nothing when no client
    could be made. *)
Definition remoteOutcomes (basics : CourseBasics)
    (outcomes : list LearningOutcome) (skeleton : list DayPlan)
    (onProgress : option (string -> Sink -> Sink)) (st : State World Sink)
    : list (list (result JSValue) * result JSValue) :=
  match getClient st with
  | (Ok ai, st0) =>
      let outcomesText := outcomesTextOf outcomes in
      map (fun d : DayPlan * State World Sink =>
             (moduleOutcomes ai basics outcomesText onProgress (fst d)
                (modules (fst d)) (snd d),
              summaryOutcome ai basics outcomesText onProgress (fst d) (snd d)))
          (combine skeleton
             (dayStates ai basics outcomesText onProgress skeleton st0))
  | (Throw _, _) => []
  end.

(** The messages the orchestrator reports for a skeleton, in order: one
    before each module call, one before each day-summary call. *)
Definition progressMessages (skeleton : list DayPlan) : list string :=
  List.concat
    (map (fun day => (map (writingMessage day) (modules day)
                        ++ [finalizingMessage day])%list) skeleton).

(** Two states that differ at most in the state of the progress sink. *)
Definition sameButSink (st1 st2 : State World Sink) : Prop :=
  world st1 = world st2 /\ console st1 = console st2.

(** Two computations that, from such states, end with the same outcome in
    such states. *)
Definition agree {A} (m1 m2 : M A) : Prop :=
  forall st1 st2, sameButSink st1 st2 ->
    fst (m1 st1) = fst (m2 st2) /\ sameButSink (snd (m1 st1)) (snd (m2 st2)).

(** A day of the response from which [hydrateDay] makes a [DayPlan]: an
    object with a number as [dayNumber] and an array as [modules], none of
    them [null]. *)
Definition skeletonDay (d : JSValue) : bool :=
  match d with
  | JObj o =>
      match JS.get "dayNumber" o, JS.get "modules" o with
      | JNum _, JArr ms =>
          forallb (fun m => match m with
                            | JNull | JUndefined => false
                            | _ => true
                            end) ms
      | _, _ => false
      end
  | _ => false
  end.

(** The [rawDays] of a run of [generateCourseStructure]. *)
Definition structureReply (basics : CourseBasics)
    (outcomes : list LearningOutcome) : M JSValue :=
  ai <- getClient ;;
  response <- call ai {| model := "gemini-3-flash-preview";
                         contents :=
                           structurePrompt basics
                             (numDaysOf (toLowerCase (duration basics)))
                             (outcomesTextOf outcomes);
                         config := jsonConfig structureSchema |} ;;
  JSON_parse_or (JArr []) response.

End Service.

(** ** The earlier revision of the service

    The repository holds a second copy of geminiService.ts.  It reads the key
    from the environment only, and ends a day differently; module detail and
    the loop over the modules are the same text as above. *)

Module Legacy.

Section Service.

Context {platform : Platform} {Sink : Type}.

Local Abbreviation M := (Comp (State World Sink)).

Definition getClient : M Client :=
  e <- read process_env_API_KEY ;;
  v <- lift e ;;
  match v with
  | Some (String c k) => ret {| apiKey := String c k |}
  | Some EmptyString | None => throw MissingApiKey
  end.

Definition endOfDayPrompt (basics : CourseBasics) (day : DayPlan)
    (refinedModules : list ModuleContent) : string :=
  "
       Create a Day End Summary and 3 Review Questions for Day " ++ ofNumber (dayNumber day) ++ " of course " ++ dq ++ courseTitle basics ++ dq ++ ".
       Modules covered: " ++ JS.join ", " (map (JS.get "title") refinedModules) ++ ".
       Return JSON { summary: string, reviewQuestions: string[] }
    ".

Definition askSummary (ai : Client) (basics : CourseBasics) (day : DayPlan)
    (refinedModules : list ModuleContent) : M JSValue :=
  let endOfDayPrompt := endOfDayPrompt basics day refinedModules in
  endResp <- call ai {| model := "gemini-3-flash-preview";
                         contents := endOfDayPrompt;
                         config := Some {| responseMimeType := "application/json";
                                           responseSchema := None |} |} ;;
  JSON_parse_or (JObj []) endResp.

(** [if(parsed.summary) summaryData = parsed;] inside [try {} catch(e) {}]:
    the whole parsed object replaces [summaryData], and the day then reads
    [summaryData.summary] and [summaryData.reviewQuestions] from it. *)
Definition summarize (ai : Client) (basics : CourseBasics) (day : DayPlan)
    (refinedModules : list ModuleContent) : M (JSValue * JSValue) :=
  let summaryData := (summary day, reviewQuestions day) in
  try_catch
    (parsed <- askSummary ai basics day refinedModules ;;
     s <- member parsed "summary" ;;
     if JS.truthy s
     then q <- member parsed "reviewQuestions" ;; ret (s, q)
     else ret summaryData)
    (fun _ => ret summaryData).

Definition refineDay (ai : Client) (basics : CourseBasics)
    (outcomesText : string) (onProgress : option (string -> Sink -> Sink))
    (day : DayPlan) : M DayPlan :=
  refinedModules <-
    forEach (refineModule ai basics outcomesText onProgress day) (modules day) ;;
  notify onProgress (finalizingMessage day) ;;;
  summaryData <- summarize ai basics day refinedModules ;;
  ret {| dayNumber := dayNumber day;
         iceBreaker := iceBreaker day;
         recap := recap day;
         modules := refinedModules;
         summary := fst summaryData;
         reviewQuestions := snd summaryData |}.

Definition generateFinalPlanContent (basics : CourseBasics)
    (outcomes : list LearningOutcome) (skeleton : list DayPlan)
    (onProgress : option (string -> Sink -> Sink)) : M (list DayPlan) :=
  ai <- getClient ;;
  let outcomesText := outcomesTextOf outcomes in
  forEach (refineDay ai basics outcomesText onProgress) skeleton.

(** The state in which the loop over the days reaches each day. *)
Fixpoint dayStates (ai : Client) (basics : CourseBasics)
    (outcomesText : string) (onProgress : option (string -> Sink -> Sink))
    (skeleton : list DayPlan) (st : State World Sink)
    : list (State World Sink) :=
  match skeleton with
  | [] => []
  | day :: rest =>
      st :: dayStates ai basics outcomesText onProgress rest
              (snd (refineDay ai basics outcomesText onProgress day st))
  end.

(** Per day of a run of [generateFinalPlanContent], the outcomes of its
    module-detail calls; nothing when no client could be made. *)
Definition detailOutcomes (basics : CourseBasics)
    (outcomes : list LearningOutcome) (skeleton : list DayPlan)
    (onProgress : option (string -> Sink -> Sink)) (st : State World Sink)
    : list (list (result JSValue)) :=
  match getClient st with
  | (Ok ai, st0) =>
      let outcomesText := outcomesTextOf outcomes in
      map (fun d : DayPlan * State World Sink =>
             moduleOutcomes ai basics outcomesText onProgress (fst d)
               (modules (fst d)) (snd d))
          (combine skeleton
             (dayStates ai basics outcomesText onProgress skeleton st0))
  | (Throw _, _) => []
  end.

Definition refinePrompt (text contextType : string) : string :=
  "
    Refine this text for a TTT Session Plan (" ++ dq ++ contextType ++ dq ++ ").
    Current: " ++ dq ++ text ++ dq ++ "
    Requirement: Professional, concise, action-oriented. Simple English.
    Return ONLY rewritten text.
  ".

Definition refineContent (text contextType : string) : M string :=
  ai <- getClient ;;
  let prompt := refinePrompt text contextType in
  response <- call ai {| model := "gemini-3-flash-preview";
                         contents := prompt;
                         config := None |} ;;
  ret (trimmedOr response text).

End Service.

End Legacy.

(** ** The wizard, App.tsx *)

Record CoursePlan : Type := {
  plan_id : option string;
  lastModified : option Z;
  basics : CourseBasics;
  outcomes : list LearningOutcome;
  schedule : list DayPlan
}.

Module App.

Local Open Scope nat_scope.

(** The part of the component state that the navigation reads and writes:
    [step], [maxStepReached], and whether [coursePlan] is set. *)
Record Wizard : Type := {
  step : nat;
  maxStepReached : nat;
  hasPlan : bool
}.

(** The state of the first render. *)
Definition initial : Wizard :=
  {| step := 1; maxStepReached := 1; hasPlan := false |}.

Definition setStep (n : nat) (w : Wizard) : Wizard :=
  {| step := n; maxStepReached := maxStepReached w; hasPlan := hasPlan w |}.

Definition advanceStep (nextStep : nat) (w : Wizard) : Wizard :=
  {| step := nextStep;
     maxStepReached :=
       if maxStepReached w <? nextStep then nextStep else maxStepReached w;
     hasPlan := hasPlan w |}.

(** What the user and the handlers do to the navigation.  A generation
    handler is one event, with what decides its branch as arguments; it runs
    against the state it was started in. *)
Inductive Event : Type :=
| ClickLogo                  (* the MY-TTT logo: setStep(1) *)
| ClickProgress (n : nat)    (* button n of the progress bar *)
| GoForward                  (* Go to Step 2 / Structure / Ice Breakers / Final Plan *)
| Back                       (* the Back button of views 2, 3 and 4 *)
| EditStructure              (* view 5 *)
| GenerateOutcomes (titleGiven : bool)
| GenerateStructure (enoughOutcomes generated : bool)
| PrepareIceBreakers
| GenerateFinal (generated : bool)
| Load.                      (* handleLoad: a saved or imported course *)

(** The state after an event, or [None] when the view of the state does not
    offer it (the button is not rendered or is disabled). *)
Definition handle (e : Event) (w : Wizard) : option Wizard :=
  match e with
  | ClickLogo => Some (setStep 1 w)
  | ClickProgress n =>
      if (1 <=? n) && (n <=? 5) && (n <=? maxStepReached w)
      then Some (setStep n w) else None
  | GoForward =>
      if (1 <=? step w) && (step w <=? 4) && (step w <? maxStepReached w)
      then Some (setStep (step w + 1) w) else None
  | Back =>
      if (2 <=? step w) && (step w <=? 4)
      then Some (setStep (step w - 1) w) else None
  | EditStructure =>
      if (step w =? 5) && hasPlan w then Some (setStep 3 w) else None
  | GenerateOutcomes titleGiven =>
      if step w =? 1
      then Some (if titleGiven then advanceStep 2 w else w)
      else None
  | GenerateStructure enoughOutcomes generated =>
      if step w =? 2
      then Some (if enoughOutcomes && generated then advanceStep 3 w else w)
      else None
  | PrepareIceBreakers =>
      if step w =? 3 then Some (advanceStep 4 w) else None
  | GenerateFinal generated =>
      if step w =? 4
      then Some (if generated
                 then advanceStep 5 {| step := step w;
                                       maxStepReached := maxStepReached w;
                                       hasPlan := true |}
                 else w)
      else None
  | Load => Some {| step := 5; maxStepReached := 5; hasPlan := true |}
  end.

(** The stage whose handler an event completes, when it does: stage [n]
    completes when its handler calls [advanceStep (n + 1)]. *)
Definition completes (e : Event) : option nat :=
  match e with
  | GenerateOutcomes true => Some 1
  | GenerateStructure true true => Some 2
  | PrepareIceBreakers => Some 3
  | GenerateFinal true => Some 4
  | _ => None
  end.

Inductive transition : Wizard -> Event -> Wizard -> Prop :=
| transition_intro w e w' : handle e w = Some w' -> transition w e w'.

Inductive reachable : Wizard -> Prop :=
| reachable_initial : reachable initial
| reachable_step w e w' : reachable w -> transition w e w' -> reachable w'.

(** The events of a list one after the other. *)
Fixpoint run (es : list Event) (w : Wizard) : option Wizard :=
  match es with
  | [] => Some w
  | e :: rest =>
      match handle e w with
      | Some w' => run rest w'
      | None => None
      end
  end.

(** *** Generations in flight

    A generation handler awaits the remote capability between its start and
    its end, and other events can be handled in between.  It goes on in the
    closure of the render that started it: the [maxStepReached] that its
    [advanceStep] compares with is the one of that render. *)

Inductive Generation : Type :=
| GOutcomes     (* generateSuggestedOutcomes, past its title check *)
| GStructure    (* generateStructure, past its count check *)
| GFinal.       (* generateFinal *)

Record Pending : Type := {
  generation : Generation;
  seenMaxStepReached : nat
}.

(** The wizard, whether [status] is other than IDLE, and the generations in
    flight. *)
Record Session : Type := {
  wizard : Wizard;
  busy : bool;
  pending : list Pending
}.

Definition initialSession : Session :=
  {| wizard := initial; busy := false; pending := [] |}.

(** [advanceStep] in a closure that has seen [seen] as [maxStepReached]. *)
Definition advanceStepSeen (seen nextStep : nat) (w : Wizard) : Wizard :=
  {| step := nextStep;
     maxStepReached := if seen <? nextStep then nextStep else maxStepReached w;
     hasPlan := hasPlan w |}.

(** The view whose button starts a generation. *)
Definition viewOf (g : Generation) : nat :=
  match g with GOutcomes => 1 | GStructure => 2 | GFinal => 4 end.

(** What the end of a generation does to the wizard. *)
Definition settle (p : Pending) (ok : bool) (w : Wizard) : Wizard :=
  match generation p, ok with
  | GOutcomes, _ => advanceStepSeen (seenMaxStepReached p) 2 w
  | GStructure, true => advanceStepSeen (seenMaxStepReached p) 3 w
  | GFinal, true =>
      advanceStepSeen (seenMaxStepReached p) 5
        {| step := step w; maxStepReached := maxStepReached w;
           hasPlan := true |}
  | _, false => w
  end.

Inductive Action : Type :=
| Do (e : Event)                 (* an event handled to its end at once *)
| Start (g : Generation)         (* a generation button, enabled when idle *)
| Settle (i : nat) (ok : bool).  (* the call of pending generation i ends *)

Definition generates (e : Event) : bool :=
  match e with
  | GenerateOutcomes _ | GenerateStructure _ _ | GenerateFinal _ => true
  | _ => false
  end.

Fixpoint removeNth {A} (i : nat) (l : list A) : list A :=
  match i, l with
  | _, [] => []
  | 0, _ :: rest => rest
  | S j, x :: rest => x :: removeNth j rest
  end.

Definition act (a : Action) (s : Session) : option Session :=
  match a with
  | Do e =>
      if generates e && busy s then None
      else match handle e (wizard s) with
           | Some w => Some {| wizard := w; busy := busy s;
                               pending := pending s |}
           | None => None
           end
  | Start g =>
      if negb (busy s) && (step (wizard s) =? viewOf g)
      then Some {| wizard := wizard s; busy := true;
                   pending :=
                     (pending s
                        ++ [{| generation := g;
                               seenMaxStepReached :=
                                 maxStepReached (wizard s) |}])%list |}
      else None
  | Settle i ok =>
      match nth_error (pending s) i with
      | Some p => Some {| wizard := settle p ok (wizard s); busy := false;
                          pending := removeNth i (pending s) |}
      | None => None
      end
  end.

Fixpoint runSession (acts : list Action) (s : Session) : option Session :=
  match acts with
  | [] => Some s
  | a :: rest =>
      match act a s with
      | Some s' => runSession rest s'
      | None => None
      end
  end.

(** Turns the boolean tests of [handle] into propositions. *)
Ltac bools :=
  repeat match goal with
    | H : (_ && _) = true |- _ => apply andb_true_iff in H as [? ?]
    | H : (_ <=? _) = true |- _ => apply Nat.leb_le in H
    | H : (_ <? _) = true |- _ => apply Nat.ltb_lt in H
    | H : (_ <? _) = false |- _ => apply Nat.ltb_ge in H
    | H : (_ =? _) = true |- _ => apply Nat.eqb_eq in H
    | H : Some _ = Some _ |- _ => injection H as <-
    | H : None = Some _ |- _ => discriminate H
    end.

(** Unfolds [handle] at an event and splits on the conditions it tests. *)
Ltac handled H :=
  unfold handle in H;
  repeat match type of H with
    | context [if ?c then _ else _] => destruct c eqn:?; cbv iota in H
    end;
  bools; unfold advanceStep, setStep in *; simpl in *.

Section Refine.

Context {platform : Platform} {Sink Target : Type}.

(** What [handleRefine] touches: the service's state, the [isRefining] flag,
    and the data the updater callback writes to. *)
Record UI : Type := {
  service : State World Sink;
  isRefining : bool;
  target : Target
}.

Definition onService {A} (m : Comp (State World Sink) A) : Comp UI A :=
  fun ui =>
    let (r, st) := m (service ui) in
    (r, {| service := st; isRefining := isRefining ui; target := target ui |}).

Definition onTarget {A} (m : Comp Target A) : Comp UI A :=
  fun ui =>
    let (r, t) := m (target ui) in
    (r, {| service := service ui; isRefining := isRefining ui; target := t |}).

Definition setIsRefining (b : bool) (ui : UI) : UI :=
  {| service := service ui; isRefining := b; target := target ui |}.

Definition handleRefine (currentText context : string)
    (callback : string -> Comp Target unit) : Comp UI unit :=
  if nonEmpty currentText then
    (fun ui => (Ok tt, setIsRefining true ui)) ;;;
    try_finally
      (try_catch
         (res <- onService (refineContent currentText context) ;;
          onTarget (callback res))
         (fun err => onService (log (ConsoleError EmptyString err))))
      (setIsRefining false)
  else ret tt.

End Refine.

End App.

(** ** Module numbering, components/SessionPlanTable.tsx *)

Module SessionPlanTable.

Local Open Scope nat_scope.

(** What a render shows of one module as numbering: the label before its
    title and the labels before its sub-modules. *)
Record ModuleRow : Type := {
  label : string;
  subLabels : list string
}.

(** [module.subModules.map((sub, sIdx) => `${currentModuleNum}.${sIdx+1}`)],
    from index [sIdx]. *)
Fixpoint subLabelsFrom (currentModuleNum sIdx : nat) (subs : list JSValue)
    : list string :=
  match subs with
  | [] => []
  | _ :: rest =>
      (ofNat currentModuleNum ++ "." ++ ofNat (sIdx + 1))
        :: subLabelsFrom currentModuleNum (S sIdx) rest
  end.

(** One module of [day.modules.map]; the state is [globalModuleCounter]. *)
Definition renderModule (module : ModuleContent) : Comp nat ModuleRow :=
  fun globalModuleCounter =>
    let currentModuleNum := globalModuleCounter in
    let globalModuleCounter := globalModuleCounter + 1 in
    match JS.get "subModules" module with
    | JArr subs =>
        (Ok {| label := ofNat currentModuleNum ++ ".";
               subLabels := subLabelsFrom currentModuleNum 0 subs |},
         globalModuleCounter)
    | _ => (Throw TypeError, globalModuleCounter)
    end.

(** [day.reviewQuestions.join('\n')], the value of the text area of the
    review questions: a [TypeError] when [reviewQuestions] is no array, for
    it has no [join] then. *)
Definition reviewQuestionsText (day : DayPlan) : result string :=
  match reviewQuestions day with
  | JArr questions => Ok (JS.join lf questions)
  | _ => Throw TypeError
  end.

(** One day of [plan.schedule.map]: its module rows, and below them the
    summary row with the text area of the review questions. *)
Definition renderDay (day : DayPlan) : Comp nat (list ModuleRow) :=
  rows <- forEach renderModule (modules day) ;;
  lift (reviewQuestionsText day) ;;;
  ret rows.

(** The numbering of one render: [globalModuleCounter] starts at 1. *)
Definition render (plan : CoursePlan) : result (list (list ModuleRow)) :=
  let globalModuleCounter := 1 in
  fst (forEach renderDay (schedule plan) globalModuleCounter).

(** Every module has an array of sub-modules and every day an array of
    review questions, as [ModuleContent] and [DayPlan] declare. *)
Definition wellFormed (plan : CoursePlan) : Prop :=
  forall day, In day (schedule plan) ->
    (forall module, In module (modules day) ->
       exists subs, JS.get "subModules" module = JArr subs) /\
    (exists questions, reviewQuestions day = JArr questions).

End SessionPlanTable.

(** ** A scripted platform

    A world whose remote capability answers from a script, one reply per
    call, for running the service on concrete inputs. *)

Record Script : Type := {
  replies : list (result Response);
  storedKey : option string;
  envKey : result (option string);
  clock : Z
}.

Definition scripted : Platform := {|
  World := Script;
  generateContent := fun _ _ w =>
    match replies w with
    | [] => (Throw (RemoteFailure "connection lost"), w)
    | r :: rest =>
        (r, {| replies := rest; storedKey := storedKey w;
               envKey := envKey w; clock := clock w |})
    end;
  localStorage_getItem := fun k w =>
    if String.eqb k "MY_TTT_API_KEY" then storedKey w else None;
  process_env_API_KEY := envKey;
  Date_now := fun w =>
    (clock w, {| replies := replies w; storedKey := storedKey w;
                 envKey := envKey w; clock := (clock w + 1)%Z |})
|}.

(** A world with a key in localStorage and the given script. *)
Definition scriptedWorld (rs : list (result Response)) : Script :=
  {| replies := rs; storedKey := Some "key"; envKey := Ok None;
     clock := 1700000000000%Z |}.

Definition scriptedState (rs : list (result Response))
    : State (@World scripted) (list string) :=
  {| world := scriptedWorld rs; sink := []; console := [] |}.

(** [JSON.stringify(v)] for values whose strings need no escape. *)
Fixpoint stringify (v : JSValue) : string :=
  match v with
  | JUndefined => "undefined"
  | JNull => "null"
  | JBool true => "true"
  | JBool false => "false"
  | JNum n => ofNumber n
  | JStr s => dq ++ s ++ dq
  | JArr l => "[" ++ String.concat "," (map stringify l) ++ "]"
  | JObj o =>
      "{" ++ String.concat ","
               (map (fun kv : string * JSValue => let (k, x) := kv in
                               dq ++ k ++ dq ++ ":" ++ stringify x) o)
          ++ "}"
  end.

(** A response whose text is the JSON of [v]. *)
Definition jsonResponse (v : JSValue) : Response :=
  {| text := Some (stringify v); parsed := Some v |}.

(** A response whose text is plain text, no JSON. *)
Definition textResponse (t : string) : Response :=
  {| text := Some t; parsed := None |}.

(** A response without text. *)
Definition emptyResponse : Response := {| text := None; parsed := None |}.

(** A sink that keeps the messages, as [setLoadingMsg] keeps the last. *)
Definition keepMessages : option (string -> list string -> list string) :=
  Some (fun msg log => (log ++ [msg])%list).


(** ** Sample data *)

Definition leadership : CourseBasics :=
  {| trainerName := "Aina"; courseTitle := "Leadership 101";
     duration := "2 Days"; location := "Kuala Lumpur" |}.

Definition noIceBreaker : IceBreaker :=
  {| ib_title := EmptyString; ib_description := EmptyString;
     ib_duration := EmptyString |}.

Definition listening : ModuleContent :=
  mkModule "d0-m0-1700000000000" "Listening" [] EmptyString EmptyString "1 hour".

Definition feedback : ModuleContent :=
  mkModule "d0-m1-1700000000000" "Feedback" [] EmptyString EmptyString "2 hours".

Definition coaching : ModuleContent :=
  mkModule "d1-m0-1700000000000" "Coaching" [] EmptyString EmptyString "3 hours".

(** A two-day skeleton as [generateCourseStructure] makes it. *)
Definition skeletonDay1 : DayPlan :=
  {| dayNumber := 1; iceBreaker := noIceBreaker; recap := None;
     modules := [listening; feedback];
     summary := JStr "Key takeaways and Q&A"; reviewQuestions := JArr [] |}.

Definition skeletonDay2 : DayPlan :=
  {| dayNumber := 2; iceBreaker := noIceBreaker;
     recap := Some "Recap of previous day";
     modules := [coaching];
     summary := JStr "Key takeaways and Q&A"; reviewQuestions := JArr [] |}.

(** A module-detail response that proposes a title and an id of its own. *)
Definition detailOf (title : string) : JSValue :=
  JObj [("id", JStr "generated-id"); ("title", JStr title);
        ("subModules", JArr [JStr "Key ideas"; JStr "Practice"]);
        ("methodology", JStr "Lecture: concepts. Activity: role play.");
        ("resources", JStr "Slides, Video"); ("duration", JStr "45 mins")].

(** A day-summary response with both fields. *)
Definition summaryOf (text : string) : JSValue :=
  JObj [("summary", JStr text);
        ("reviewQuestions", JArr [JStr "What did you learn?"])].

(** A day-summary response that lacks the summary. *)
Definition questionsOnly : JSValue :=
  JObj [("reviewQuestions", JArr [JStr "What did you learn?"])].

Definition twoDays : list DayPlan := [skeletonDay1; skeletonDay2].

(** A run in which the detail call of the second module of day 1 fails. *)
Definition oneFailure : list (result Response) :=
  [Ok (jsonResponse (detailOf "Active Listening"));
   Throw (RemoteFailure "503 Service Unavailable");
   Ok (jsonResponse (summaryOf "Day 1 in short."));
   Ok (jsonResponse (detailOf "Coaching Conversations"));
   Ok (jsonResponse (summaryOf "Day 2 in short."))].

(** A run of day 1 in which the day-summary response lacks the summary. *)
Definition summaryMissing : list (result Response) :=
  [Ok (jsonResponse (detailOf "Active Listening"));
   Ok (jsonResponse (detailOf "Giving Feedback"));
   Ok (jsonResponse questionsOnly)].

(** A structure response with a single day, numbered 7. *)
Definition oneDayNumberedSeven : JSValue :=
  JArr [JObj [("dayNumber", JNum 7);
              ("modules",
               JArr [JObj [("title", JStr "Overview");
                           ("duration", JStr "1 hour")]])]].

(** A finished plan: two modules on day 1, none on day 2, one on day 3. *)
Definition finishedPlan : CoursePlan :=
  {| plan_id := None; lastModified := None;
     basics := leadership; outcomes := [];
     schedule :=
       [ {| dayNumber := 1; iceBreaker := noIceBreaker; recap := None;
            modules :=
              [mkModule "a" "Listening" ["Paraphrasing"; "Questions"]
                 "Lecture" "Slides" "1 hour";
               mkModule "b" "Feedback" ["Models"] "Activity" "Video" "2 hours"];
            summary := JStr "Day 1 in short."; reviewQuestions := JArr [] |};
         {| dayNumber := 2; iceBreaker := noIceBreaker;
            recap := Some "Recap of previous day"; modules := [];
            summary := JStr "Day 2 in short."; reviewQuestions := JArr [] |};
         {| dayNumber := 3; iceBreaker := noIceBreaker;
            recap := Some "Recap of previous day";
            modules :=
              [mkModule "c" "Coaching" ["GROW"; "Practice"; "Review"]
                 "Activity" "Flipchart" "3 hours"];
            summary := JStr "Day 3 in short."; reviewQuestions := JArr [] |} ]
  |}.

(** An updater callback: it overwrites the field it was made for. *)
Definition overwrite (newText : string) : Comp string unit :=
  fun _ => (Ok tt, newText).

(** The wizard in front of a methodology field, with a remote capability
    that will fail. *)
Definition refiningUI : App.UI (platform := scripted) :=
  {| App.service :=
       scriptedState [Throw (RemoteFailure "503 Service Unavailable")];
     App.isRefining := false;
     App.target := "Lecture: concepts." |}.

(** A run of day 1 on the earlier revision in which the day-summary
    response has a summary and no review questions. *)
Definition questionsMissing : list (result Response) :=
  [Ok (jsonResponse (detailOf "Active Listening"));
   Ok (jsonResponse (detailOf "Giving Feedback"));
   Ok (jsonResponse (JObj [("summary", JStr "Day 1 in short.")]))].

(** A scripted state with the key in the environment, where the earlier
    revision looks for it. *)
Definition legacyState (rs : list (result Response))
    : State (@World scripted) (list string) :=
  {| world := {| replies := rs; storedKey := None;
                 envKey := Ok (Some "key"); clock := 1700000000000%Z |};
     sink := []; console := [] |}.

(** A structure response with two days. *)
Definition twoDayStructure : JSValue :=
  JArr [JObj [("dayNumber", JNum 1);
              ("modules",
               JArr [JObj [("title", JStr "Listening");
                           ("duration", JStr "1 hour")];
                     JObj [("id", JStr "m-2"); ("title", JStr "Feedback");
                           ("duration", JStr "2 hours")]])];
        JObj [("dayNumber", JNum 2);
              ("modules",
               JArr [JObj [("title", JStr "Coaching");
                           ("duration", JStr "3 hours")]])]].

From Stdlib Require Import DecimalZ DecimalPos Permutation Sorted.

(** ** The other generators of the service *)

Section Generators.

Context {platform : Platform} {Sink : Type}.

Local Abbreviation M := (Comp (State World Sink)).

(** *** Step 2: outcomes *)

Definition outcomesPrompt (basics : CourseBasics) : string :=
  "
    Act as a Master Trainer certified by HRD Corp Malaysia.
    I need 5 suggested Learning Outcomes (LO) for a training course with the following details:
    Title: " ++ courseTitle basics ++ "
    Target Audience/Context: General professional training.

    CRITICAL INSTRUCTION: Use simple, plain English (CEFR B2 level). Avoid overly complex academic jargon. 
    The outcomes must be action-oriented (e.g., " ++ dq ++ "Analyze" ++ dq ++ ", " ++ dq ++ "Demonstrate" ++ dq ++ ", " ++ dq ++ "Apply" ++ dq ++ ") adhering to Bloom's Taxonomy.
  ".

Definition outcomesSchema : Schema :=
  TArray (TObject [("text", TString)] []).

(** [`lo-${Date.now()}-${index}`]; a time value is an integer below 2^53
    in absolute value, and prints as its digits. *)
Definition outcomeId (t : Z) (index : nat) : string :=
  "lo-" ++ ofZ t ++ "-" ++ ofNat index.

(** One outcome, [raw.map((item, index) => ({ id: ..., text: item.text }))]:
    the clock is read first, then the item, whose [text] goes into the
    outcome whatever it is ([undefined] when the item has none). *)
Definition mintOutcome (index : nat) (item : JSValue) : M LearningOutcome :=
  t <- now ;;
  x <- member item "text" ;;
  ret {| lo_id := outcomeId t index; lo_text := x |}.

Definition generateOutcomes (basics : CourseBasics) : M (list LearningOutcome) :=
  ai <- getClient ;;
  let prompt := outcomesPrompt basics in
  response <- call ai {| model := "gemini-3-flash-preview";
                         contents := prompt;
                         config := jsonConfig outcomesSchema |} ;;
  raw <- JSON_parse_or (JArr []) response ;;
  match raw with
  | JArr l => mapIndexed mintOutcome 0 l
  | _ => throw TypeError
  end.

(** *** Step 4: ice breaker options *)

Definition iceBreakerPrompt (dayNum : Z) : string :=
  "
    Suggest 3 different, creative, high-energy Ice Breaker activities suitable for Day " ++ ofNumber dayNum ++ " of a corporate training.
    
    Requirements:
    1. Simple English.
    2. Duration approx 15-30 mins.
    3. Include Title, Description (how to run it), and Duration.
  ".

Definition iceBreakerSchema : Schema :=
  TArray (TObject [("title", TString); ("description", TString);
                   ("duration", TString)] []).

(** The options for a day: whatever the response parses to. *)
Definition generateIceBreakerOptions (dayNum : Z) : M JSValue :=
  ai <- getClient ;;
  let prompt := iceBreakerPrompt dayNum in
  response <- call ai {| model := "gemini-3-flash-preview";
                         contents := prompt;
                         config := jsonConfig iceBreakerSchema |} ;;
  JSON_parse_or (JArr []) response.

(** *** What the remote capability answered *)

(** The outcome of the first call of the remote capability in a run from
    [st], the call being made with [request] by the client that [getClient]
    returns; the error of [getClient] when it returns none. *)
Definition firstReply (request : Request) (st : State World Sink)
    : result Response :=
  match getClient st with
  | (Ok ai, st0) => fst (call ai request st0)
  | (Throw e, _) => Throw e
  end.

(** The requests of the three generators. *)
Definition outcomesRequest (basics : CourseBasics) : Request :=
  {| model := "gemini-3-flash-preview";
     contents := outcomesPrompt basics;
     config := jsonConfig outcomesSchema |}.

Definition structureRequest (basics : CourseBasics)
    (outcomes : list LearningOutcome) : Request :=
  {| model := "gemini-3-flash-preview";
     contents := structurePrompt basics
                   (numDaysOf (toLowerCase (duration basics)))
                   (outcomesTextOf outcomes);
     config := jsonConfig structureSchema |}.

Definition iceBreakerRequest (dayNum : Z) : Request :=
  {| model := "gemini-3-flash-preview";
     contents := iceBreakerPrompt dayNum;
     config := jsonConfig iceBreakerSchema |}.

(** A computation of the service that leaves the progress sink alone. *)
Definition keepsSink {A} (m : M A) : Prop :=
  forall st, sink (snd (m st)) = sink st.

(** A response without text, or with the empty text. *)
Definition noText (response : Response) : bool :=
  match text response with
  | None | Some EmptyString => true
  | Some _ => false
  end.

(** [`d${dIdx}-m${mIdx}-${Date.now()}`], the id [hydrateModule] mints. *)
Definition moduleId (dIdx mIdx : nat) (t : Z) : string :=
  "d" ++ ofNat dIdx ++ "-m" ++ ofNat mIdx ++ "-" ++ ofZ t.

(** No minus sign occurs in [s]. *)
Definition noDash (s : string) : Prop :=
  ~ In "-"%char (list_ascii_of_string s).

(** The id of a module of the skeleton that the service minted for the
    module at [(dIdx, mIdx)]. *)
Definition mintedFor (id : JSValue) (k : nat * nat) : Prop :=
  exists t, id = JStr (moduleId (fst k) (snd k) t).

(** A structure response none of whose modules brings an id of its own. *)
Definition withoutIds (rawDays : list JSValue) : Prop :=
  forall d ms m, In d rawDays -> JS.member d "modules" = Some (JArr ms) ->
    In m ms -> forall x, JS.member m "id" = Some x -> JS.truthy x = false.

(** The ids of the modules of a skeleton, day after day. *)
Definition moduleIds (days : list DayPlan) : list JSValue :=
  List.concat (map (fun day => map (JS.get "id") (modules day)) days).

End Generators.

(** ** The component state and the handlers of App.tsx *)

Inductive GenerationStatus : Type :=
| IDLE
| GENERATING_OUTCOMES
| GENERATING_STRUCTURE
| GENERATING_ICEBREAKERS
| GENERATING_PLAN
| COMPLETE
| ERROR.

Module Component.

Local Open Scope nat_scope.

(** The state variables of the component.  [basics] and [outcomes] are
    [basics_] and [outcomes_] here, the plain names being the fields of
    [CoursePlan]; [loadingMsg] is kept with the service, as the state of its
    progress sink; [iceBreakerOptions] is the object it is, with the day
    indices as property names. *)
Record Data : Type := {
  step : nat;
  maxStepReached : nat;
  status : GenerationStatus;
  isRefining : bool;
  error : option string;
  showSavedMenu : bool;
  savedCourses : list CoursePlan;
  basics_ : CourseBasics;
  outcomes_ : list LearningOutcome;
  structure : list DayPlan;
  iceBreakerOptions : JSObject;
  coursePlan : option CoursePlan
}.

(** The state of the first render. *)
Definition initial : Data :=
  {| step := 1; maxStepReached := 1; status := IDLE; isRefining := false;
     error := None; showSavedMenu := false; savedCourses := [];
     basics_ := {| trainerName := EmptyString; courseTitle := EmptyString;
                   duration := "1 Day"; location := EmptyString |};
     outcomes_ := []; structure := []; iceBreakerOptions := [];
     coursePlan := None |}.

Definition setStep (n : nat) (c : Data) : Data :=
  {| step := n; maxStepReached := maxStepReached c; status := status c;
     isRefining := isRefining c; error := error c;
     showSavedMenu := showSavedMenu c; savedCourses := savedCourses c;
     basics_ := basics_ c; outcomes_ := outcomes_ c; structure := structure c;
     iceBreakerOptions := iceBreakerOptions c; coursePlan := coursePlan c |}.

Definition setMaxStepReached (n : nat) (c : Data) : Data :=
  {| step := step c; maxStepReached := n; status := status c;
     isRefining := isRefining c; error := error c;
     showSavedMenu := showSavedMenu c; savedCourses := savedCourses c;
     basics_ := basics_ c; outcomes_ := outcomes_ c; structure := structure c;
     iceBreakerOptions := iceBreakerOptions c; coursePlan := coursePlan c |}.

Definition setStatus (x : GenerationStatus) (c : Data) : Data :=
  {| step := step c; maxStepReached := maxStepReached c; status := x;
     isRefining := isRefining c; error := error c;
     showSavedMenu := showSavedMenu c; savedCourses := savedCourses c;
     basics_ := basics_ c; outcomes_ := outcomes_ c; structure := structure c;
     iceBreakerOptions := iceBreakerOptions c; coursePlan := coursePlan c |}.

Definition setError (x : option string) (c : Data) : Data :=
  {| step := step c; maxStepReached := maxStepReached c; status := status c;
     isRefining := isRefining c; error := x;
     showSavedMenu := showSavedMenu c; savedCourses := savedCourses c;
     basics_ := basics_ c; outcomes_ := outcomes_ c; structure := structure c;
     iceBreakerOptions := iceBreakerOptions c; coursePlan := coursePlan c |}.

Definition setShowSavedMenu (x : bool) (c : Data) : Data :=
  {| step := step c; maxStepReached := maxStepReached c; status := status c;
     isRefining := isRefining c; error := error c;
     showSavedMenu := x; savedCourses := savedCourses c;
     basics_ := basics_ c; outcomes_ := outcomes_ c; structure := structure c;
     iceBreakerOptions := iceBreakerOptions c; coursePlan := coursePlan c |}.

Definition setSavedCourses (x : list CoursePlan) (c : Data) : Data :=
  {| step := step c; maxStepReached := maxStepReached c; status := status c;
     isRefining := isRefining c; error := error c;
     showSavedMenu := showSavedMenu c; savedCourses := x;
     basics_ := basics_ c; outcomes_ := outcomes_ c; structure := structure c;
     iceBreakerOptions := iceBreakerOptions c; coursePlan := coursePlan c |}.

Definition setBasics (x : CourseBasics) (c : Data) : Data :=
  {| step := step c; maxStepReached := maxStepReached c; status := status c;
     isRefining := isRefining c; error := error c;
     showSavedMenu := showSavedMenu c; savedCourses := savedCourses c;
     basics_ := x; outcomes_ := outcomes_ c; structure := structure c;
     iceBreakerOptions := iceBreakerOptions c; coursePlan := coursePlan c |}.

Definition setOutcomes (x : list LearningOutcome) (c : Data) : Data :=
  {| step := step c; maxStepReached := maxStepReached c; status := status c;
     isRefining := isRefining c; error := error c;
     showSavedMenu := showSavedMenu c; savedCourses := savedCourses c;
     basics_ := basics_ c; outcomes_ := x; structure := structure c;
     iceBreakerOptions := iceBreakerOptions c; coursePlan := coursePlan c |}.

Definition setStructure (x : list DayPlan) (c : Data) : Data :=
  {| step := step c; maxStepReached := maxStepReached c; status := status c;
     isRefining := isRefining c; error := error c;
     showSavedMenu := showSavedMenu c; savedCourses := savedCourses c;
     basics_ := basics_ c; outcomes_ := outcomes_ c; structure := x;
     iceBreakerOptions := iceBreakerOptions c; coursePlan := coursePlan c |}.

(** [setIceBreakerOptions(prev => f prev)]. *)
Definition setIceBreakerOptions (f : JSObject -> JSObject) (c : Data) : Data :=
  {| step := step c; maxStepReached := maxStepReached c; status := status c;
     isRefining := isRefining c; error := error c;
     showSavedMenu := showSavedMenu c; savedCourses := savedCourses c;
     basics_ := basics_ c; outcomes_ := outcomes_ c; structure := structure c;
     iceBreakerOptions := f (iceBreakerOptions c); coursePlan := coursePlan c |}.

Definition setCoursePlan (x : option CoursePlan) (c : Data) : Data :=
  {| step := step c; maxStepReached := maxStepReached c; status := status c;
     isRefining := isRefining c; error := error c;
     showSavedMenu := showSavedMenu c; savedCourses := savedCourses c;
     basics_ := basics_ c; outcomes_ := outcomes_ c; structure := structure c;
     iceBreakerOptions := iceBreakerOptions c; coursePlan := x |}.

(** What the navigation sees of the component. *)
Definition wizardOf (c : Data) : App.Wizard :=
  {| App.step := step c;
     App.maxStepReached := maxStepReached c;
     App.hasPlan := match coursePlan c with Some _ => true | None => false end |}.

(** [l] with [x] at index [i], for an index of [l]. *)
Fixpoint replaceNth {A} (i : nat) (x : A) (l : list A) : list A :=
  match i, l with
  | _, [] => []
  | 0, _ :: rest => x :: rest
  | S j, y :: rest => y :: replaceNth j x rest
  end.

Definition withModules (ms : list ModuleContent) (day : DayPlan) : DayPlan :=
  {| dayNumber := dayNumber day; iceBreaker := iceBreaker day;
     recap := recap day; modules := ms; summary := summary day;
     reviewQuestions := reviewQuestions day |}.

Definition withIceBreaker (option : IceBreaker) (day : DayPlan) : DayPlan :=
  {| dayNumber := dayNumber day; iceBreaker := option;
     recap := recap day; modules := modules day; summary := summary day;
     reviewQuestions := reviewQuestions day |}.

(** [{...m, subModules: [], methodology: '', resources: ''}]. *)
Definition emptied (m : ModuleContent) : ModuleContent :=
  JS.set "resources" (JStr EmptyString)
    (JS.set "methodology" (JStr EmptyString)
       (JS.set "subModules" (JArr []) m)).

(** [{...d, modules: d.modules.map(m => ...)}]. *)
Definition approximate (d : DayPlan) : DayPlan :=
  withModules (map emptied (modules d)) d.

(** The module that [addModule] pushes. *)
Definition newModule (t : Z) : ModuleContent :=
  mkModule ("new-" ++ ofZ t) "New Module" [] EmptyString EmptyString "1 hour".

Section Handlers.

Context {platform : Platform}.

(** What the handlers run on: the state of the service, in which the
    progress sink is [loadingMsg], and the state of the component.  A
    handler is run to its end, awaited calls included (for generations in
    flight see [App.act]); so is [loadIceBreakerOptions] when
    [prepareIceBreakers] starts it without awaiting it. *)
Record Store : Type := {
  service : State World string;
  data : Data
}.

Local Abbreviation H := (Comp Store).

Definition onService {A} (m : Comp (State World string) A) : H A :=
  fun s =>
    let (r, st) := m (service s) in (r, {| service := st; data := data s |}).

(** A state setter. *)
Definition modify (f : Data -> Data) : H unit :=
  fun s => (Ok tt, {| service := service s; data := f (data s) |}).

Definition onData (f : Data -> Data) (s : Store) : Store :=
  {| service := service s; data := f (data s) |}.

Definition setLoadingMsg (msg : string) : H unit :=
  fun s => (Ok tt, {| service := {| world := world (service s); sink := msg;
                                     console := console (service s) |};
                      data := data s |}).

(** A handler is a closure of the render it was made in: the state variables
    it reads are those of that render, whatever it has set meanwhile. *)
Definition closure {A} (handler : Data -> H A) : H A :=
  fun s => handler (data s) s.

(** [advanceStep], in the closure of the render with state [c]. *)
Definition advanceStep (c : Data) (nextStep : nat) : H unit :=
  modify (setStep nextStep) ;;;
  if maxStepReached c <? nextStep then modify (setMaxStepReached nextStep)
  else ret tt.

(** Step 1 -> 2. *)
Definition generateSuggestedOutcomes : H unit :=
  closure (fun c =>
    if negb (nonEmpty (courseTitle (basics_ c)))
    then modify (setError (Some "Enter title"))
    else
      modify (setError None) ;;;
      modify (setStatus GENERATING_OUTCOMES) ;;;
      setLoadingMsg "Drafting simple English outcomes..." ;;;
      try_finally
        (try_catch
           (res <- onService (generateOutcomes (basics_ c)) ;;
            modify (setOutcomes res) ;;;
            advanceStep c 2)
           (fun err =>
              modify (setError (Some "Failed to generate outcomes")) ;;;
              modify (setOutcomes [{| lo_id := "1"; lo_text := JStr EmptyString |}]) ;;;
              advanceStep c 2))
        (onData (setStatus IDLE))).

(** Step 2 -> 3. *)
Definition generateStructure : H unit :=
  closure (fun c =>
    if List.length (outcomes_ c) <? 3
    then modify (setError (Some "Need at least 3 outcomes"))
    else
      modify (setError None) ;;;
      modify (setStatus GENERATING_STRUCTURE) ;;;
      setLoadingMsg "Outlining course modules..." ;;;
      try_finally
        (try_catch
           (res <- onService (generateCourseStructure (basics_ c) (outcomes_ c)) ;;
            modify (setStructure res) ;;;
            advanceStep c 3)
           (fun err => modify (setError (Some "Failed to outline structure"))))
        (onData (setStatus IDLE))).

(** Step 3: the structure is edited in place, day by index; a day that is
    not there makes the handler throw before it sets anything.  The day
    objects that are written to belong to the structure alone: the plan has
    days and modules of its own, made by [generateFinalPlanContent] or by
    [handleLoad]. *)
Definition addModule (dayIndex : nat) : H unit :=
  closure (fun c =>
    let newStruct := structure c in
    match nth_error newStruct dayIndex with
    | Some day =>
        t <- onService now ;;
        modify (setStructure
                  (replaceNth dayIndex
                     (withModules (modules day ++ [newModule t])%list day)
                     newStruct))
    | None => throw TypeError
    end).

(** [newStruct[dayIndex].modules[modIndex][field] = val], for the title and
    for the duration. *)
Definition updateModuleField (field : string) (dayIndex modIndex : nat)
    (val : string) : H unit :=
  closure (fun c =>
    let newStruct := structure c in
    match nth_error newStruct dayIndex with
    | Some day =>
        match nth_error (modules day) modIndex with
        | Some module =>
            modify (setStructure
                      (replaceNth dayIndex
                         (withModules
                            (replaceNth modIndex
                               (JS.set field (JStr val) module) (modules day))
                            day)
                         newStruct))
        | None => throw TypeError
        end
    | None => throw TypeError
    end).

Definition updateModuleTitle : nat -> nat -> string -> H unit :=
  updateModuleField "title".

(** The [onChange] of the duration input of view 3. *)
Definition updateModuleDuration : nat -> nat -> string -> H unit :=
  updateModuleField "duration".

(** [newStruct[dayIndex].modules.splice(modIndex, 1)]. *)
Definition removeModule (dayIndex modIndex : nat) : H unit :=
  closure (fun c =>
    let newStruct := structure c in
    match nth_error newStruct dayIndex with
    | Some day =>
        modify (setStructure
                  (replaceNth dayIndex
                     (withModules (App.removeNth modIndex (modules day)) day)
                     newStruct))
    | None => throw TypeError
    end).

Definition loadIceBreakerOptions (dayNum : Z) (dayIndex : nat) : H unit :=
  modify (setStatus GENERATING_ICEBREAKERS) ;;;
  setLoadingMsg ("Thinking of fun ideas for Day " ++ ofNumber dayNum ++ "...") ;;;
  try_finally
    (try_catch
       (opts <- onService (generateIceBreakerOptions dayNum) ;;
        modify (setIceBreakerOptions (JS.set (ofNat dayIndex) opts)))
       (fun e => onService (log (ConsoleError EmptyString e))))
    (onData (setStatus IDLE)).

(** Step 3 -> 4. *)
Definition prepareIceBreakers : H unit :=
  closure (fun c =>
    advanceStep c 4 ;;;
    if negb (JS.truthy (JS.get "0" (iceBreakerOptions c)))
    then loadIceBreakerOptions 1 0
    else ret tt).

Definition selectIceBreaker (dayIndex : nat) (option : IceBreaker) : H unit :=
  closure (fun c =>
    let newStruct := structure c in
    match nth_error newStruct dayIndex with
    | Some day =>
        modify (setStructure
                  (replaceNth dayIndex (withIceBreaker option day) newStruct))
    | None => throw TypeError
    end).

(** Step 4 -> 5. *)
Definition generateFinal : H unit :=
  closure (fun c =>
    modify (setError None) ;;;
    modify (setStatus GENERATING_PLAN) ;;;
    setLoadingMsg "Developing detailed content..." ;;;
    try_finally
      (try_catch
         (finalSchedule <-
            onService (generateFinalPlanContent (basics_ c) (outcomes_ c)
                         (structure c) (Some (fun msg _ => msg))) ;;
          modify (setCoursePlan
                    (Some {| plan_id := None; lastModified := None;
                             basics := basics_ c; outcomes := outcomes_ c;
                             schedule := finalSchedule |})) ;;;
          advanceStep c 5)
         (fun e => modify (setError (Some "Failed to generate final content"))))
      (onData (setStatus IDLE))).

Definition handleLoad (saved : CoursePlan) : H unit :=
  modify (setBasics (basics saved)) ;;;
  modify (setOutcomes (outcomes saved)) ;;;
  modify (setStructure (map approximate (schedule saved))) ;;;
  modify (setCoursePlan (Some saved)) ;;;
  modify (setStep 5) ;;;
  modify (setMaxStepReached 5) ;;;
  modify (setShowSavedMenu false).

(** The outcome rows of view 2: edit and removal go by id. *)
Definition editOutcome (id value : string) : H unit :=
  closure (fun c =>
    modify (setOutcomes
              (map (fun x => if String.eqb (lo_id x) id
                             then {| lo_id := lo_id x; lo_text := JStr value |}
                             else x)
                   (outcomes_ c)))).

Definition removeOutcome (id : string) : H unit :=
  closure (fun c =>
    modify (setOutcomes
              (filter (fun x => negb (String.eqb (lo_id x) id)) (outcomes_ c)))).

Definition addOutcome : H unit :=
  closure (fun c =>
    t <- onService now ;;
    modify (setOutcomes
              (outcomes_ c ++ [{| lo_id := ofZ t; lo_text := JStr EmptyString |}])%list)).

(** What view 3 offers to change the structure. *)
Inductive StructureEdit : Type :=
| AddModule (dayIndex : nat)
| SetTitle (dayIndex modIndex : nat) (val : string)
| SetDuration (dayIndex modIndex : nat) (val : string)
| RemoveModule (dayIndex modIndex : nat)
| SelectIceBreaker (dayIndex : nat) (option : IceBreaker).

Definition dayIndexOf (e : StructureEdit) : nat :=
  match e with
  | AddModule d | SetTitle d _ _ | SetDuration d _ _ | RemoveModule d _
  | SelectIceBreaker d _ => d
  end.

Definition edit (e : StructureEdit) : H unit :=
  match e with
  | AddModule d => addModule d
  | SetTitle d m val => updateModuleTitle d m val
  | SetDuration d m val => updateModuleDuration d m val
  | RemoveModule d m => removeModule d m
  | SelectIceBreaker d option => selectIceBreaker d option
  end.

(** An outcome [r] of a handler, run from [s], that has changed at most day
    [d] of the structure, and nothing at all when it threw. *)
Definition localTo (d : nat) (s : Store) (r : result unit * Store) : Prop :=
  let c := data s in
  let c' := data (snd r) in
  c' = setStructure (structure c') c /\
  List.length (structure c') = List.length (structure c) /\
  map dayNumber (structure c') = map dayNumber (structure c) /\
  (forall j, j <> d ->
     nth_error (structure c') j = nth_error (structure c) j) /\
  (forall err, fst r = Throw err -> err = TypeError /\ snd r = s) /\
  (nth_error (structure c) d = None -> fst r = Throw TypeError).

(** The state of the service when a handler has set [loadingMsg] to [msg]. *)
Definition announcing (msg : string) (s : Store) : State World string :=
  {| world := world (service s); sink := msg; console := console (service s) |}.

(** The state variable [loadingMsg]. *)
Definition loadingMsg (s : Store) : string := sink (service s).

Definition succeeds {A} (r : result A) : bool :=
  match r with Ok _ => true | Throw _ => false end.

End Handlers.

End Component.

(** ** Editing the plan, components/SessionPlanTable.tsx

    The table edits the plan through four helpers, each of which hands a new
    plan to [onUpdatePlan]; here they return that plan.  An index beyond the
    end of an array makes JavaScript extend the array; where the result is
    no value of the declared type (an array with holes, an outcome without
    id, a day without modules) the model stops with [IllTyped]. *)

Module TableEdit.

Import Component.

Local Open Scope nat_scope.

(** [keyof typeof plan.basics]. *)
Inductive BasicsField : Type :=
| TrainerName
| CourseTitle
| Duration
| Location.

Definition withBasics (b : CourseBasics) (plan : CoursePlan) : CoursePlan :=
  {| plan_id := plan_id plan; lastModified := lastModified plan;
     basics := b; outcomes := outcomes plan; schedule := schedule plan |}.

Definition withOutcomes (os : list LearningOutcome) (plan : CoursePlan)
    : CoursePlan :=
  {| plan_id := plan_id plan; lastModified := lastModified plan;
     basics := basics plan; outcomes := os; schedule := schedule plan |}.

Definition withSchedule (days : list DayPlan) (plan : CoursePlan) : CoursePlan :=
  {| plan_id := plan_id plan; lastModified := lastModified plan;
     basics := basics plan; outcomes := outcomes plan; schedule := days |}.

(** [{ ...plan.basics, [field]: value }]. *)
Definition setBasicsField (field : BasicsField) (value : string)
    (b : CourseBasics) : CourseBasics :=
  match field with
  | TrainerName =>
      {| trainerName := value; courseTitle := courseTitle b;
         duration := duration b; location := location b |}
  | CourseTitle =>
      {| trainerName := trainerName b; courseTitle := value;
         duration := duration b; location := location b |}
  | Duration =>
      {| trainerName := trainerName b; courseTitle := courseTitle b;
         duration := value; location := location b |}
  | Location =>
      {| trainerName := trainerName b; courseTitle := courseTitle b;
         duration := duration b; location := value |}
  end.

Definition updateBasics (field : BasicsField) (value : string)
    (plan : CoursePlan) : CoursePlan :=
  withBasics (setBasicsField field value (basics plan)) plan.

(** [newOutcomes[index] = { ...newOutcomes[index], text: value }]. *)
Definition updateOutcome (index : nat) (value : string) (plan : CoursePlan)
    : result CoursePlan :=
  match nth_error (outcomes plan) index with
  | Some o =>
      Ok (withOutcomes
            (replaceNth index {| lo_id := lo_id o; lo_text := JStr value |}
               (outcomes plan))
            plan)
  | None => Throw IllTyped
  end.

(** [newSchedule[dayIndex] = updater(newSchedule[dayIndex])]: the updater
    gets [undefined] (here [None]) when there is no such day, and what it
    returns then lands at [dayIndex]. *)
Definition updateDay (dayIndex : nat)
    (updater : option DayPlan -> result DayPlan) (plan : CoursePlan)
    : result CoursePlan :=
  match updater (nth_error (schedule plan) dayIndex) with
  | Ok day' =>
      if dayIndex <? List.length (schedule plan)
      then Ok (withSchedule (replaceNth dayIndex day' (schedule plan)) plan)
      else if dayIndex =? List.length (schedule plan)
      then Ok (withSchedule (schedule plan ++ [day']) plan)
      else Throw IllTyped
  | Throw e => Throw e
  end.

(** An updater of the form [d => ({ ...d, ... })]: on [undefined] it returns
    an object that is no [DayPlan]. *)
Definition spreading (f : DayPlan -> DayPlan) (d : option DayPlan)
    : result DayPlan :=
  match d with
  | Some day => Ok (f day)
  | None => Throw IllTyped
  end.

Definition updateModule (dayIndex modIndex : nat) (field : string)
    (value : JSValue) : CoursePlan -> result CoursePlan :=
  updateDay dayIndex (fun d =>
    match d with
    | Some day =>
        let newModules := modules day in
        match nth_error newModules modIndex with
        | Some module =>
            Ok (withModules
                  (replaceNth modIndex (JS.set field value module) newModules)
                  day)
        | None =>
            if modIndex =? List.length newModules
            then Ok (withModules (newModules ++ [[(field, value)]]) day)
            else Throw IllTyped
        end
    | None => Throw TypeError
    end).

(** *** The updaters of the cells of a day *)

Definition withRecap (val : string) (d : DayPlan) : DayPlan :=
  {| dayNumber := dayNumber d; iceBreaker := iceBreaker d; recap := Some val;
     modules := modules d; summary := summary d;
     reviewQuestions := reviewQuestions d |}.

Definition withSummary (val : JSValue) (d : DayPlan) : DayPlan :=
  {| dayNumber := dayNumber d; iceBreaker := iceBreaker d; recap := recap d;
     modules := modules d; summary := val;
     reviewQuestions := reviewQuestions d |}.

Definition withReviewQuestions (val : JSValue) (d : DayPlan) : DayPlan :=
  {| dayNumber := dayNumber d; iceBreaker := iceBreaker d; recap := recap d;
     modules := modules d; summary := summary d; reviewQuestions := val |}.

(** [s.split('\n')]: the pieces between the line feeds, at least one. *)
Fixpoint split_lf (s : string) : list string :=
  match s with
  | EmptyString => [EmptyString]
  | String c rest =>
      if Ascii.eqb c "010"%char then EmptyString :: split_lf rest
      else match split_lf rest with
           | piece :: pieces => String c piece :: pieces
           | [] => [String c EmptyString]
           end
  end.

(** The cells of a day that the table lets the trainer edit. *)
Inductive DayCell : Type :=
| Recap
| IceBreakerTitle
| IceBreakerDescription
| IceBreakerDuration
| Summary
| ReviewQuestions.

(** The [onChange] of a cell: [updateDay(dayIdx, d => ({ ...d, ... }))]. *)
Definition editCell (cell : DayCell) (val : string) (d : DayPlan) : DayPlan :=
  match cell with
  | Recap => withRecap val d
  | IceBreakerTitle =>
      withIceBreaker {| ib_title := val;
                        ib_description := ib_description (iceBreaker d);
                        ib_duration := ib_duration (iceBreaker d) |} d
  | IceBreakerDescription =>
      withIceBreaker {| ib_title := ib_title (iceBreaker d);
                        ib_description := val;
                        ib_duration := ib_duration (iceBreaker d) |} d
  | IceBreakerDuration =>
      withIceBreaker {| ib_title := ib_title (iceBreaker d);
                        ib_description := ib_description (iceBreaker d);
                        ib_duration := val |} d
  | Summary => withSummary (JStr val) d
  | ReviewQuestions => withReviewQuestions (JArr (map JStr (split_lf val))) d
  end.

Definition updateCell (dayIndex : nat) (cell : DayCell) (val : string)
    : CoursePlan -> result CoursePlan :=
  updateDay dayIndex (spreading (editCell cell val)).

(** *** The sub-modules of a module

    These handlers are made in the render of the module at
    [(dayIdx, mIdx)], from its [subModules]; the render throws on a module
    whose [subModules] is no array, and then there are none. *)

Definition onSubModules (dayIdx mIdx : nat)
    (f : list JSValue -> list JSValue) (plan : CoursePlan)
    : result CoursePlan :=
  match nth_error (schedule plan) dayIdx with
  | Some day =>
      match nth_error (modules day) mIdx with
      | Some module =>
          match JS.get "subModules" module with
          | JArr subs =>
              updateModule dayIdx mIdx "subModules" (JArr (f subs)) plan
          | _ => Throw TypeError
          end
      | None => Throw TypeError
      end
  | None => Throw TypeError
  end.

(** [newSubs[sIdx] = val], for [sIdx] an index of the sub-modules. *)
Definition editSubModule (dayIdx mIdx sIdx : nat) (val : string)
    : CoursePlan -> result CoursePlan :=
  onSubModules dayIdx mIdx (replaceNth sIdx (JStr val)).

(** [mod.subModules.filter((_, i) => i !== sIdx)]. *)
Definition removeSubModule (dayIdx mIdx sIdx : nat)
    : CoursePlan -> result CoursePlan :=
  onSubModules dayIdx mIdx (App.removeNth sIdx).

(** [[...mod.subModules, 'New Sub-module']]. *)
Definition addSubModule (dayIdx mIdx : nat) : CoursePlan -> result CoursePlan :=
  onSubModules dayIdx mIdx (fun subs => subs ++ [JStr "New Sub-module"])%list.

(** What the table lets the trainer change in a plan. *)
Inductive Edit : Type :=
| EditBasics (field : BasicsField) (value : string)
| EditOutcome (index : nat) (value : string)
| EditCell (dayIndex : nat) (cell : DayCell) (val : string)
| EditModule (dayIndex modIndex : nat) (field : string) (value : string)
| EditSubModule (dayIdx mIdx sIdx : nat) (val : string)
| RemoveSubModule (dayIdx mIdx sIdx : nat)
| AddSubModule (dayIdx mIdx : nat).

Definition applyEdit (e : Edit) (plan : CoursePlan) : result CoursePlan :=
  match e with
  | EditBasics field value => Ok (updateBasics field value plan)
  | EditOutcome index value => updateOutcome index value plan
  | EditCell dayIndex cell val => updateCell dayIndex cell val plan
  | EditModule dayIndex modIndex field value =>
      updateModule dayIndex modIndex field (JStr value) plan
  | EditSubModule dayIdx mIdx sIdx val => editSubModule dayIdx mIdx sIdx val plan
  | RemoveSubModule dayIdx mIdx sIdx => removeSubModule dayIdx mIdx sIdx plan
  | AddSubModule dayIdx mIdx => addSubModule dayIdx mIdx plan
  end.

(** The module at a place of the schedule. *)
Definition moduleAt (dayIndex modIndex : nat) (plan : CoursePlan)
    : option ModuleContent :=
  match nth_error (schedule plan) dayIndex with
  | Some day => nth_error (modules day) modIndex
  | None => None
  end.

(** The edits that the table of [plan] offers: each cell edits the place it
    is rendered from.  The cells of a module are its title, resources,
    methodology, duration and slide numbers. *)
Definition offered (e : Edit) (plan : CoursePlan) : Prop :=
  match e with
  | EditBasics _ _ => True
  | EditOutcome index _ => index < List.length (outcomes plan)
  | EditCell dayIndex _ _ => dayIndex < List.length (schedule plan)
  | EditModule dayIndex modIndex field _ =>
      In field ["title"; "resources"; "methodology"; "duration"; "slideNumbers"]
      /\ exists module, moduleAt dayIndex modIndex plan = Some module
  | EditSubModule dayIdx mIdx sIdx _ | RemoveSubModule dayIdx mIdx sIdx =>
      exists module subs,
        moduleAt dayIdx mIdx plan = Some module /\
        JS.get "subModules" module = JArr subs /\
        sIdx < List.length subs
  | AddSubModule dayIdx mIdx =>
      exists module subs,
        moduleAt dayIdx mIdx plan = Some module /\
        JS.get "subModules" module = JArr subs
  end.

(** A module whose [subModules] is an array. *)
Definition hasSubModules (module : ModuleContent) : Prop :=
  exists subs, JS.get "subModules" module = JArr subs.

(** A day that the table can render: its modules have arrays of sub-modules
    and its [reviewQuestions] is an array. *)
Definition renderable (day : DayPlan) : Prop :=
  Forall hasSubModules (modules day) /\
  exists questions, reviewQuestions day = JArr questions.

(** The numbers before the modules of days with [counts] modules, counted
    from [n]. *)
Fixpoint labelsFrom (n : nat) (counts : list nat) : list (list string) :=
  match counts with
  | [] => []
  | k :: rest =>
      map (fun i => ofNat i ++ ".") (seq n k) :: labelsFrom (n + k) rest
  end.

End TableEdit.

(** ** The course store, services/dbService.ts *)

(** A [SavedCourse] is a [CoursePlan] whose id and time stamp are set. *)
Record SavedCourse : Type := {
  saved_id : string;
  saved_lastModified : Z;
  saved_basics : CourseBasics;
  saved_outcomes : list LearningOutcome;
  saved_schedule : list DayPlan
}.

(** A saved course taken as the plan it extends. *)
Definition asPlan (c : SavedCourse) : CoursePlan :=
  {| plan_id := Some (saved_id c);
     lastModified := Some (saved_lastModified c);
     basics := saved_basics c;
     outcomes := saved_outcomes c;
     schedule := saved_schedule c |}.

Module Db.

(** *** The object store

    The store "courses" has the id as key path: it holds one record per key,
    [put] replaces the record of the same key or adds one, and [getAll]
    lists the records in the order of their keys.  Keys are compared byte by
    byte, which is the order of IndexedDB on the ids the application makes
    (UUIDs); the order only decides between courses saved in the same
    millisecond. *)
Definition ObjectStore : Type := list SavedCourse.

Fixpoint put (r : SavedCourse) (l : ObjectStore) : ObjectStore :=
  match l with
  | [] => [r]
  | x :: rest =>
      match String.compare (saved_id r) (saved_id x) with
      | Lt => r :: x :: rest
      | Eq => r :: rest
      | Gt => x :: put r rest
      end
  end.

Definition delete (id : string) (l : ObjectStore) : ObjectStore :=
  filter (fun x => negb (String.eqb (saved_id x) id)) l.

(** The keys are in strictly ascending order. *)
Definition keyed (l : ObjectStore) : Prop :=
  StronglySorted
    (fun a b => String.compare (saved_id a) (saved_id b) = Lt) l.

(** *** [Array.prototype.sort]

    A stable sort.  With a comparator that is consistent, as a difference of
    numbers is, the result does not depend on the algorithm; this one
    inserts from the right. *)
Section Sort.

Context {A : Type} (compareFn : A -> A -> Z).

Fixpoint insert (x : A) (l : list A) : list A :=
  match l with
  | [] => [x]
  | y :: rest =>
      if (0 <? compareFn x y)%Z then y :: insert x rest else x :: y :: rest
  end.

Definition sort (l : list A) : list A := fold_right insert [] l.

End Sort.

(** [(a, b) => b.lastModified - a.lastModified]. *)
Definition newestFirst (a b : SavedCourse) : Z :=
  (saved_lastModified b - saved_lastModified a)%Z.

(** Newest first: no record is older than one listed after it. *)
Definition newerOrSame (a b : SavedCourse) : Prop :=
  (saved_lastModified b <= saved_lastModified a)%Z.

(** *** The service *)

(** What the store needs of the browser besides the clock: whether the
    database opens, whether a transaction completes, and UUIDs. *)
Class Browser {platform : Platform} : Type := {
  indexedDB_open : World -> result unit * World;
  transaction : World -> result unit * World;
  crypto_randomUUID : World -> string * World
}.

Section Service.

Context {platform : Platform} {browser : Browser}.

Record Disk : Type := {
  world : World;
  courses : ObjectStore
}.

Local Abbreviation D := (Comp Disk).

Definition onWorld {A} (f : World -> A * World) : D A :=
  fun db => let (a, w) := f (world db) in
            (Ok a, {| world := w; courses := courses db |}).

(** [await openDB()]. *)
Definition openDB : D unit :=
  fun db => let (r, w) := indexedDB_open (world db) in
            (r, {| world := w; courses := courses db |}).

(** A transaction that changes the store by [f]: it completes, and the
    change is made, or it fails and the store stays as it was. *)
Definition commit (f : ObjectStore -> ObjectStore) : D unit :=
  fun db => let (r, w) := transaction (world db) in
            match r with
            | Ok _ => (Ok tt, {| world := w; courses := f (courses db) |})
            | Throw e => (Throw e, {| world := w; courses := courses db |})
            end.

Definition saveCourseToDB (plan : CoursePlan) : D string :=
  openDB ;;;
  id <- match plan_id plan with
        | Some (String c k) => ret (String c k)
        | Some EmptyString | None => onWorld crypto_randomUUID
        end ;;
  t <- onWorld Date_now ;;
  let savedItem :=
    {| saved_id := id; saved_lastModified := t;
       saved_basics := basics plan; saved_outcomes := outcomes plan;
       saved_schedule := schedule plan |} in
  commit (put savedItem) ;;;
  ret (saved_id savedItem).

Definition getAllCourses : D (list SavedCourse) :=
  openDB ;;;
  commit (fun l => l) ;;;
  fun db => (Ok (sort newestFirst (courses db)), db).

Definition deleteCourse (id : string) : D unit :=
  openDB ;;;
  commit (delete id).

End Service.

(** *** The name of an exported file *)

(** [s.replace(/\s+/g, '_')] on the bytes of [s]: every run of white space
    becomes one underscore.  [inRun] says that the bytes before were white
    space, for which the underscore is written already.  The class [\s] is
    the white space and the line terminators that [trim] removes. *)
Fixpoint underscored (inRun : bool) (l : list ascii) : list ascii :=
  let underscore := if inRun then [] else ["_"%char] in
  match l with
  | c1 :: l1 =>
      if ws1 c1 then underscore ++ underscored true l1 else
      match l1 with
      | c2 :: l2 =>
          if ws2 c1 c2 then underscore ++ underscored true l2 else
          match l2 with
          | c3 :: l3 =>
              if ws3 c1 c2 c3 then underscore ++ underscored true l3
              else c1 :: underscored false l1
          | [] => c1 :: underscored false l1
          end
      | [] => [c1]
      end
  | [] => []
  end.

(** [`${plan.basics.courseTitle.replace(/\s+/g, '_')}_TTT.${extension}`],
    the download name of [exportToJSON] and of [exportToMarkdown]. *)
Definition downloadName (plan : CoursePlan) (extension : string) : string :=
  string_of_list_ascii
    (underscored false (list_ascii_of_string (courseTitle (basics plan))))
    ++ "_TTT." ++ extension.

(** A white space character starts at the head of [l]. *)
Definition spaceAhead (l : list ascii) : bool :=
  match l with
  | c1 :: l1 =>
      ws1 c1 ||
      match l1 with
      | c2 :: l2 =>
          ws2 c1 c2 ||
          match l2 with
          | c3 :: _ => ws3 c1 c2 c3
          | [] => false
          end
      | [] => false
      end
  | [] => false
  end.

(** A white space character occurs in [l]. *)
Fixpoint hasSpace (l : list ascii) : bool :=
  match l with
  | [] => false
  | _ :: rest => spaceAhead l || hasSpace rest
  end.

End Db.

(** ** The saved courses of the component, App.tsx *)

Module Saved.

Import Component.

Section Handlers.

Context {platform : Platform} {browser : Db.Browser}.

(** What these handlers run on: the component with its service, the object
    store, and the alerts shown. *)
Record Machine : Type := {
  ui : Store;
  disk : Db.ObjectStore;
  alerts : list string
}.

Local Abbreviation H := (Comp Machine).

Definition onUI {A} (m : Comp Store A) : H A :=
  fun s =>
    let (r, u) := m (ui s) in
    (r, {| ui := u; disk := disk s; alerts := alerts s |}).

(** A function of the store service: it sees the world of the component and
    the object store. *)
Definition onDisk {A} (m : Comp Db.Disk A) : H A :=
  fun s =>
    let (r, db) := m {| Db.world := world (service (ui s));
                        Db.courses := disk s |} in
    (r, {| ui := {| service := {| world := Db.world db;
                                  sink := sink (service (ui s));
                                  console := console (service (ui s)) |};
                    data := data (ui s) |};
           disk := Db.courses db;
           alerts := alerts s |}).

Definition alert (msg : string) : H unit :=
  fun s => (Ok tt, {| ui := ui s; disk := disk s;
                      alerts := (alerts s ++ [msg])%list |}).

Definition loadSavedList : H unit :=
  try_catch
    (list <- onDisk Db.getAllCourses ;;
     onUI (modify (setSavedCourses (map asPlan list))))
    (fun e => onUI (onService (log (ConsoleError EmptyString e)))).

Definition handleSave : H unit :=
  fun s =>
    match coursePlan (data (ui s)) with
    | Some plan =>
        try_catch
          (onDisk (Db.saveCourseToDB plan) ;;;
           alert "Course saved successfully!" ;;;
           loadSavedList)
          (fun _ => alert "Failed to save") s
    | None => ret tt s
    end.

(** [handleDelete]; [confirmed] is the answer to [confirm]. *)
Definition handleDelete (id : string) (confirmed : bool) : H unit :=
  if confirmed then onDisk (Db.deleteCourse id) ;;; loadSavedList
  else ret tt.

End Handlers.

End Saved.

(** ** More sample data *)

(** A state without any API key. *)
Definition noKeyState : State (@World scripted) (list string) :=
  {| world := {| replies := []; storedKey := None; envKey := Ok None;
                 clock := 1700000000000%Z |};
     sink := []; console := [] |}.

(** An outcomes response with three outcomes. *)
Definition threeOutcomesResponse : JSValue :=
  JArr [JObj [("text", JStr "Apply active listening in meetings.")];
        JObj [("text", JStr "Demonstrate constructive feedback.")];
        JObj [("text", JStr "Analyze a coaching conversation.")]].

Definition threeOutcomes : list LearningOutcome :=
  [{| lo_id := "lo-1700000000000-0";
      lo_text := JStr "Apply active listening in meetings." |};
   {| lo_id := "lo-1700000000001-1";
      lo_text := JStr "Demonstrate constructive feedback." |};
   {| lo_id := "lo-1700000000002-2";
      lo_text := JStr "Analyze a coaching conversation." |}].

(** A structure response none of whose modules has an id, and one of whose
    modules carries content that the skeleton is not to take. *)
Definition structureWithoutIds : JSValue :=
  JArr [JObj [("dayNumber", JNum 1);
              ("modules",
               JArr [JObj [("title", JStr "Listening");
                           ("duration", JStr "1 hour");
                           ("methodology", JStr "Lecture")];
                     JObj [("title", JStr "Feedback");
                           ("duration", JStr "2 hours")]])];
        JObj [("dayNumber", JNum 2);
              ("modules",
               JArr [JObj [("title", JStr "Coaching");
                           ("duration", JStr "3 hours")]])]].

(** The service as the component starts it: [loadingMsg] is "Thinking...". *)
Definition scriptedService (rs : list (result Response))
    : State (@World scripted) string :=
  {| world := scriptedWorld rs; sink := "Thinking..."; console := [] |}.

(** The component in view 3, with the two-day skeleton as structure. *)
Definition structuring (rs : list (result Response))
    : Component.Store (platform := scripted) :=
  {| Component.service := scriptedService rs;
     Component.data :=
       {| Component.step := 3; Component.maxStepReached := 3;
          Component.status := IDLE; Component.isRefining := false;
          Component.error := None; Component.showSavedMenu := false;
          Component.savedCourses := [];
          Component.basics_ := leadership;
          Component.outcomes_ := threeOutcomes;
          Component.structure := twoDays;
          Component.iceBreakerOptions := [];
          Component.coursePlan := None |} |}.

(** The component in view 1, with the title typed in. *)
Definition starting (rs : list (result Response))
    : Component.Store (platform := scripted) :=
  {| Component.service := scriptedService rs;
     Component.data := Component.setBasics leadership Component.initial |}.

Definition nameGame : IceBreaker :=
  {| ib_title := "Name Game"; ib_description := "Everyone says a name.";
     ib_duration := "15 mins" |}.

(** A browser whose database opens and whose transactions complete. *)
Definition scriptedBrowser : Db.Browser (platform := scripted) :=
  @Db.Build_Browser scripted
    (fun w : Script => (Ok tt, w))
    (fun w : Script => (Ok tt, w))
    (fun w : Script =>
       ("uuid-" ++ ofZ (clock w),
        {| replies := replies w; storedKey := storedKey w;
           envKey := envKey w; clock := (clock w + 1)%Z |})).

(** Two saved courses, the second saved after the first. *)
Definition savedLeadership : SavedCourse :=
  {| saved_id := "course-a"; saved_lastModified := 1690000000000%Z;
     saved_basics := basics finishedPlan;
     saved_outcomes := threeOutcomes;
     saved_schedule := schedule finishedPlan |}.

Definition savedNegotiation : SavedCourse :=
  {| saved_id := "course-b"; saved_lastModified := 1695000000000%Z;
     saved_basics := {| trainerName := "Aina"; courseTitle := "Negotiation";
                        duration := "1 Day"; location := "Penang" |};
     saved_outcomes := []; saved_schedule := [] |}.

Definition twoCourses : Db.ObjectStore := [savedLeadership; savedNegotiation].

Definition scriptedDisk : Db.Disk (platform := scripted) :=
  @Db.Build_Disk scripted (scriptedWorld []) twoCourses.

(** The component with the store of two courses. *)
Definition browsing : Saved.Machine (platform := scripted) :=
  {| Saved.ui := structuring []; Saved.disk := twoCourses;
     Saved.alerts := [] |}.
(** * Properties *)

(** ** Strings *)

Lemma ws2_not_ws1 c1 c2 : ws2 c1 c2 = true -> ws1 c1 = false.
Proof.
  unfold ws2, ws1. intros H.
  apply andb_true_iff in H as [H _]. apply Nat.eqb_eq in H.
  now rewrite H.
Qed.

Lemma ws3_not_ws1 c1 c2 c3 : ws3 c1 c2 c3 = true -> ws1 c1 = false.
Proof.
  unfold ws3, ws1. intros H.
  repeat (apply orb_true_iff in H as [H|H]);
    repeat (apply andb_true_iff in H as [H ?]);
    apply Nat.eqb_eq in H; now rewrite H.
Qed.

Lemma ws3_not_ws2 c1 c2 c3 : ws3 c1 c2 c3 = true -> ws2 c1 c2 = false.
Proof.
  unfold ws3, ws2. intros H.
  repeat (apply orb_true_iff in H as [H|H]);
    repeat (apply andb_true_iff in H as [H ?]);
    apply Nat.eqb_eq in H; now rewrite H.
Qed.

(** Nothing is left of a blank text once its leading white space is gone. *)
Lemma dropStart_blank l : blank l -> dropStart l = [].
Proof.
  induction 1 as [|c l Hc _ IH|c1 c2 l Hc _ IH|c1 c2 c3 l Hc _ IH]; simpl.
  - reflexivity.
  - now rewrite Hc.
  - now rewrite (ws2_not_ws1 _ _ Hc), Hc.
  - now rewrite (ws3_not_ws1 _ _ _ Hc), (ws3_not_ws2 _ _ _ Hc), Hc.
Qed.

(** [trim] of a white-space-only text is the empty string. *)
Lemma trim_whitespaceOnly s : whitespaceOnly s -> trim s = EmptyString.
Proof.
  unfold whitespaceOnly, trim. intros H.
  now rewrite (dropStart_blank _ H).
Qed.

(** ** Numbers *)

(** Below 2^53 a Number that is an integer prints its decimal digits. *)
Lemma ofNumber_small (z : Z) :
  (Z.abs z < 9007199254740992)%Z -> ofNumber z = ofZ z.
Proof.
  intros H. unfold ofNumber. apply Z.ltb_lt in H. now rewrite H.
Qed.

(** ** Objects *)

Lemma get_set_same (k : string) (v : JSValue) (o : JSObject) :
  JS.get k (JS.set k v o) = v.
Proof.
  induction o as [|[k' v'] rest IH]; simpl.
  - now rewrite String.eqb_refl.
  - destruct (String.eqb k k') eqn:E; simpl; rewrite E; auto.
Qed.

Lemma get_set_other (k k' : string) (v : JSValue) (o : JSObject) :
  k <> k' -> JS.get k (JS.set k' v o) = JS.get k o.
Proof.
  intros Hne.
  induction o as [|[k0 v0] rest IH]; simpl.
  - apply String.eqb_neq in Hne. now rewrite Hne.
  - destruct (String.eqb k' k0) eqn:E; simpl.
    + apply String.eqb_eq in E. subst k0.
      apply String.eqb_neq in Hne. now rewrite Hne.
    + destruct (String.eqb k k0); auto.
Qed.

(** The module pushed on success has the identifier and the title of the
    skeleton's module, whatever the response holds. *)
Lemma enriched_id_title (partialMod : ModuleContent) (fullMod : JSValue) :
  JS.get "id" (enriched partialMod fullMod) = JS.get "id" partialMod /\
  JS.get "title" (enriched partialMod fullMod) = JS.get "title" partialMod.
Proof.
  unfold enriched. split.
  - rewrite get_set_other by discriminate. apply get_set_same.
  - apply get_set_same.
Qed.

(** The module pushed on failure is the skeleton's module with the sentinel
    as methodology. *)
Lemma fallback_fields (partialMod : ModuleContent) :
  JS.get "id" (fallback partialMod) = JS.get "id" partialMod /\
  JS.get "title" (fallback partialMod) = JS.get "title" partialMod /\
  JS.get "duration" (fallback partialMod) = JS.get "duration" partialMod /\
  JS.get "methodology" (fallback partialMod) = JStr "Error generating content.".
Proof.
  unfold fallback. repeat split;
    solve [ apply get_set_other; discriminate | apply get_set_same ].
Qed.

(** What the spread of the response brings: every property of the enriched
    module but [id] and [title] is the one of the response. *)
Lemma enriched_other (partialMod : ModuleContent) (fullMod : JSValue)
    (k : string) :
  k <> "id" -> k <> "title" ->
  JS.get k (enriched partialMod fullMod) = JS.get k (JS.spread fullMod).
Proof.
  intros Hid Htitle. unfold enriched.
  rewrite get_set_other by assumption. now apply get_set_other.
Qed.

(** The fallback changes no other property than the methodology. *)
Lemma fallback_other (partialMod : ModuleContent) (k : string) :
  k <> "methodology" -> JS.get k (fallback partialMod) = JS.get k partialMod.
Proof. intros Hk. unfold fallback. now apply get_set_other. Qed.

(** ** The loops of the orchestrator *)

Section ServiceFacts.

Context {platform : Platform} {Sink : Type}.

Implicit Types (st : State World Sink) (day : DayPlan)
  (partialMod : ModuleContent) (onProgress : option (string -> Sink -> Sink)).

(** One turn of the loop over the modules always pushes a module: the
    enriched one when the detail call gave a value, the fallback when it
    threw. *)
Lemma refineModule_run ai basics outcomesText onProgress day partialMod st :
  exists st',
    refineModule ai basics outcomesText onProgress day partialMod st =
      (Ok match fst (generateModuleDetail ai basics (JS.get "title" partialMod)
                       (dayNumber day) outcomesText
                       (snd (notify onProgress (writingMessage day partialMod) st)))
          with
          | Ok fullMod => enriched partialMod fullMod
          | Throw _ => fallback partialMod
          end, st').
Proof.
  unfold refineModule, bind, try_catch.
  destruct (notify onProgress (writingMessage day partialMod) st) as [r st1] eqn:En.
  assert (r = Ok tt) as ->.
  { unfold notify, ret in En. destruct onProgress; congruence. }
  simpl.
  destruct (generateModuleDetail ai basics (JS.get "title" partialMod)
              (dayNumber day) outcomesText st1) as [[fullMod|e] st2]; simpl;
    eexists; reflexivity.
Qed.

(** The loop over the modules of a day: it never throws, and pushes one
    module per module of the skeleton, each decided by the outcome of its
    own detail call. *)
Lemma module_loop ai basics outcomesText onProgress day ms st :
  exists refinedModules st',
    forEach (refineModule ai basics outcomesText onProgress day) ms st =
      (Ok refinedModules, st') /\
    List.length refinedModules = List.length ms /\
    forall j partialMod, nth_error ms j = Some partialMod ->
      exists r,
        nth_error (moduleOutcomes ai basics outcomesText onProgress day ms st) j
          = Some r /\
        nth_error refinedModules j =
          Some match r with
               | Ok fullMod => enriched partialMod fullMod
               | Throw _ => fallback partialMod
               end.
Proof.
  revert st. induction ms as [|m rest IH]; intros st.
  - exists [], st. repeat split. intros [|j] pm H; discriminate.
  - destruct (refineModule_run ai basics outcomesText onProgress day m st)
      as [st1 Hrun].
    destruct (IH st1) as (rms & st2 & Hloop & Hlen & Hnth).
    eexists (_ :: rms), st2. simpl.
    unfold bind at 1. rewrite Hrun.
    unfold bind at 1. rewrite Hloop. unfold ret.
    repeat split.
    + simpl. now rewrite Hlen.
    + intros [|j] pm H; simpl in *.
      * injection H as <-. eexists. split; reflexivity.
      * now apply Hnth.
Qed.

(** The second half of the loop body never throws: a failed call, a text
    that is no JSON and a [null] response all end in the placeholders of the
    skeleton, and a parsed object gives each field, or the placeholder of the
    field when it is falsy. *)
Lemma summarize_run ai basics day refinedModules st :
  exists st',
    summarize ai basics day refinedModules st =
      (Ok match fst (askSummary ai basics day refinedModules st) with
          | Ok parsed =>
              match JS.member parsed "summary",
                    JS.member parsed "reviewQuestions" with
              | Some s, Some q =>
                  (JS.or s (summary day), JS.or q (reviewQuestions day))
              | _, _ => (summary day, reviewQuestions day)
              end
          | Throw _ => (summary day, reviewQuestions day)
          end, st').
Proof.
  unfold summarize, try_catch, bind at 1.
  destruct (askSummary ai basics day refinedModules st) as [[parsed|e] st1];
    simpl.
  - unfold member, bind.
    destruct parsed; simpl; eexists; reflexivity.
  - eexists; reflexivity.
Qed.

(** The body of the loop over the days never throws. *)
Lemma refineDay_run ai basics outcomesText onProgress day st :
  exists refinedModules st1 st',
    forEach (refineModule ai basics outcomesText onProgress day)
      (modules day) st = (Ok refinedModules, st1) /\
    refineDay ai basics outcomesText onProgress day st =
      (Ok {| dayNumber := dayNumber day;
             iceBreaker := iceBreaker day;
             recap := recap day;
             modules := refinedModules;
             summary :=
               fst match summaryOutcome ai basics outcomesText onProgress day st with
                   | Ok parsed =>
                       match JS.member parsed "summary",
                             JS.member parsed "reviewQuestions" with
                       | Some s, Some q =>
                           (JS.or s (summary day), JS.or q (reviewQuestions day))
                       | _, _ => (summary day, reviewQuestions day)
                       end
                   | Throw _ => (summary day, reviewQuestions day)
                   end;
             reviewQuestions :=
               snd match summaryOutcome ai basics outcomesText onProgress day st with
                   | Ok parsed =>
                       match JS.member parsed "summary",
                             JS.member parsed "reviewQuestions" with
                       | Some s, Some q =>
                           (JS.or s (summary day), JS.or q (reviewQuestions day))
                       | _, _ => (summary day, reviewQuestions day)
                       end
                   | Throw _ => (summary day, reviewQuestions day)
                   end |}, st').
Proof.
  destruct (module_loop ai basics outcomesText onProgress day (modules day) st)
    as (rms & st1 & Hloop & _ & _).
  unfold refineDay, summaryOutcome. rewrite Hloop.
  unfold bind at 1. rewrite Hloop.
  unfold bind at 1.
  destruct (notify onProgress (finalizingMessage day) st1) as [r st2] eqn:En.
  assert (r = Ok tt) as ->.
  { unfold notify, ret in En. destruct onProgress; congruence. }
  destruct (summarize_run ai basics day rms st2) as [st3 Hsum].
  unfold bind at 1. rewrite Hsum. unfold ret. simpl.
  exists rms, st1, st3. split; reflexivity.
Qed.

(** The loop over the days: it never throws and pushes one day per day of
    the skeleton, each the result of the loop body in the state in which the
    loop reached it. *)
Lemma day_loop ai basics outcomesText onProgress skeleton st :
  exists days st',
    forEach (refineDay ai basics outcomesText onProgress) skeleton st =
      (Ok days, st') /\
    List.length days = List.length skeleton /\
    forall d day, nth_error skeleton d = Some day ->
      exists st_d day',
        nth_error (dayStates ai basics outcomesText onProgress skeleton st) d
          = Some st_d /\
        nth_error days d = Some day' /\
        fst (refineDay ai basics outcomesText onProgress day st_d) = Ok day'.
Proof.
  revert st. induction skeleton as [|day0 rest IH]; intros st.
  - exists [], st. repeat split. intros [|d] day H; discriminate.
  - destruct (refineDay_run ai basics outcomesText onProgress day0 st)
      as (rms & st1 & st2 & _ & Hrun).
    destruct (IH st2) as (days & st3 & Hloop & Hlen & Hnth).
    eexists (_ :: days), st3. simpl.
    unfold bind at 1. rewrite Hrun.
    unfold bind at 1. rewrite Hloop. unfold ret.
    repeat split.
    + simpl. now rewrite Hlen.
    + intros [|d] day H; simpl in *.
      * injection H as <-. eexists _, _. repeat split. now rewrite Hrun.
      * now apply Hnth.
Qed.

(** [getApiKey] does not throw, and finds a key exactly when one is stored
    or set in the environment. *)
Lemma getClient_run st :
  exists st0,
    world st0 = world st /\ sink st0 = sink st /\
    ((keyAvailable (world st) = true /\
      exists ai, getClient st = (Ok ai, st0)) \/
     (keyAvailable (world st) = false /\
      getClient st = (Throw MissingApiKey, st0))).
Proof.
  unfold getClient, getApiKey, keyAvailable, bind, read, try_catch, lift, log, ret,
    throw.
  destruct (localStorage_getItem "MY_TTT_API_KEY" (world st)) as [[|c k]|];
    simpl.
  - destruct (process_env_API_KEY (world st)) as [[[|c k]|]|e]; simpl;
      eexists; (split; [|split]);
      try (left; split; [reflexivity|eexists; reflexivity]);
      try (right; split; reflexivity); reflexivity.
  - eexists; (split; [|split]);
      try (left; split; [reflexivity|eexists; reflexivity]); reflexivity.
  - destruct (process_env_API_KEY (world st)) as [[[|c k]|]|e]; simpl;
      eexists; (split; [|split]);
      try (left; split; [reflexivity|eexists; reflexivity]);
      try (right; split; reflexivity); reflexivity.
Qed.

(** The orchestrator, once it has a client. *)
Lemma plan_run basics outcomes skeleton onProgress st ai st0 :
  getClient st = (Ok ai, st0) ->
  exists days st',
    generateFinalPlanContent basics outcomes skeleton onProgress st =
      (Ok days, st') /\
    List.length days = List.length skeleton /\
    forall d day, nth_error skeleton d = Some day ->
      exists st_d day',
        nth_error (dayStates ai basics (outcomesTextOf outcomes) onProgress
                     skeleton st0) d = Some st_d /\
        nth_error days d = Some day' /\
        fst (refineDay ai basics (outcomesTextOf outcomes) onProgress day st_d)
          = Ok day'.
Proof.
  intros Hc.
  destruct (day_loop ai basics (outcomesTextOf outcomes) onProgress skeleton st0)
    as (days & st' & Hloop & Hlen & Hnth).
  exists days, st'. unfold generateFinalPlanContent, bind. rewrite Hc.
  auto.
Qed.

Lemma dayStates_length ai basics outcomesText onProgress skeleton st :
  List.length (dayStates ai basics outcomesText onProgress skeleton st)
    = List.length skeleton.
Proof.
  revert st. induction skeleton as [|day rest IH]; intros st; simpl; auto.
Qed.

(** What [remoteOutcomes] lists for a day are the outcomes of that day's
    calls in the state in which the loop reached the day. *)
Lemma remoteOutcomes_nth basics outcomes skeleton onProgress st d day outs sres :
  nth_error skeleton d = Some day ->
  nth_error (remoteOutcomes basics outcomes skeleton onProgress st) d
    = Some (outs, sres) ->
  exists ai st0 st_d,
    getClient st = (Ok ai, st0) /\
    nth_error (dayStates ai basics (outcomesTextOf outcomes) onProgress
                 skeleton st0) d = Some st_d /\
    outs = moduleOutcomes ai basics (outcomesTextOf outcomes) onProgress day
             (modules day) st_d /\
    sres = summaryOutcome ai basics (outcomesTextOf outcomes) onProgress day st_d.
Proof.
  intros Hday Hout. unfold remoteOutcomes in Hout.
  destruct (getClient st) as [[ai|e] st0] eqn:Hc.
  2: { destruct d; discriminate. }
  exists ai, st0.
  set (sts := dayStates ai basics (outcomesTextOf outcomes) onProgress
                skeleton st0) in *.
  rewrite nth_error_map in Hout.
  destruct (nth_error (combine skeleton sts) d) as [[day0 st_d]|] eqn:Hc2;
    [|discriminate].
  simpl in Hout. injection Hout as <- <-.
  assert (Hlen : List.length sts = List.length skeleton)
    by apply dayStates_length.
  clearbody sts.
  assert (nth_error skeleton d = Some day0 /\ nth_error sts d = Some st_d)
    as [H1 H2].
  { clear Hday Hlen Hc. revert sts d Hc2.
    induction skeleton as [|x xs IH]; intros [|s ss] [|d] H; simpl in *;
      try discriminate.
    - injection H as <- <-. auto.
    - now apply IH. }
  rewrite Hday in H1. injection H1 as <-.
  exists st_d. auto.
Qed.

(** ** The orchestrator *)

(** C5 (amended).  [generateFinalPlanContent] raises an error to its caller
    exactly when no client can be made, the one error outside the per-item
    [try] scopes ([getClient] finds no API key); otherwise it returns a
    schedule with one day per day of the skeleton, whatever the remote
    capability does inside the loops.  An empty skeleton is no error: it
    gives the empty schedule. *)
Theorem orchestrator_fails_only_without_client
    basics outcomes skeleton onProgress st :
  exists days,
    List.length days = List.length skeleton /\
    fst (generateFinalPlanContent basics outcomes skeleton onProgress st) =
      if keyAvailable (world st) then Ok days else Throw MissingApiKey.
Proof.
  destruct (getClient_run st) as (st0 & _ & _ & [[Hk [ai Hc]]|[Hk Hc]]);
    rewrite Hk.
  - destruct (plan_run basics outcomes skeleton onProgress st ai st0 Hc)
      as (days & st' & Hrun & Hlen & _).
    exists days. rewrite Hrun. auto.
  - exists (repeat {| dayNumber := 0; iceBreaker := noIceBreaker;
                      recap := None; modules := []; summary := JNull;
                      reviewQuestions := JNull |} (List.length skeleton)).
    split; [apply repeat_length|].
    unfold generateFinalPlanContent, bind. now rewrite Hc.
Qed.

(** C2.  Identity preservation: with a client at hand the orchestrator
    returns a schedule in which, for every day and every module position,
    the module has the [id] and the [title] of the skeleton's module at that
    position; this holds for every behaviour of the remote capability, so on
    the success branch (whatever id or title the response holds) and on the
    failure branch. *)
Theorem identity_preservation basics outcomes skeleton onProgress st :
  keyAvailable (world st) = true ->
  exists days st',
    generateFinalPlanContent basics outcomes skeleton onProgress st =
      (Ok days, st') /\
    List.length days = List.length skeleton /\
    forall d day, nth_error skeleton d = Some day ->
      exists day',
        nth_error days d = Some day' /\
        List.length (modules day') = List.length (modules day) /\
        forall i partialMod, nth_error (modules day) i = Some partialMod ->
          exists refined,
            nth_error (modules day') i = Some refined /\
            JS.get "id" refined = JS.get "id" partialMod /\
            JS.get "title" refined = JS.get "title" partialMod.
Proof.
  intros Hk.
  destruct (getClient_run st) as (st0 & _ & _ & [[_ [ai Hc]]|[Hk' _]]);
    [|congruence].
  destruct (plan_run basics outcomes skeleton onProgress st ai st0 Hc)
    as (days & st' & Hrun & Hlen & Hnth).
  exists days, st'. repeat split; auto.
  intros d day Hd.
  destruct (Hnth d day Hd) as (st_d & day' & _ & Hd' & Hday).
  exists day'. split; [assumption|].
  destruct (refineDay_run ai basics (outcomesTextOf outcomes) onProgress day st_d)
    as (rms & st1 & st2 & Hloop & Hrd).
  rewrite Hrd in Hday. simpl in Hday. injection Hday as <-. simpl.
  destruct (module_loop ai basics (outcomesTextOf outcomes) onProgress day
              (modules day) st_d) as (rms' & st1' & Hloop' & Hl & Hm).
  rewrite Hloop in Hloop'. injection Hloop' as <- <-.
  split; [assumption|].
  intros i pm Hi. destruct (Hm i pm Hi) as (r & _ & Hr).
  eexists. split; [exact Hr|].
  destruct r as [fullMod|e].
  - apply enriched_id_title.
  - destruct (fallback_fields pm) as (H1 & H2 & _). auto.
Qed.

(** C1.  Per-item failure isolation: when, in a run of the orchestrator, the
    module-detail call of a day fails for exactly one module, at index [i],
    the orchestrator still returns a schedule; the day's module sequence has
    the length of the skeleton's; every other module is the enriched result
    of its own call, which is the response of that call with the id and the
    title of the skeleton's module: every property but these two is the one
    the response has, and is undefined when the response has none; and the
    module at [i] keeps its id, title and duration, as every property but
    the methodology, and has the sentinel as methodology. *)
Theorem per_item_failure_isolation
    basics outcomes skeleton onProgress st d day outs sres i e :
  nth_error skeleton d = Some day ->
  nth_error (remoteOutcomes basics outcomes skeleton onProgress st) d
    = Some (outs, sres) ->
  nth_error outs i = Some (Throw e) ->
  (forall j, j <> i -> j < List.length (modules day) ->
     exists fullMod, nth_error outs j = Some (Ok fullMod)) ->
  exists days st' day',
    generateFinalPlanContent basics outcomes skeleton onProgress st =
      (Ok days, st') /\
    nth_error days d = Some day' /\
    List.length (modules day') = List.length (modules day) /\
    (forall j partialMod, j <> i ->
       nth_error (modules day) j = Some partialMod ->
       exists fullMod refined,
         nth_error outs j = Some (Ok fullMod) /\
         nth_error (modules day') j = Some refined /\
         refined = enriched partialMod fullMod /\
         JS.get "id" refined = JS.get "id" partialMod /\
         JS.get "title" refined = JS.get "title" partialMod /\
         (forall k, k <> "id" -> k <> "title" ->
            JS.get k refined = JS.get k (JS.spread fullMod)) /\
         (forall response, fullMod = JObj response ->
            forall k, k <> "id" -> k <> "title" ->
              JS.get k refined = JS.get k response)) /\
    (exists partialMod failed,
       nth_error (modules day) i = Some partialMod /\
       nth_error (modules day') i = Some failed /\
       JS.get "id" failed = JS.get "id" partialMod /\
       JS.get "title" failed = JS.get "title" partialMod /\
       JS.get "duration" failed = JS.get "duration" partialMod /\
       JS.get "methodology" failed = JStr "Error generating content." /\
       (forall k, k <> "methodology" ->
          JS.get k failed = JS.get k partialMod)).
Proof.
  intros Hd Hout Hi Hothers.
  destruct (remoteOutcomes_nth _ _ _ _ _ _ _ _ _ Hd Hout)
    as (ai & st0 & st_d & Hc & Hst & -> & _).
  destruct (plan_run basics outcomes skeleton onProgress st ai st0 Hc)
    as (days & st' & Hrun & _ & Hnth).
  destruct (Hnth d day Hd) as (st_d' & day' & Hst' & Hd' & Hday).
  rewrite Hst in Hst'. injection Hst' as <-.
  exists days, st', day'. split; [assumption|]. split; [assumption|].
  destruct (refineDay_run ai basics (outcomesTextOf outcomes) onProgress day st_d)
    as (rms & st1 & st2 & Hloop & Hrd).
  rewrite Hrd in Hday. simpl in Hday. injection Hday as <-. simpl.
  destruct (module_loop ai basics (outcomesTextOf outcomes) onProgress day
              (modules day) st_d) as (rms' & st1' & Hloop' & Hl & Hm).
  rewrite Hloop in Hloop'. injection Hloop' as <- <-.
  split; [assumption|]. split.
  - intros j pm Hj Hpm.
    destruct (Hm j pm Hpm) as (r & Hr & Hrm).
    destruct (Hothers j Hj) as (fullMod & Hfull).
    { apply nth_error_Some. congruence. }
    rewrite Hfull in Hr. injection Hr as <-.
    exists fullMod, (enriched pm fullMod).
    destruct (enriched_id_title pm fullMod) as [Hid Htitle].
    repeat (split; [solve [auto]|]). split.
    + intros k. apply enriched_other.
    + intros response -> k. apply enriched_other.
  - destruct (nth_error (modules day) i) as [pm|] eqn:Hpm.
    + destruct (Hm i pm Hpm) as (r & Hr & Hrm).
      rewrite Hi in Hr. injection Hr as <-.
      exists pm, (fallback pm). split; [reflexivity|]. split; [assumption|].
      destruct (fallback_fields pm) as (H1 & H2 & H3 & H4).
      repeat (split; [assumption|]).
      intros k. apply fallback_other.
    + exfalso.
      assert (Hlen : List.length
                (moduleOutcomes ai basics (outcomesTextOf outcomes) onProgress
                   day (modules day) st_d) = List.length (modules day)).
      { clear. generalize st_d. induction (modules day) as [|m ms IH];
          intros s; simpl; auto. }
      apply nth_error_None in Hpm.
      assert (i < List.length (modules day)).
      { rewrite <- Hlen. apply nth_error_Some. congruence. }
      lia.
Qed.

(** C4 (amended).  Day Finalizer containment: for every day of a run of the
    orchestrator no error of the day-summary call reaches the caller, and the
    returned day falls back to the skeleton's placeholders field by field.
    When the call throws, or its text is no JSON, or parses to [null], the
    day keeps both the placeholder summary and the placeholder review
    questions.  When the response parses to a value, the summary is kept
    when the response has no (or an empty) summary, the review questions are
    kept when it has none; a field that the response does have replaces the
    placeholder. *)
Theorem day_finalizer_containment
    basics outcomes skeleton onProgress st d day outs sres :
  nth_error skeleton d = Some day ->
  nth_error (remoteOutcomes basics outcomes skeleton onProgress st) d
    = Some (outs, sres) ->
  exists days st' day',
    generateFinalPlanContent basics outcomes skeleton onProgress st =
      (Ok days, st') /\
    nth_error days d = Some day' /\
    ((forall e, sres = Throw e ->
        summary day' = summary day /\
        reviewQuestions day' = reviewQuestions day) /\
     (sres = Ok JNull ->
        summary day' = summary day /\
        reviewQuestions day' = reviewQuestions day) /\
     (forall parsed s q, sres = Ok parsed ->
        JS.member parsed "summary" = Some s ->
        JS.member parsed "reviewQuestions" = Some q ->
        summary day' = (if JS.truthy s then s else summary day) /\
        reviewQuestions day' =
          (if JS.truthy q then q else reviewQuestions day))).
Proof.
  intros Hd Hout.
  destruct (remoteOutcomes_nth _ _ _ _ _ _ _ _ _ Hd Hout)
    as (ai & st0 & st_d & Hc & Hst & _ & ->).
  destruct (plan_run basics outcomes skeleton onProgress st ai st0 Hc)
    as (days & st' & Hrun & _ & Hnth).
  destruct (Hnth d day Hd) as (st_d' & day' & Hst' & Hd' & Hday).
  rewrite Hst in Hst'. injection Hst' as <-.
  exists days, st', day'. split; [assumption|]. split; [assumption|].
  destruct (refineDay_run ai basics (outcomesTextOf outcomes) onProgress day st_d)
    as (rms & st1 & st2 & _ & Hrd).
  rewrite Hrd in Hday. simpl in Hday. injection Hday as <-. simpl.
  repeat split.
  - rewrite H. reflexivity.
  - rewrite H. reflexivity.
  - rewrite H. reflexivity.
  - rewrite H. reflexivity.
  - rewrite H, H0, H1. reflexivity.
  - rewrite H, H0, H1. reflexivity.
Qed.

(** ** The progress sink *)

Lemma sameButSink_refl st : sameButSink st st.
Proof. split; reflexivity. Qed.

Lemma agree_ret {A} (a : A) : agree (Sink := Sink) (ret a) (ret a).
Proof. intros st1 st2 H. split; [reflexivity|exact H]. Qed.

Lemma agree_throw {A} (e : Error) :
  agree (Sink := Sink) (A := A) (throw e) (throw e).
Proof. intros st1 st2 H. split; [reflexivity|exact H]. Qed.

Lemma agree_lift {A} (r : result A) : agree (Sink := Sink) (lift r) (lift r).
Proof. intros st1 st2 H. split; [reflexivity|exact H]. Qed.

Lemma agree_bind {A B} (m1 m2 : Comp (State World Sink) A)
    (k1 k2 : A -> Comp (State World Sink) B) :
  agree m1 m2 -> (forall a, agree (Sink := Sink) (k1 a) (k2 a)) ->
  agree (Sink := Sink) (bind m1 k1) (bind m2 k2).
Proof.
  intros Hm Hk st1 st2 H. unfold bind.
  destruct (Hm st1 st2 H) as [Hr Hs].
  destruct (m1 st1) as [r1 s1], (m2 st2) as [r2 s2]; simpl in *.
  subst r2. destruct r1 as [a|e].
  - now apply Hk.
  - split; [reflexivity|exact Hs].
Qed.

Lemma agree_try_catch {A} (m1 m2 : Comp (State World Sink) A)
    (h1 h2 : Error -> Comp (State World Sink) A) :
  agree m1 m2 -> (forall e, agree (Sink := Sink) (h1 e) (h2 e)) ->
  agree (Sink := Sink) (try_catch m1 h1) (try_catch m2 h2).
Proof.
  intros Hm Hh st1 st2 H. unfold try_catch.
  destruct (Hm st1 st2 H) as [Hr Hs].
  destruct (m1 st1) as [r1 s1], (m2 st2) as [r2 s2]; simpl in *.
  subst r2. destruct r1 as [a|e].
  - split; [reflexivity|exact Hs].
  - now apply Hh.
Qed.

Lemma agree_call ai request :
  agree (Sink := Sink) (call ai request) (call ai request).
Proof.
  intros st1 st2 [Hw Hc]. unfold call. rewrite Hw.
  destruct (generateContent ai request (world st2)) as [r w]. simpl.
  split; [reflexivity|]. split; simpl; auto.
Qed.

Lemma agree_log entry : agree (Sink := Sink) (log entry) (log entry).
Proof.
  intros st1 st2 [Hw Hc]. unfold log. simpl.
  split; [reflexivity|]. split; simpl; congruence.
Qed.

Lemma agree_read {A} (f : World -> A) : agree (Sink := Sink) (read f) (read f).
Proof.
  intros st1 st2 [Hw Hc]. unfold read. simpl. rewrite Hw.
  split; [reflexivity|]. split; auto.
Qed.

(** Calling the sink and not calling it differ in the sink's state only. *)
Lemma agree_notify (f : string -> Sink -> Sink) msg :
  agree (Sink := Sink) (notify (Some f) msg) (notify None msg).
Proof.
  intros st1 st2 [Hw Hc]. unfold notify, ret. simpl.
  split; [reflexivity|]. split; auto.
Qed.

Lemma agree_forEach {A B} (f1 f2 : A -> Comp (State World Sink) B) l :
  (forall x, agree (Sink := Sink) (f1 x) (f2 x)) ->
  agree (Sink := Sink) (forEach f1 l) (forEach f2 l).
Proof.
  intros Hf. induction l as [|x rest IH]; simpl.
  - apply agree_ret.
  - apply agree_bind; [apply Hf|]. intros y.
    apply agree_bind; [apply IH|]. intros ys. apply agree_ret.
Qed.

Lemma agree_JSON_parse_or dflt response :
  agree (Sink := Sink) (JSON_parse_or dflt response) (JSON_parse_or dflt response).
Proof.
  unfold JSON_parse_or.
  destruct (text response) as [[|c t]|];
    try apply agree_ret.
  destruct (parsed response); [apply agree_ret|apply agree_throw].
Qed.

Lemma agree_member v k : agree (Sink := Sink) (member v k) (member v k).
Proof.
  unfold member. destruct (JS.member v k); [apply agree_ret|apply agree_throw].
Qed.

Lemma agree_getClient : agree (Sink := Sink) getClient getClient.
Proof.
  unfold getClient, getApiKey.
  apply agree_bind.
  - apply agree_bind; [apply agree_read|]. intros [[|c k]|];
      try apply agree_ret;
      (apply agree_try_catch;
       [ apply agree_bind; [apply agree_read|]; intros e;
         apply agree_bind; [apply agree_lift|]; intros [[|c' k']|];
         apply agree_ret
       | intros e; apply agree_bind; [apply agree_log|]; intros _;
         apply agree_ret ]).
  - intros [k|]; [apply agree_ret|apply agree_throw].
Qed.

Lemma agree_generateModuleDetail ai basics moduleTitle dayNum outcomesText :
  agree (Sink := Sink) (generateModuleDetail ai basics moduleTitle dayNum outcomesText)
        (generateModuleDetail ai basics moduleTitle dayNum outcomesText).
Proof.
  unfold generateModuleDetail.
  apply agree_bind; [apply agree_call|]. intros r. apply agree_JSON_parse_or.
Qed.

Lemma agree_refineModule ai basics outcomesText f day partialMod :
  agree (Sink := Sink) (refineModule ai basics outcomesText (Some f) day partialMod)
        (refineModule ai basics outcomesText None day partialMod).
Proof.
  unfold refineModule.
  apply agree_bind; [apply agree_notify|]. intros _.
  apply agree_try_catch.
  - apply agree_bind; [apply agree_generateModuleDetail|]. intros v.
    apply agree_ret.
  - intros e. apply agree_bind; [apply agree_log|]. intros _. apply agree_ret.
Qed.

Lemma agree_summarize ai basics day refinedModules :
  agree (Sink := Sink) (summarize ai basics day refinedModules)
        (summarize ai basics day refinedModules).
Proof.
  unfold summarize, askSummary.
  apply agree_try_catch.
  - apply agree_bind.
    + apply agree_bind; [apply agree_call|]. intros r.
      apply agree_JSON_parse_or.
    + intros v. apply agree_bind; [apply agree_member|]. intros s.
      apply agree_bind; [apply agree_member|]. intros q. apply agree_ret.
  - intros e. apply agree_bind; [apply agree_log|]. intros _. apply agree_ret.
Qed.

Lemma agree_refineDay ai basics outcomesText f day :
  agree (Sink := Sink) (refineDay ai basics outcomesText (Some f) day)
        (refineDay ai basics outcomesText None day).
Proof.
  unfold refineDay.
  apply agree_bind.
  { apply agree_forEach. intros m. apply agree_refineModule. }
  intros rms. apply agree_bind; [apply agree_notify|]. intros _.
  apply agree_bind; [apply agree_summarize|]. intros sd. apply agree_ret.
Qed.

(** C8.  Progress-sink noninterference: for every input and every behaviour
    of the remote capability, the orchestrator ends with the same outcome
    (the same schedule, or the same error) whether [onProgress] is supplied
    or omitted, after the same calls of the remote capability (the world it
    leaves is the same) and the same console output. *)
Theorem progress_sink_noninterference
    basics outcomes skeleton (f : string -> Sink -> Sink) st :
  fst (generateFinalPlanContent basics outcomes skeleton (Some f) st) =
  fst (generateFinalPlanContent basics outcomes skeleton None st) /\
  world (snd (generateFinalPlanContent basics outcomes skeleton (Some f) st)) =
  world (snd (generateFinalPlanContent basics outcomes skeleton None st)) /\
  console (snd (generateFinalPlanContent basics outcomes skeleton (Some f) st)) =
  console (snd (generateFinalPlanContent basics outcomes skeleton None st)).
Proof.
  assert (H : agree (generateFinalPlanContent basics outcomes skeleton (Some f))
                    (generateFinalPlanContent basics outcomes skeleton None)).
  { unfold generateFinalPlanContent.
    apply agree_bind; [apply agree_getClient|]. intros ai.
    apply agree_forEach. intros day. apply agree_refineDay. }
  destruct (H st st (sameButSink_refl st)) as [Hr [Hw Hc]]. auto.
Qed.

(** ** What the orchestrator leaves alone, and what it reports *)

(** The orchestrator changes the modules, the summary and the review
    questions of a day and nothing else of it. *)
Theorem day_frame basics outcomes skeleton onProgress st days st' :
  generateFinalPlanContent basics outcomes skeleton onProgress st
    = (Ok days, st') ->
  map dayNumber days = map dayNumber skeleton /\
  map iceBreaker days = map iceBreaker skeleton /\
  map recap days = map recap skeleton.
Proof.
  unfold generateFinalPlanContent, bind at 1.
  destruct (getClient st) as [[ai|e] st0]; [|discriminate].
  revert st0 days st'.
  induction skeleton as [|day rest IH]; intros st0 days st' H; simpl in H.
  - unfold ret in H. injection H as <- _. auto.
  - destruct (refineDay_run ai basics (outcomesTextOf outcomes) onProgress
                day st0) as (rms & st1 & st2 & _ & Hrun).
    unfold bind at 1 in H. rewrite Hrun in H.
    unfold bind at 1 in H.
    destruct (forEach _ rest st2) as [[days'|e] st3] eqn:E; [|discriminate].
    unfold ret in H. injection H as <- _.
    destruct (IH _ _ _ E) as (H1 & H2 & H3). simpl.
    now rewrite H1, H2, H3.
Qed.

Lemma notify_sink onProgress msg st :
  notify onProgress msg st =
    (Ok tt, {| world := world st;
               sink := match onProgress with
                       | Some f => f msg (sink st)
                       | None => sink st
                       end;
               console := console st |}).
Proof. destruct onProgress; [reflexivity|]. now destruct st. Qed.

Lemma generateModuleDetail_sink ai basics moduleTitle dayNum outcomesText st :
  sink (snd (generateModuleDetail ai basics moduleTitle dayNum outcomesText st))
    = sink st.
Proof.
  unfold generateModuleDetail, bind, call.
  destruct (generateContent ai _ (world st)) as [[response|e] w]; simpl;
    [|reflexivity].
  unfold JSON_parse_or.
  destruct (text response) as [[|c t]|]; try reflexivity.
  destruct (parsed response); reflexivity.
Qed.

Lemma refineModule_sink ai basics outcomesText onProgress day partialMod st :
  sink (snd (refineModule ai basics outcomesText onProgress day partialMod st))
    = match onProgress with
      | Some f => f (writingMessage day partialMod) (sink st)
      | None => sink st
      end.
Proof.
  unfold refineModule, bind at 1. rewrite notify_sink.
  unfold try_catch, bind at 1.
  match goal with
  | |- context [generateModuleDetail ?a ?b ?t ?d ?o ?s] =>
      pose proof (generateModuleDetail_sink a b t d o s) as Hs;
      destruct (generateModuleDetail a b t d o s) as [[fullMod|e] st2]
  end; simpl in *; assumption.
Qed.

Lemma askSummary_sink ai basics day refinedModules st :
  sink (snd (askSummary ai basics day refinedModules st)) = sink st.
Proof.
  unfold askSummary, bind, call.
  destruct (generateContent ai _ (world st)) as [[response|e] w]; simpl;
    [|reflexivity].
  unfold JSON_parse_or.
  destruct (text response) as [[|c t]|]; try reflexivity.
  destruct (parsed response); reflexivity.
Qed.

Lemma summarize_sink ai basics day refinedModules st :
  sink (snd (summarize ai basics day refinedModules st)) = sink st.
Proof.
  unfold summarize, try_catch, bind at 1.
  pose proof (askSummary_sink ai basics day refinedModules st) as Hs.
  destruct (askSummary ai basics day refinedModules st) as [[parsed|e] st1];
    simpl in *; [|assumption].
  unfold member, bind. destruct parsed; simpl; assumption.
Qed.

Lemma module_loop_sink ai basics outcomesText (f : string -> Sink -> Sink)
    day ms st :
  sink (snd (forEach (refineModule ai basics outcomesText (Some f) day) ms st))
    = fold_left (fun s msg => f msg s) (map (writingMessage day) ms) (sink st).
Proof.
  revert st. induction ms as [|m rest IH]; intros st; simpl.
  - reflexivity.
  - pose proof (refineModule_sink ai basics outcomesText (Some f) day m st)
      as Hm.
    destruct (refineModule_run ai basics outcomesText (Some f) day m st)
      as [st1 Hrun].
    unfold bind at 1. rewrite Hrun in *. simpl in Hm.
    rewrite <- Hm, <- IH.
    destruct (module_loop ai basics outcomesText (Some f) day rest st1)
      as (rms & st2 & Hloop & _).
    unfold bind. rewrite Hloop. reflexivity.
Qed.

Lemma refineDay_sink ai basics outcomesText (f : string -> Sink -> Sink)
    day st :
  sink (snd (refineDay ai basics outcomesText (Some f) day st))
    = fold_left (fun s msg => f msg s)
        (map (writingMessage day) (modules day) ++ [finalizingMessage day])%list
        (sink st).
Proof.
  pose proof (module_loop_sink ai basics outcomesText f day (modules day) st)
    as Hl.
  destruct (module_loop ai basics outcomesText (Some f) day (modules day) st)
    as (rms & st1 & Hloop & _).
  rewrite Hloop in Hl. simpl in Hl.
  unfold refineDay, bind at 1. rewrite Hloop.
  unfold bind at 1. rewrite notify_sink.
  pose proof (summarize_sink ai basics day rms
                {| world := world st1;
                   sink := f (finalizingMessage day) (sink st1);
                   console := console st1 |}) as Hs.
  destruct (summarize_run ai basics day rms
              {| world := world st1;
                 sink := f (finalizingMessage day) (sink st1);
                 console := console st1 |}) as [st3 Hsum].
  unfold bind. rewrite Hsum in *. simpl in *.
  rewrite fold_left_app. simpl. now rewrite <- Hl.
Qed.

(** Progress reporting.  A sink that is supplied receives exactly these
    messages, in this order: for each day of the skeleton in order, "Writing
    content for Day N: T..." once per module of the day in order, N being
    the day number as [String] prints it and T the title of the module, and
    then "Finalizing Day N summary..."; this for every behaviour of the
    remote capability, so whatever it answers and whichever call fails.
    Without an API key it receives none.  (Each message is sent by the
    statement before the call it announces; the sink and the remote
    capability share no state, so a run does not show which came first.) *)
Theorem progress_is_reported_in_order
    basics outcomes skeleton (f : string -> Sink -> Sink) st :
  sink (snd (generateFinalPlanContent basics outcomes skeleton (Some f) st))
    = if keyAvailable (world st)
      then fold_left (fun s msg => f msg s)
             (List.concat
                (map (fun day =>
                        map (fun partialMod =>
                               ("Writing content for Day "
                                  ++ ofNumber (dayNumber day) ++ ": "
                                  ++ JS.toString (JS.get "title" partialMod)
                                  ++ "...")%string)
                            (modules day)
                        ++ [("Finalizing Day " ++ ofNumber (dayNumber day)
                               ++ " summary...")%string])%list
                     skeleton))
             (sink st)
      else sink st.
Proof.
  destruct (getClient_run st) as (st0 & _ & Hs & [[Hk [ai Hc]]|[Hk Hc]]);
    rewrite Hk.
  2: { unfold generateFinalPlanContent, bind at 1. now rewrite Hc. }
  change (sink (snd (generateFinalPlanContent basics outcomes skeleton
                       (Some f) st))
          = fold_left (fun s msg => f msg s) (progressMessages skeleton)
              (sink st)).
  unfold generateFinalPlanContent, bind at 1. rewrite Hc.
  rewrite <- Hs. clear Hc Hs Hk st. revert st0.
  unfold progressMessages.
  induction skeleton as [|day rest IH]; intros st; simpl.
  - reflexivity.
  - pose proof (refineDay_sink ai basics (outcomesTextOf outcomes) f day st)
      as Hd.
    destruct (refineDay_run ai basics (outcomesTextOf outcomes) (Some f) day st)
      as (rms & st1 & st2 & _ & Hrun).
    unfold bind at 1. rewrite Hrun in *. simpl in Hd.
    rewrite fold_left_app, <- Hd, <- IH.
    destruct (day_loop ai basics (outcomesTextOf outcomes) (Some f) rest st2)
      as (days & st3 & Hloop & _).
    unfold bind. rewrite Hloop. reflexivity.
Qed.

(** ** The structure generator *)

Lemma numDaysOf_largest (durationLower : string) :
  numDaysOf durationLower =
    (if includes durationLower "5 day" then 5
     else if includes durationLower "4 day" then 4
     else if includes durationLower "3 day" then 3
     else if includes durationLower "2 day" then 2
     else 1)%Z.
Proof.
  unfold numDaysOf.
  destruct (includes durationLower "5 day"), (includes durationLower "4 day"),
    (includes durationLower "3 day"), (includes durationLower "2 day");
    reflexivity.
Qed.

Lemma mapIndexed_length {A B} (f : nat -> A -> Comp (State World Sink) B)
    i l st ys st' :
  mapIndexed f i l st = (Ok ys, st') -> List.length ys = List.length l.
Proof.
  revert i st ys st'. induction l as [|x rest IH]; intros i st ys st' H; simpl in H.
  - unfold ret in H. now injection H as <- _.
  - unfold bind at 1 in H. destruct (f i x st) as [[y|e] st1]; [|discriminate].
    unfold bind at 1 in H.
    destruct (mapIndexed f (S i) rest st1) as [[ys'|e] st2] eqn:E; [|discriminate].
    unfold ret in H. injection H as <- _. simpl. f_equal. eapply IH, E.
Qed.

(** A hydrated day carries the day number of the response. *)
Lemma hydrateDay_dayNumber dIdx d st day st' :
  hydrateDay dIdx d st = (Ok day, st') ->
  JS.member d "dayNumber" = Some (JNum (dayNumber day)).
Proof.
  unfold hydrateDay, member. intros H.
  destruct (JS.member d "dayNumber") as [n|]; [|discriminate].
  unfold bind at 1 in H. unfold ret at 1 in H.
  destruct n; try discriminate.
  unfold bind at 1 in H. unfold ret at 1 in H.
  unfold bind at 1 in H.
  destruct (JS.member d "modules") as [ms|]; [|discriminate].
  unfold ret at 1 in H.
  unfold bind at 1 in H.
  destruct ms; try discriminate.
  destruct (mapIndexed (hydrateModule dIdx) 0 elems st) as [[ms|e] st1];
    [|discriminate].
  unfold ret in H. injection H as <- _. reflexivity.
Qed.

Lemma hydrate_days i l st days st' :
  mapIndexed hydrateDay i l st = (Ok days, st') ->
  map (fun day => Some (JNum (dayNumber day))) days
    = map (fun d => JS.member d "dayNumber") l.
Proof.
  revert i st days st'. induction l as [|d rest IH]; intros i st days st' H;
    simpl in H.
  - unfold ret in H. now injection H as <- _.
  - unfold bind at 1 in H.
    destruct (hydrateDay i d st) as [[day|e] st1] eqn:Ed; [|discriminate].
    unfold bind at 1 in H.
    destruct (mapIndexed hydrateDay (S i) rest st1) as [[days'|e] st2] eqn:E;
      [|discriminate].
    unfold ret in H. injection H as <- _. simpl.
    rewrite (hydrateDay_dayNumber _ _ _ _ _ Ed). f_equal. eapply IH, E.
Qed.

(** A module of the response that is not [null] hydrates. *)
Lemma hydrateModule_ok dIdx mIdx m st :
  match m with JNull | JUndefined => false | _ => true end = true ->
  exists module st', hydrateModule dIdx mIdx m st = (Ok module, st').
Proof.
  intros Hm. unfold hydrateModule, member.
  assert (exists x y z, JS.member m "id" = Some x /\
                        JS.member m "title" = Some y /\
                        JS.member m "duration" = Some z) as (x & y & z & Hx & Hy & Hz).
  { destruct m; try discriminate; simpl; eauto 7. }
  rewrite Hx, Hy, Hz.
  unfold bind, ret, now.
  destruct (JS.truthy x); simpl.
  - eauto.
  - destruct (Date_now (world st)); simpl. eauto.
Qed.

Lemma hydrateModules_ok dIdx ms : forall i st,
  forallb (fun m => match m with
                    | JNull | JUndefined => false
                    | _ => true
                    end) ms = true ->
  exists modules st',
    mapIndexed (hydrateModule dIdx) i ms st = (Ok modules, st').
Proof.
  induction ms as [|m rest IH]; intros i st H; simpl in *.
  - unfold ret. eauto.
  - apply andb_true_iff in H as [Hm Hrest].
    destruct (hydrateModule_ok dIdx i m st Hm) as (x & st1 & Hx).
    destruct (IH (S i) st1 Hrest) as (xs & st2 & Hxs).
    unfold bind at 1. rewrite Hx. unfold bind at 1. rewrite Hxs.
    unfold ret. eauto.
Qed.

Lemma hydrateDay_ok dIdx d st :
  skeletonDay d = true -> exists day st', hydrateDay dIdx d st = (Ok day, st').
Proof.
  unfold skeletonDay. intros H.
  destruct d as [| | | | | |o]; try discriminate.
  unfold hydrateDay, member. simpl.
  destruct (JS.get "dayNumber" o) as [| | |n| | |]; try discriminate.
  destruct (JS.get "modules" o) as [| | | | |ms|]; try discriminate.
  destruct (hydrateModules_ok dIdx ms 0 st H) as (modules & st1 & Hm).
  unfold bind, ret. rewrite Hm. eauto.
Qed.

Lemma hydrateDays_ok l : forall i st,
  forallb skeletonDay l = true ->
  exists days st', mapIndexed hydrateDay i l st = (Ok days, st').
Proof.
  induction l as [|d rest IH]; intros i st H; simpl in *.
  - unfold ret. eauto.
  - apply andb_true_iff in H as [Hd Hrest].
    destruct (hydrateDay_ok i d st Hd) as (x & st1 & Hx).
    destruct (IH (S i) st1 Hrest) as (xs & st2 & Hxs).
    unfold bind at 1. rewrite Hx. unfold bind at 1. rewrite Hxs.
    unfold ret. eauto.
Qed.

(** [generateCourseStructure] is the hydration of the [rawDays] of its run. *)
Lemma generateCourseStructure_run basics outcomes st :
  generateCourseStructure basics outcomes st =
    match structureReply basics outcomes st with
    | (Ok (JArr l), st1) => mapIndexed hydrateDay 0 l st1
    | (Ok _, st1) => (Throw TypeError, st1)
    | (Throw e, st1) => (Throw e, st1)
    end.
Proof.
  unfold generateCourseStructure, structureReply.
  unfold bind at 1 4.
  destruct (getClient st) as [[ai|e] st0]; [|reflexivity].
  unfold bind at 1 3.
  destruct (call ai _ st0) as [[response|e] st1]; [|reflexivity].
  unfold bind.
  destruct (JSON_parse_or (JArr []) response st1) as [[v|e] st2];
    [|reflexivity].
  destruct v; reflexivity.
Qed.

(** C3 (amended).  The structure generator reads the day count off the
    lower-cased duration descriptor as the largest N in 2..5 for which the
    descriptor contains "N day", and 1 when it contains none of them; it
    sends that count in its prompt, twice: once it has a client, its one
    request to the remote capability is the text below, with the count after
    the duration and in the first task.  The skeleton it returns has one
    DayPlan per element of the array the remote capability answers with,
    with the day numbers of the response in order; it returns a skeleton for
    every such array of well-shaped days. *)
Theorem structure_day_count basics outcomes st :
  let durationLower := toLowerCase (duration basics) in
  let count :=
    if includes durationLower "5 day" then "5"
    else if includes durationLower "4 day" then "4"
    else if includes durationLower "3 day" then "3"
    else if includes durationLower "2 day" then "2"
    else "1" in
  numDaysOf durationLower =
    (if includes durationLower "5 day" then 5
     else if includes durationLower "4 day" then 4
     else if includes durationLower "3 day" then 3
     else if includes durationLower "2 day" then 2
     else 1)%Z /\
  (forall ai st0, getClient st = (Ok ai, st0) ->
     generateCourseStructure basics outcomes st =
       (response <-
          call ai {| model := "gemini-3-flash-preview";
                     contents :=
  "
    Act as a Master Trainer. Create a Course Outline (Structure only) for:
    Title: " ++ courseTitle basics ++ "
    Duration: " ++ duration basics ++ " (" ++ count ++ " days)
    
    Learning Outcomes:
    " ++ outcomesTextOf outcomes ++ "

    Task:
    1. Define the schedule for " ++ count ++ " day(s).
    2. For each day, provide a list of MODULE TITLES.
    3. Do NOT generate module content, methodology, or ice breakers yet. Just titles and estimated duration.
    
    Return JSON array of DayPlan. Use placeholders for non-title fields.
  ";
                     config := jsonConfig structureSchema |} ;;
        rawDays <- JSON_parse_or (JArr []) response ;;
        match rawDays with
        | JArr l => mapIndexed hydrateDay 0 l
        | _ => throw TypeError
        end) st0 /\
     structureReply basics outcomes st =
       (response <-
          call ai {| model := "gemini-3-flash-preview";
                     contents :=
  "
    Act as a Master Trainer. Create a Course Outline (Structure only) for:
    Title: " ++ courseTitle basics ++ "
    Duration: " ++ duration basics ++ " (" ++ count ++ " days)
    
    Learning Outcomes:
    " ++ outcomesTextOf outcomes ++ "

    Task:
    1. Define the schedule for " ++ count ++ " day(s).
    2. For each day, provide a list of MODULE TITLES.
    3. Do NOT generate module content, methodology, or ice breakers yet. Just titles and estimated duration.
    
    Return JSON array of DayPlan. Use placeholders for non-title fields.
  ";
                     config := jsonConfig structureSchema |} ;;
        JSON_parse_or (JArr []) response) st0) /\
  (forall days st',
     generateCourseStructure basics outcomes st = (Ok days, st') ->
     exists rawDays,
       fst (structureReply basics outcomes st) = Ok (JArr rawDays) /\
       List.length days = List.length rawDays /\
       map (fun day => Some (JNum (dayNumber day))) days
         = map (fun d => JS.member d "dayNumber") rawDays) /\
  (forall rawDays,
     fst (structureReply basics outcomes st) = Ok (JArr rawDays) ->
     forallb skeletonDay rawDays = true ->
     exists days st',
       generateCourseStructure basics outcomes st = (Ok days, st') /\
       List.length days = List.length rawDays).
Proof.
  split; [apply numDaysOf_largest|]. split; [|split].
  - intros ai st0 Hc.
    assert (E : ofNumber (numDaysOf (toLowerCase (duration basics)))
                = if includes (toLowerCase (duration basics)) "5 day" then "5"
                  else if includes (toLowerCase (duration basics)) "4 day"
                  then "4"
                  else if includes (toLowerCase (duration basics)) "3 day"
                  then "3"
                  else if includes (toLowerCase (duration basics)) "2 day"
                  then "2"
                  else "1").
    { rewrite numDaysOf_largest.
      destruct (includes (toLowerCase (duration basics)) "5 day"),
        (includes (toLowerCase (duration basics)) "4 day"),
        (includes (toLowerCase (duration basics)) "3 day"),
        (includes (toLowerCase (duration basics)) "2 day"); reflexivity. }
    split.
    + unfold generateCourseStructure. unfold bind at 1. rewrite Hc.
      unfold structurePrompt. now rewrite E.
    + unfold structureReply. unfold bind at 1. rewrite Hc.
      unfold structurePrompt. now rewrite E.
  - intros days st' H. rewrite generateCourseStructure_run in H.
    destruct (structureReply basics outcomes st) as [[v|e] st1]; [|discriminate].
    destruct v; try discriminate.
    exists elems. split; [reflexivity|]. split.
    + eapply mapIndexed_length, H.
    + eapply hydrate_days, H.
  - intros rawDays Hr Hs. rewrite generateCourseStructure_run.
    destruct (structureReply basics outcomes st) as [[v|e] st1];
      simpl in Hr; [|discriminate].
    injection Hr as ->.
    destruct (hydrateDays_ok rawDays 0 st1 Hs) as (days & st' & H).
    exists days, st'. split; [assumption|]. eapply mapIndexed_length, H.
Qed.

(** ** The refinement invoker *)

Lemma trimmedOr_blank response original :
  blankText (text response) -> trimmedOr response original = original.
Proof.
  unfold blankText, trimmedOr. destruct (text response) as [t|]; [|reflexivity].
  intros H. now rewrite (trim_whitespaceOnly _ H).
Qed.

Lemma trimmedOr_nonEmpty response original :
  nonEmpty original = true -> nonEmpty (trimmedOr response original) = true.
Proof.
  unfold trimmedOr. destruct (text response) as [t|]; [|auto].
  destruct (nonEmpty (trim t)) eqn:E; auto.
Qed.

(** C10.  [refineContent] never returns an empty replacement for a text that
    is not empty: when the remote capability answers, the result is the
    trimmed response text, or the input text when the response text is
    missing, empty or white space only. *)
Theorem refineContent_never_blanks original context st ai st0 response st1 :
  getClient st = (Ok ai, st0) ->
  call ai {| model := "gemini-3-flash-preview";
             contents := refinePrompt original context;
             config := None |} st0 = (Ok response, st1) ->
  exists refined,
    refineContent original context st = (Ok refined, st1) /\
    (blankText (text response) -> refined = original) /\
    (nonEmpty original = true -> nonEmpty refined = true).
Proof.
  intros Hc Hcall. exists (trimmedOr response original).
  unfold refineContent, bind. rewrite Hc, Hcall. unfold ret.
  split; [reflexivity|]. split.
  - apply trimmedOr_blank.
  - apply trimmedOr_nonEmpty.
Qed.

End ServiceFacts.

(** ** The refinement path of the wizard *)

Section RefineFacts.

Context {platform : Platform} {Sink Target : Type}.

(** C9.  Empty-text refinement is a no-op: [handleRefine] with empty current
    text returns at once and leaves everything as it was (the remote
    capability is not called: the world is the same; the callback is not
    called: the target is the same; [isRefining] is not touched).  And when
    [refineContent] fails for a text that is not empty, the error is logged
    and swallowed, the target is as it was, whatever the callback would do,
    and [isRefining] is off again. *)
Theorem handleRefine_empty_text_is_noop
    context (callback : string -> Comp Target unit)
    (ui : App.UI (platform := platform) (Sink := Sink) (Target := Target)) :
  App.handleRefine EmptyString context callback ui = (Ok tt, ui) /\
  (forall currentText e st',
     nonEmpty currentText = true ->
     refineContent currentText context (App.service ui) = (Throw e, st') ->
     App.handleRefine currentText context callback ui =
       (Ok tt, {| App.service := snd (log (ConsoleError EmptyString e) st');
                  App.isRefining := false;
                  App.target := App.target ui |})).
Proof.
  split; [reflexivity|].
  intros currentText e st' Hne Hfail.
  unfold App.handleRefine. rewrite Hne.
  unfold bind, try_finally, try_catch, App.onService at 1. simpl.
  rewrite Hfail. reflexivity.
Qed.

End RefineFacts.

(** ** The wizard *)

Module AppFacts.

Import App.

Local Open Scope nat_scope.

(** The active step is one of the five stages, and is never beyond the
    highest stage reached. *)
Lemma step_within_reached w :
  reachable w -> 1 <= step w /\ step w <= maxStepReached w /\ maxStepReached w <= 5.
Proof.
  induction 1 as [|w e w' _ IH Ht].
  - simpl. lia.
  - inversion Ht as [w0 e0 w0' Hh]; subst.
    destruct e as [|n| | | |[]|[] []| |[]|]; handled Hh;
      repeat match goal with
        | |- context [if ?c then _ else _] => destruct c eqn:?
        end; bools; simpl; lia.
Qed.

Lemma reached_grows w e w' :
  reachable w -> transition w e w' ->
  maxStepReached w <= maxStepReached w' /\
  (maxStepReached w < maxStepReached w' ->
     (e = Load /\ maxStepReached w' = 5) \/
     (completes e = Some (maxStepReached w) /\
      step w = maxStepReached w /\
      maxStepReached w' = maxStepReached w + 1)).
Proof.
  intros Hr Ht.
  pose proof (step_within_reached _ Hr) as Hinv.
  inversion Ht as [w0 e0 w0' Hh]; subst.
  destruct e as [|n| | | |[]|[] []| |[]|]; handled Hh;
    repeat match goal with
      | |- context [if ?c then _ else _] => destruct c eqn:?
      | H : context [if ?c then _ else _] |- _ => destruct c eqn:?
      end; bools; simpl in *;
    (split; [lia|]); intros Hlt; try lia;
    solve [ left; split; [reflexivity|lia]
          | right; repeat split; simpl; try f_equal; lia ].
Qed.

(** C7 (amended).  Stage reachability, with every handler taken as one
    step: in every reachable state the active step is a stage that has been
    reached (1 <= step <= maxStepReached <= 5); maxStepReached never
    decreases, and it grows either by one, when the handler of the highest
    stage reached completes while that stage is the active one, or to 5
    when a saved course is loaded, which unlocks every stage at once; and
    every stage up to maxStepReached, so every earlier stage, can be
    navigated to from the progress bar, which leaves maxStepReached as it
    is. *)
Theorem stage_reachability w :
  reachable w ->
  (1 <= step w /\ step w <= maxStepReached w /\ maxStepReached w <= 5) /\
  (forall e w', transition w e w' ->
     maxStepReached w <= maxStepReached w' /\
     (maxStepReached w < maxStepReached w' ->
        (e = Load /\ maxStepReached w' = 5) \/
        (completes e = Some (maxStepReached w) /\
         step w = maxStepReached w /\
         maxStepReached w' = maxStepReached w + 1))) /\
  (forall n, 1 <= n -> n <= maxStepReached w ->
     handle (ClickProgress n) w =
       Some {| step := n; maxStepReached := maxStepReached w;
               hasPlan := hasPlan w |}).
Proof.
  intros Hr. pose proof (step_within_reached _ Hr) as Hinv.
  split; [exact Hinv|]. split.
  - intros e w' Ht. now apply reached_grows.
  - intros n H1 H2. unfold handle, setStep.
    assert ((1 <=? n) = true) as -> by (apply Nat.leb_le; lia).
    assert ((n <=? 5) = true) as -> by (apply Nat.leb_le; lia).
    assert ((n <=? maxStepReached w) = true) as -> by (apply Nat.leb_le; lia).
    reflexivity.
Qed.

(** A generation whose call ends before anything else happens is the
    one-step event of [handle]. *)
Lemma start_then_settle_is_one_step w :
  (step w = 1 ->
   runSession [Start GOutcomes; Settle 0 true]
       {| wizard := w; busy := false; pending := [] |}
     = act (Do (GenerateOutcomes true))
         {| wizard := w; busy := false; pending := [] |}) /\
  (step w = 2 ->
   runSession [Start GStructure; Settle 0 true]
       {| wizard := w; busy := false; pending := [] |}
     = act (Do (GenerateStructure true true))
         {| wizard := w; busy := false; pending := [] |}) /\
  (step w = 4 ->
   runSession [Start GFinal; Settle 0 true]
       {| wizard := w; busy := false; pending := [] |}
     = act (Do (GenerateFinal true))
         {| wizard := w; busy := false; pending := [] |}).
Proof.
  repeat split; intros H; simpl; unfold handle; rewrite H; reflexivity.
Qed.

End AppFacts.

(** ** Module numbering *)

Module TableFacts.

Import SessionPlanTable.

Local Open Scope nat_scope.

Lemma subLabelsFrom_seq n i subs :
  subLabelsFrom n i subs =
    map (fun sIdx => ofNat n ++ "." ++ ofNat (sIdx + 1))
        (seq i (List.length subs)).
Proof.
  revert i. induction subs as [|x rest IH]; intros i; simpl.
  - reflexivity.
  - now rewrite IH.
Qed.

(** The rows of one day: the counter goes on by one per module. *)
Lemma renderModules_run ms : forall n,
  (forall module, In module ms ->
     exists subs, JS.get "subModules" module = JArr subs) ->
  exists rows,
    forEach renderModule ms n = (Ok rows, n + List.length ms) /\
    List.length rows = List.length ms /\
    forall k module, nth_error ms k = Some module ->
      exists row subs,
        nth_error rows k = Some row /\
        label row = ofNat (n + k) ++ "." /\
        JS.get "subModules" module = JArr subs /\
        subLabels row =
          map (fun sIdx => ofNat (n + k) ++ "." ++ ofNat (sIdx + 1))
              (seq 0 (List.length subs)).
Proof.
  induction ms as [|m rest IH]; intros n Hwf.
  - exists []. simpl. unfold ret. rewrite Nat.add_0_r.
    repeat split. intros [|k] module H; discriminate.
  - destruct (Hwf m (or_introl eq_refl)) as [subs Hsubs].
    destruct (IH (n + 1)) as (rows & Hrun & Hlen & Hnth).
    { intros module Hin. apply Hwf. now right. }
    eexists (_ :: rows). simpl. unfold bind at 1.
    unfold renderModule at 1. rewrite Hsubs.
    unfold bind at 1. rewrite Hrun. unfold ret.
    split; [f_equal; lia|]. split; [simpl; now rewrite Hlen|].
    intros [|k] module H; simpl in H.
    + injection H as <-. eexists _, subs. simpl.
      rewrite Nat.add_0_r. repeat split; auto.
      apply subLabelsFrom_seq.
    + destruct (Hnth k module H) as (row & subs' & H1 & H2 & H3 & H4).
      exists row, subs'. simpl.
      replace (n + S k) with (n + 1 + k) by lia. auto.
Qed.

(** A render of the modules of a day that returns has found an array of
    sub-modules in each, and a render that throws throws a [TypeError]. *)
Lemma renderModules_returns ms : forall n,
  match forEach renderModule ms n with
  | (Ok _, _) =>
      forall module, In module ms ->
        exists subs, JS.get "subModules" module = JArr subs
  | (Throw e, _) => e = TypeError
  end.
Proof.
  induction ms as [|m rest IH]; intros n; simpl.
  - intros module [].
  - unfold bind at 1. unfold renderModule at 1.
    destruct (JS.get "subModules" m) as [| | | | |subs|] eqn:Hsubs;
      try reflexivity.
    unfold bind at 1. specialize (IH (n + 1)).
    destruct (forEach renderModule rest (n + 1)) as [[rows|e] n1];
      [|assumption].
    unfold ret. intros module [<-|Hin]; [now exists subs|now apply IH].
Qed.

(** The rows of a schedule: the counter goes on across the days. *)
Lemma renderDays_run days : forall n,
  (forall day, In day days ->
     (forall module, In module (modules day) ->
        exists subs, JS.get "subModules" module = JArr subs) /\
     (exists questions, reviewQuestions day = JArr questions)) ->
  exists rows,
    forEach renderDay days n =
      (Ok rows, n + List.length (List.concat (map modules days))) /\
    map (@List.length ModuleRow) rows
      = map (fun day => List.length (modules day)) days /\
    forall k module,
      nth_error (List.concat (map modules days)) k = Some module ->
      exists row subs,
        nth_error (List.concat rows) k = Some row /\
        label row = ofNat (n + k) ++ "." /\
        JS.get "subModules" module = JArr subs /\
        subLabels row =
          map (fun sIdx => ofNat (n + k) ++ "." ++ ofNat (sIdx + 1))
              (seq 0 (List.length subs)).
Proof.
  induction days as [|day rest IH]; intros n Hwf.
  - exists []. simpl. unfold ret. rewrite Nat.add_0_r.
    repeat split. intros [|k] module H; discriminate.
  - destruct (Hwf day (or_introl eq_refl)) as [Hsubs [questions Hq]].
    destruct (renderModules_run (modules day) n Hsubs)
      as (rows & Hrun & Hlen & Hnth).
    destruct (IH (n + List.length (modules day)))
      as (rowss & Hrun' & Hlen' & Hnth').
    { intros d Hd. apply Hwf. now right. }
    exists (rows :: rowss). simpl. unfold bind at 1.
    unfold renderDay at 1. unfold bind at 1. rewrite Hrun.
    unfold reviewQuestionsText. rewrite Hq. unfold bind at 1, lift, ret at 1.
    unfold bind at 1. unfold ModuleContent in *. rewrite Hrun'. unfold ret.
    split; [f_equal; rewrite length_app; lia|].
    split; [simpl; now rewrite Hlen, Hlen'|].
    intros k module H.
    destruct (Nat.lt_ge_cases k (List.length (modules day))) as [Hk|Hk].
    + rewrite nth_error_app1 in H by assumption.
      destruct (Hnth k module H) as (row & subs & H1 & H2 & H3 & H4).
      exists row, subs. rewrite nth_error_app1 by (rewrite Hlen; assumption).
      auto.
    + rewrite nth_error_app2 in H by assumption.
      destruct (Hnth' _ module H) as (row & subs & H1 & H2 & H3 & H4).
      exists row, subs. rewrite nth_error_app2 by (rewrite Hlen; assumption).
      rewrite Hlen.
      unfold ModuleContent in *.
      match type of H2 with
      | context [ofNat ?x] => replace x with (n + k) in * by lia
      end.
      repeat split; assumption.
Qed.

(** A render of the days that returns has found every day well formed, and
    a render that throws throws a [TypeError]. *)
Lemma renderDays_returns days : forall n,
  match forEach renderDay days n with
  | (Ok _, _) =>
      forall day, In day days ->
        (forall module, In module (modules day) ->
           exists subs, JS.get "subModules" module = JArr subs) /\
        (exists questions, reviewQuestions day = JArr questions)
  | (Throw e, _) => e = TypeError
  end.
Proof.
  induction days as [|day rest IH]; intros n; simpl.
  - intros day [].
  - unfold bind at 1. unfold renderDay at 1. unfold bind at 1.
    pose proof (renderModules_returns (modules day) n) as Hm.
    destruct (forEach renderModule (modules day) n) as [[rows|e] n1];
      [|assumption].
    unfold reviewQuestionsText, lift.
    destruct (reviewQuestions day) as [| | | | |questions|] eqn:Hq;
      try reflexivity.
    unfold bind at 1, ret at 1. unfold bind at 1. specialize (IH n1).
    destruct (forEach renderDay rest n1) as [[rowss|e] n2]; [|assumption].
    unfold ret. intros d [<-|Hin]; [|now apply IH].
    split; [assumption|]. now exists questions.
Qed.

(** C6.  Continuous module numbering: a render of a plan shows, for every
    day, one row per module of the day, and the number shown before a
    module is its 1-based index in the schedule flattened (days in order,
    modules of a day in order), whatever the number of modules of the days
    before it; the sub-points of module number n are numbered n.1, n.2, ...
    The numbers are read from no field: they are counted anew in every
    render, from the plan of that render.  This for every plan that the
    table renders at all, which are the well-formed ones: on a plan with a
    module whose sub-modules, or with a day whose review questions, are no
    array the render throws a TypeError. *)
Theorem continuous_module_numbering plan :
  (wellFormed plan ->
   exists rows,
     render plan = Ok rows /\
     map (@List.length ModuleRow) rows
       = map (fun day => List.length (modules day)) (schedule plan) /\
     forall k module,
       nth_error (List.concat (map modules (schedule plan))) k = Some module ->
       exists row subs,
         nth_error (List.concat rows) k = Some row /\
         label row = ofNat (k + 1) ++ "." /\
         JS.get "subModules" module = JArr subs /\
         subLabels row =
           map (fun sIdx => ofNat (k + 1) ++ "." ++ ofNat (sIdx + 1))
               (seq 0 (List.length subs))) /\
  (forall rows, render plan = Ok rows -> wellFormed plan) /\
  (forall e, render plan = Throw e -> e = TypeError).
Proof.
  split; [|split].
  - intros Hwf.
    destruct (renderDays_run (schedule plan) 1 Hwf)
      as (rows & Hrun & Hlen & Hnth).
    exists rows. unfold render. rewrite Hrun. simpl.
    split; [reflexivity|]. split; [assumption|].
    intros k module H.
    destruct (Hnth k module H) as (row & subs & H1 & H2 & H3 & H4).
    exists row, subs. replace (k + 1) with (1 + k) by lia. auto.
  - intros rows Hr. unfold render in Hr.
    pose proof (renderDays_returns (schedule plan) 1) as H.
    destruct (forEach renderDay (schedule plan) 1) as [[rows'|e] n];
      [exact H|discriminate].
  - intros e Hr. unfold render in Hr.
    pose proof (renderDays_returns (schedule plan) 1) as H.
    destruct (forEach renderDay (schedule plan) 1) as [[rows'|e'] n];
      [discriminate|].
    simpl in Hr. congruence.
Qed.

End TableFacts.

(** ** The earlier revision of the service *)

Section LegacyFacts.

Context {platform : Platform} {Sink : Type}.

Implicit Types (st : State World Sink) (day : DayPlan)
  (onProgress : option (string -> Sink -> Sink)).

(** The earlier day finalizer is all or nothing on the summary: a response
    with a summary replaces both fields, also by a missing [reviewQuestions];
    everything else leaves both placeholders. *)
Lemma legacy_summarize_run ai basics day refinedModules st :
  exists st',
    Legacy.summarize ai basics day refinedModules st =
      (Ok match fst (Legacy.askSummary ai basics day refinedModules st) with
          | Ok parsed =>
              match JS.member parsed "summary",
                    JS.member parsed "reviewQuestions" with
              | Some s, Some q =>
                  if JS.truthy s then (s, q)
                  else (summary day, reviewQuestions day)
              | _, _ => (summary day, reviewQuestions day)
              end
          | Throw _ => (summary day, reviewQuestions day)
          end, st').
Proof.
  unfold Legacy.summarize, try_catch, bind at 1.
  destruct (Legacy.askSummary ai basics day refinedModules st)
    as [[parsed|e] st1]; simpl.
  - unfold member, bind.
    destruct parsed; simpl; try (eexists; reflexivity).
    destruct (JS.truthy (JS.get "summary" props)); eexists; reflexivity.
  - eexists; reflexivity.
Qed.

(** The earlier day finalizer never throws; it keeps both placeholders
    unless the response has a summary, and then takes both fields from the
    response, whatever [reviewQuestions] is there.  A response that parses
    to [null] has no summary: both placeholders stay. *)
Theorem legacy_finalizer_all_or_nothing ai basics day refinedModules st :
  exists s q st',
    Legacy.summarize ai basics day refinedModules st = (Ok (s, q), st') /\
    (forall e,
       fst (Legacy.askSummary ai basics day refinedModules st) = Throw e ->
       s = summary day /\ q = reviewQuestions day) /\
    (forall parsed sv qv,
       fst (Legacy.askSummary ai basics day refinedModules st) = Ok parsed ->
       JS.member parsed "summary" = Some sv ->
       JS.member parsed "reviewQuestions" = Some qv ->
       (JS.truthy sv = false -> s = summary day /\ q = reviewQuestions day) /\
       (JS.truthy sv = true -> s = sv /\ q = qv)) /\
    (fst (Legacy.askSummary ai basics day refinedModules st) = Ok JNull ->
     s = summary day /\ q = reviewQuestions day).
Proof.
  destruct (legacy_summarize_run ai basics day refinedModules st) as [st' Hrun].
  destruct (fst (Legacy.askSummary ai basics day refinedModules st))
    as [parsed|e] eqn:E.
  - destruct (JS.member parsed "summary") as [sv|] eqn:Es;
      destruct (JS.member parsed "reviewQuestions") as [qv|] eqn:Eq.
    + destruct (JS.truthy sv) eqn:Et; eexists _, _, st';
        (split; [exact Hrun|]); (split; [discriminate|]);
        (split; [|intros Hn; injection Hn as ->; discriminate]);
        intros p sv' qv' Hp Hs Hq; injection Hp as <-;
        rewrite Es in Hs; rewrite Eq in Hq;
        injection Hs as <-; injection Hq as <-;
        split; intros Ht; try congruence; auto.
    + eexists _, _, st'. split; [exact Hrun|]. split; [discriminate|].
      split; [|auto].
      intros p sv' qv' Hp Hs Hq. injection Hp as <-. congruence.
    + eexists _, _, st'. split; [exact Hrun|]. split; [discriminate|].
      split; [|auto].
      intros p sv' qv' Hp Hs Hq. injection Hp as <-. congruence.
    + eexists _, _, st'. split; [exact Hrun|]. split; [discriminate|].
      split; [|auto].
      intros p sv' qv' Hp Hs Hq. injection Hp as <-. congruence.
  - eexists _, _, st'. split; [exact Hrun|]. split; [auto|].
    split; discriminate.
Qed.

Lemma legacy_refineDay_run ai basics outcomesText onProgress day st :
  exists refinedModules st1 s q st',
    forEach (refineModule ai basics outcomesText onProgress day)
      (modules day) st = (Ok refinedModules, st1) /\
    Legacy.refineDay ai basics outcomesText onProgress day st =
      (Ok {| dayNumber := dayNumber day;
             iceBreaker := iceBreaker day;
             recap := recap day;
             modules := refinedModules;
             summary := s;
             reviewQuestions := q |}, st').
Proof.
  destruct (module_loop ai basics outcomesText onProgress day (modules day) st)
    as (rms & st1 & Hloop & _ & _).
  unfold Legacy.refineDay. unfold bind at 1. rewrite Hloop.
  unfold bind at 1.
  destruct (notify onProgress (finalizingMessage day) st1) as [r st2] eqn:En.
  assert (r = Ok tt) as ->.
  { unfold notify, ret in En. destruct onProgress; congruence. }
  destruct (legacy_summarize_run ai basics day rms st2) as [st3 Hsum].
  unfold bind at 1. rewrite Hsum. unfold ret.
  eexists rms, st1, _, _, st3. split; reflexivity.
Qed.

(** The earlier orchestrator isolates per-module failures and keeps the
    identity of the modules as the present one does.  Once it has a client
    it returns one day per day of the skeleton and one module per module,
    each decided by the outcome of its own detail call.  When the call gave
    a response, the module is that response with the id and the title of
    the skeleton's module: every property but these two is the one of the
    response.  When the call failed, the module is the skeleton's module
    with the sentinel as methodology: every other property is as it was. *)
Theorem legacy_isolation_and_identity
    basics outcomes skeleton onProgress st ai st0 :
  Legacy.getClient st = (Ok ai, st0) ->
  exists days st',
    Legacy.generateFinalPlanContent basics outcomes skeleton onProgress st =
      (Ok days, st') /\
    List.length days = List.length skeleton /\
    forall d day, nth_error skeleton d = Some day ->
      exists day' outs,
        nth_error days d = Some day' /\
        nth_error (Legacy.detailOutcomes basics outcomes skeleton onProgress st)
          d = Some outs /\
        List.length (modules day') = List.length (modules day) /\
        forall i partialMod, nth_error (modules day) i = Some partialMod ->
          exists refined r,
            nth_error (modules day') i = Some refined /\
            nth_error outs i = Some r /\
            match r with
            | Ok fullMod =>
                refined = enriched partialMod fullMod /\
                (forall k, k <> "id" -> k <> "title" ->
                   JS.get k refined = JS.get k (JS.spread fullMod)) /\
                (forall response, fullMod = JObj response ->
                   forall k, k <> "id" -> k <> "title" ->
                     JS.get k refined = JS.get k response)
            | Throw _ =>
                refined = fallback partialMod /\
                JS.get "methodology" refined
                  = JStr "Error generating content." /\
                (forall k, k <> "methodology" ->
                   JS.get k refined = JS.get k partialMod)
            end /\
            JS.get "id" refined = JS.get "id" partialMod /\
            JS.get "title" refined = JS.get "title" partialMod.
Proof.
  intros Hc.
  unfold Legacy.generateFinalPlanContent, Legacy.detailOutcomes, bind at 1.
  rewrite Hc. generalize st0. clear Hc st st0.
  induction skeleton as [|day0 rest IH]; intros st.
  - exists [], st. repeat split. intros [|d] day H; discriminate.
  - destruct (legacy_refineDay_run ai basics (outcomesTextOf outcomes)
                onProgress day0 st) as (rms & st1 & s & q & st2 & Hloop & Hrun).
    destruct (module_loop ai basics (outcomesTextOf outcomes) onProgress day0
                (modules day0) st) as (rms' & st1' & Hloop' & Hl & Hm).
    rewrite Hloop in Hloop'. injection Hloop' as <- <-.
    destruct (IH st2) as (days & st3 & Hdays & Hlen & Hnth).
    eexists (_ :: days), st3. simpl.
    unfold bind at 1. rewrite Hrun.
    unfold bind at 1. rewrite Hdays. unfold ret.
    split; [reflexivity|]. split; [simpl; now rewrite Hlen|].
    assert (Hst2 : snd (Legacy.refineDay ai basics (outcomesTextOf outcomes)
                          onProgress day0 st) = st2) by now rewrite Hrun.
    intros [|d] day H; simpl in H.
    + injection H as <-. eexists _, _. split; [reflexivity|].
      split; [reflexivity|]. cbn [modules fst snd]. split; [assumption|].
      intros i pm Hi. destruct (Hm i pm Hi) as (r & Hout & Hr).
      eexists _, r. split; [exact Hr|]. split; [exact Hout|].
      destruct r as [fullMod|e].
      * destruct (enriched_id_title pm fullMod) as [Hid Htitle].
        repeat split; auto.
        -- intros k. apply enriched_other.
        -- intros response -> k. apply enriched_other.
      * destruct (fallback_fields pm) as (H1 & H2 & _ & H4).
        repeat split; auto.
        intros k. apply fallback_other.
    + cbn [Legacy.dayStates combine map nth_error snd]. rewrite ?Hst2.
      now apply Hnth.
Qed.


End LegacyFacts.

(** * The model on concrete inputs *)

Example toLowerCase_ex : toLowerCase "3 DAYS (Intensive)" = "3 days (intensive)".
Proof. reflexivity. Qed.

Example numDays_examples :
  numDaysOf (toLowerCase "2 Days") = 2%Z /\
  numDaysOf (toLowerCase "half a day") = 1%Z /\
  numDaysOf (toLowerCase "1 Day") = 1%Z /\
  numDaysOf (toLowerCase "12 days") = 2%Z /\
  numDaysOf (toLowerCase "2 days or 5 days") = 5%Z.
Proof. repeat split. Qed.

Example trim_ex : trim "  Use role play.  " = "Use role play.".
Proof. reflexivity. Qed.

(** Numbers as a template literal prints them: the digits up to 2^53, the
    shortest decimal that reads back as the same double beyond, in exponent
    notation from 10^21 on. *)
Example number_printing_ex :
  ofNumber 2 = "2" /\
  ofNumber (-7) = "-7" /\
  ofNumber 9007199254740991 = "9007199254740991" /\
  ofNumber 9007199254740993 = "9007199254740992" /\
  ofNumber (2 ^ 64) = "18446744073709552000" /\
  ofNumber (10 ^ 21 - 1) = "1e+21" /\
  ofNumber (10 ^ 21) = "1e+21" /\
  ofNumber (- 10 ^ 21) = "-1e+21" /\
  ofNumber (2 ^ 70) = "1.1805916207174113e+21" /\
  ofNumber (2 ^ 1024) = "Infinity".
Proof. vm_compute. repeat split. Qed.

(** A run of the orchestrator on the two-day skeleton. *)
Example assembly_ex :
  fst (generateFinalPlanContent (platform := scripted) leadership [] twoDays
         keepMessages (scriptedState oneFailure))
  = Ok [ {| dayNumber := 1; iceBreaker := noIceBreaker; recap := None;
            modules := [enriched listening (detailOf "Active Listening");
                        fallback feedback];
            summary := JStr "Day 1 in short.";
            reviewQuestions := JArr [JStr "What did you learn?"] |};
         {| dayNumber := 2; iceBreaker := noIceBreaker;
            recap := Some "Recap of previous day";
            modules := [enriched coaching (detailOf "Coaching Conversations")];
            summary := JStr "Day 2 in short.";
            reviewQuestions := JArr [JStr "What did you learn?"] |} ].
Proof. reflexivity. Qed.

(** The progress messages of that run, in order. *)
Example progress_ex :
  sink (snd (generateFinalPlanContent (platform := scripted) leadership []
               twoDays keepMessages (scriptedState oneFailure)))
  = ["Writing content for Day 1: Listening...";
     "Writing content for Day 1: Feedback...";
     "Finalizing Day 1 summary...";
     "Writing content for Day 2: Coaching...";
     "Finalizing Day 2 summary..."].
Proof. reflexivity. Qed.

(** The message for a day that the response numbered 10^21. *)
Example large_day_number_ex :
  finalizingMessage
    {| dayNumber := 10 ^ 21; iceBreaker := noIceBreaker; recap := None;
       modules := []; summary := JNull; reviewQuestions := JArr [] |}
  = "Finalizing Day 1e+21 summary...".
Proof. vm_compute. reflexivity. Qed.

(** ** C1 *)

(** What enrichment is: the module of the first call holds the sub-modules,
    the methodology, the resources and the duration of the response, and
    the id and the title of the skeleton; the module of the failed call
    holds what the skeleton held, and the sentinel. *)
Example enriched_module_ex :
  match fst (generateFinalPlanContent (platform := scripted) leadership []
               [skeletonDay1] keepMessages (scriptedState oneFailure)) with
  | Ok [day'] => modules day'
  | _ => []
  end
  = [ [("id", JStr "d0-m0-1700000000000"); ("title", JStr "Listening");
       ("subModules", JArr [JStr "Key ideas"; JStr "Practice"]);
       ("methodology", JStr "Lecture: concepts. Activity: role play.");
       ("resources", JStr "Slides, Video"); ("duration", JStr "45 mins")];
      [("id", JStr "d0-m1-1700000000000"); ("title", JStr "Feedback");
       ("duration", JStr "2 hours"); ("subModules", JArr []);
       ("methodology", JStr "Error generating content.");
       ("resources", JStr EmptyString)] ].
Proof. reflexivity. Qed.

Lemma per_item_failure_isolation_witness :
  exists days st' day',
    generateFinalPlanContent (platform := scripted) leadership [] twoDays
      keepMessages (scriptedState oneFailure) = (Ok days, st') /\
    nth_error days 0 = Some day' /\
    List.length (modules day') = List.length (modules skeletonDay1) /\
    (forall j partialMod, j <> 1 ->
       nth_error (modules skeletonDay1) j = Some partialMod ->
       exists fullMod refined,
         nth_error [Ok (detailOf "Active Listening");
                    Throw (RemoteFailure "503 Service Unavailable")] j
           = Some (Ok fullMod) /\
         nth_error (modules day') j = Some refined /\
         refined = enriched partialMod fullMod /\
         JS.get "id" refined = JS.get "id" partialMod /\
         JS.get "title" refined = JS.get "title" partialMod /\
         (forall k, k <> "id" -> k <> "title" ->
            JS.get k refined = JS.get k (JS.spread fullMod)) /\
         (forall response, fullMod = JObj response ->
            forall k, k <> "id" -> k <> "title" ->
              JS.get k refined = JS.get k response)) /\
    (exists partialMod failed,
       nth_error (modules skeletonDay1) 1 = Some partialMod /\
       nth_error (modules day') 1 = Some failed /\
       JS.get "id" failed = JS.get "id" partialMod /\
       JS.get "title" failed = JS.get "title" partialMod /\
       JS.get "duration" failed = JS.get "duration" partialMod /\
       JS.get "methodology" failed = JStr "Error generating content." /\
       (forall k, k <> "methodology" ->
          JS.get k failed = JS.get k partialMod)).
Proof.
  apply (per_item_failure_isolation (platform := scripted) leadership []
           twoDays keepMessages (scriptedState oneFailure) 0 skeletonDay1
           [Ok (detailOf "Active Listening");
            Throw (RemoteFailure "503 Service Unavailable")]
           (Ok (summaryOf "Day 1 in short.")) 1
           (RemoteFailure "503 Service Unavailable")).
  - reflexivity.
  - reflexivity.
  - reflexivity.
  - intros [|[|j]] Hne Hlt.
    + eexists. reflexivity.
    + contradiction.
    + simpl in Hlt. lia.
Defined.

(** ** C2 *)

Lemma identity_preservation_witness :
  exists days st',
    generateFinalPlanContent (platform := scripted) leadership [] twoDays
      keepMessages (scriptedState oneFailure) = (Ok days, st') /\
    List.length days = List.length twoDays /\
    forall d day, nth_error twoDays d = Some day ->
      exists day',
        nth_error days d = Some day' /\
        List.length (modules day') = List.length (modules day) /\
        forall i partialMod, nth_error (modules day) i = Some partialMod ->
          exists refined,
            nth_error (modules day') i = Some refined /\
            JS.get "id" refined = JS.get "id" partialMod /\
            JS.get "title" refined = JS.get "title" partialMod.
Proof.
  apply (identity_preservation (platform := scripted) leadership [] twoDays
           keepMessages (scriptedState oneFailure)).
  reflexivity.
Defined.

(** The response proposed the id "generated-id" and the title "Active
    Listening"; the module keeps the id and the title of the skeleton. *)
Example proposed_title_is_discarded :
  JS.member (detailOf "Active Listening") "title"
    = Some (JStr "Active Listening") /\
  JS.member (detailOf "Active Listening") "id" = Some (JStr "generated-id") /\
  JS.get "title" (enriched listening (detailOf "Active Listening"))
    = JStr "Listening" /\
  JS.get "id" (enriched listening (detailOf "Active Listening"))
    = JStr "d0-m0-1700000000000".
Proof. repeat split. Qed.

(** ** C3 *)

(** The skeleton of a two-day response: the second day has the recap
    placeholder, the first has none; a module without identifier gets one
    from its indices and the clock. *)
Example structure_ex :
  fst (generateCourseStructure (platform := scripted) (Sink := list string)
         leadership [] (scriptedState [Ok (jsonResponse twoDayStructure)]))
  = Ok [ {| dayNumber := 1; iceBreaker := noIceBreaker; recap := None;
            modules :=
              [mkModule "d0-m0-1700000000000" "Listening" [] EmptyString
                 EmptyString "1 hour";
               mkModule "m-2" "Feedback" [] EmptyString EmptyString "2 hours"];
            summary := JStr "Key takeaways and Q&A";
            reviewQuestions := JArr [] |};
         {| dayNumber := 2; iceBreaker := noIceBreaker;
            recap := Some "Recap of previous day";
            modules :=
              [mkModule "d1-m0-1700000000001" "Coaching" [] EmptyString
                 EmptyString "3 hours"];
            summary := JStr "Key takeaways and Q&A";
            reviewQuestions := JArr [] |} ].
Proof. reflexivity. Qed.

(** The descriptor says 2 days and the remote capability answers with one
    day, numbered 7: the skeleton has that one day. *)
Example day_count_follows_the_response :
  includes (toLowerCase (duration leadership)) "2 day" = true /\
  numDaysOf (toLowerCase (duration leadership)) = 2%Z /\
  exists day,
    fst (generateCourseStructure (platform := scripted) (Sink := list string)
           leadership []
           (scriptedState [Ok (jsonResponse oneDayNumberedSeven)]))
      = Ok [day] /\
    dayNumber day = 7%Z.
Proof. repeat split. eexists. split; reflexivity. Qed.

Lemma structure_day_count_witness :
  numDaysOf (toLowerCase (duration leadership)) = 2%Z /\
  exists days st',
    generateCourseStructure (platform := scripted) leadership []
      (scriptedState [Ok (jsonResponse oneDayNumberedSeven)])
      = (Ok days, st') /\
    List.length days = 1.
Proof.
  destruct (structure_day_count (platform := scripted) leadership []
              (scriptedState [Ok (jsonResponse oneDayNumberedSeven)]))
    as (Hn & _ & _ & Hex).
  split; [reflexivity|].
  destruct (Hex [JObj [("dayNumber", JNum 7);
                       ("modules",
                        JArr [JObj [("title", JStr "Overview");
                                    ("duration", JStr "1 hour")]])]]
              eq_refl eq_refl) as (days & st' & Hrun & Hlen).
  exists days, st'. split; assumption.
Defined.

(** ** C4 *)

(** The day-summary response of day 1 has review questions and no summary:
    the returned day keeps the placeholder summary, and its review
    questions are those of the response, not the placeholder ones. *)
Example questions_replaced_when_only_the_summary_is_missing :
  exists outs day',
    nth_error (remoteOutcomes (platform := scripted) leadership []
                 [skeletonDay1] keepMessages (scriptedState summaryMissing)) 0
      = Some (outs, Ok questionsOnly) /\
    JS.member questionsOnly "summary" = Some JUndefined /\
    fst (generateFinalPlanContent (platform := scripted) leadership []
           [skeletonDay1] keepMessages (scriptedState summaryMissing))
      = Ok [day'] /\
    summary day' = summary skeletonDay1 /\
    reviewQuestions skeletonDay1 = JArr [] /\
    reviewQuestions day' = JArr [JStr "What did you learn?"] /\
    reviewQuestions day' <> reviewQuestions skeletonDay1.
Proof.
  eexists _, _. repeat split; try reflexivity. discriminate.
Qed.

Lemma day_finalizer_containment_witness :
  exists days st' day',
    generateFinalPlanContent (platform := scripted) leadership []
      [skeletonDay1] keepMessages (scriptedState summaryMissing)
      = (Ok days, st') /\
    nth_error days 0 = Some day' /\
    summary day' = summary skeletonDay1 /\
    reviewQuestions day' = JArr [JStr "What did you learn?"].
Proof.
  destruct (day_finalizer_containment (platform := scripted) leadership []
              [skeletonDay1] keepMessages (scriptedState summaryMissing) 0
              skeletonDay1
              [Ok (detailOf "Active Listening"); Ok (detailOf "Giving Feedback")]
              (Ok questionsOnly) eq_refl eq_refl)
    as (days & st' & day' & Hrun & Hd & _ & _ & Hfields).
  exists days, st', day'. split; [assumption|]. split; [assumption|].
  apply (Hfields questionsOnly JUndefined (JArr [JStr "What did you learn?"]));
    reflexivity.
Defined.

(** A failed day-summary call leaves both placeholders and is logged. *)
Example failed_summary_call_keeps_placeholders :
  generateFinalPlanContent (platform := scripted) leadership [] [skeletonDay2]
    None
    (scriptedState [Ok (jsonResponse (detailOf "Coaching Conversations"))])
  = (Ok [ {| dayNumber := 2; iceBreaker := noIceBreaker;
             recap := Some "Recap of previous day";
             modules := [enriched coaching (detailOf "Coaching Conversations")];
             summary := JStr "Key takeaways and Q&A";
             reviewQuestions := JArr [] |} ],
     {| world := scriptedWorld []; sink := [];
        console := [ConsoleError "Failed to generate day summary"
                      (RemoteFailure "connection lost")] |}).
Proof. reflexivity. Qed.

(** ** C5 *)

(** An empty skeleton is no error: the orchestrator returns the empty
    schedule. *)
Example empty_skeleton_gives_empty_schedule :
  generateFinalPlanContent (platform := scripted) leadership [] []
    keepMessages (scriptedState oneFailure)
  = (Ok [], scriptedState oneFailure).
Proof. reflexivity. Qed.

(** Without a key the orchestrator fails before it looks at the skeleton. *)
Example no_key_no_plan :
  fst (generateFinalPlanContent (platform := scripted) (Sink := list string)
         leadership [] twoDays None
         {| world := {| replies := oneFailure; storedKey := None;
                        envKey := Ok None; clock := 0 |};
            sink := []; console := [] |})
  = Throw MissingApiKey.
Proof. reflexivity. Qed.

(** ** C6 *)

(** The end-to-end scenario of the specification, with an empty day in
    between: modules 1 and 2 on the first day, module 3 on the third. *)
Example numbering_ex :
  SessionPlanTable.render finishedPlan
  = Ok [ [ {| SessionPlanTable.label := "1.";
              SessionPlanTable.subLabels := ["1.1"; "1.2"] |};
           {| SessionPlanTable.label := "2.";
              SessionPlanTable.subLabels := ["2.1"] |} ];
         [];
         [ {| SessionPlanTable.label := "3.";
              SessionPlanTable.subLabels := ["3.1"; "3.2"; "3.3"] |} ] ].
Proof. reflexivity. Qed.

Lemma finishedPlan_wellFormed : SessionPlanTable.wellFormed finishedPlan.
Proof.
  intros day Hd. simpl in Hd.
  destruct Hd as [<-|[<-|[<-|[]]]];
    (split; [|eexists; reflexivity]); intros module Hm; simpl in Hm;
    repeat match goal with
      | H : _ \/ _ |- _ => destruct H as [<-|H]
      | H : False |- _ => destruct H
      end; eexists; reflexivity.
Defined.

Lemma continuous_module_numbering_witness :
  exists rows,
    SessionPlanTable.render finishedPlan = Ok rows /\
    map (@List.length SessionPlanTable.ModuleRow) rows = [2; 0; 1] /\
    forall k module,
      nth_error (List.concat (map modules (schedule finishedPlan))) k
        = Some module ->
      exists row subs,
        nth_error (List.concat rows) k = Some row /\
        SessionPlanTable.label row = ofNat (k + 1) ++ "." /\
        JS.get "subModules" module = JArr subs /\
        SessionPlanTable.subLabels row =
          map (fun sIdx => ofNat (k + 1) ++ "." ++ ofNat (sIdx + 1))
              (seq 0 (List.length subs)).
Proof.
  exact (proj1 (TableFacts.continuous_module_numbering finishedPlan)
           finishedPlan_wellFormed).
Defined.

(** A day whose review questions came back as a string, as a day-summary
    response may have them: the table throws on the plan, whose modules
    could all be numbered. *)
Example questions_as_text_break_the_render :
  SessionPlanTable.render
    {| plan_id := None; lastModified := None; basics := leadership;
       outcomes := [];
       schedule :=
         [ {| dayNumber := 1; iceBreaker := noIceBreaker; recap := None;
              modules := [mkModule "a" "Listening" ["Paraphrasing"]
                            "Lecture" "Slides" "1 hour"];
              summary := JStr "Day 1 in short.";
              reviewQuestions := JStr "What did you learn?" |} ] |}
  = Throw TypeError.
Proof. reflexivity. Qed.

(** ** C7 *)

(** Loading a saved course from the first screen unlocks stage 5, and makes
    it the active step, although no stage has completed. *)
Example load_unlocks_every_stage :
  App.run [App.Load] App.initial
    = Some {| App.step := 5; App.maxStepReached := 5; App.hasPlan := true |} /\
  map App.completes [App.Load] = [None] /\
  App.reachable {| App.step := 5; App.maxStepReached := 5;
                   App.hasPlan := true |}.
Proof.
  repeat split.
  eapply App.reachable_step with (e := App.Load);
    [apply App.reachable_initial|].
  constructor. reflexivity.
Qed.

(** A generation in flight goes on with the [maxStepReached] of the render
    that started it: when a saved course is loaded while the outcomes are
    being generated, the end of the generation sets [maxStepReached] back
    from 5 to 2. *)
Example stale_closure_lowers_maxStepReached :
  App.runSession [App.Start App.GOutcomes; App.Do App.Load] App.initialSession
    = Some {| App.wizard := {| App.step := 5; App.maxStepReached := 5;
                               App.hasPlan := true |};
              App.busy := true;
              App.pending := [ {| App.generation := App.GOutcomes;
                                  App.seenMaxStepReached := 1 |} ] |} /\
  App.runSession [App.Start App.GOutcomes; App.Do App.Load;
                  App.Settle 0 true] App.initialSession
    = Some {| App.wizard := {| App.step := 2; App.maxStepReached := 2;
                               App.hasPlan := true |};
              App.busy := false;
              App.pending := [] |}.
Proof. split; reflexivity. Qed.

(** The wizard after the outcomes and the structure have been generated. *)
Lemma structure_stage_reachable :
  App.reachable {| App.step := 3; App.maxStepReached := 3;
                   App.hasPlan := false |}.
Proof.
  eapply App.reachable_step with (e := App.GenerateStructure true true).
  - eapply App.reachable_step with (e := App.GenerateOutcomes true).
    + apply App.reachable_initial.
    + constructor. reflexivity.
  - constructor. reflexivity.
Defined.

Lemma stage_reachability_witness :
  App.handle (App.ClickProgress 1)
    {| App.step := 3; App.maxStepReached := 3; App.hasPlan := false |}
  = Some {| App.step := 1; App.maxStepReached := 3; App.hasPlan := false |}.
Proof.
  destruct (AppFacts.stage_reachability _ structure_stage_reachable)
    as (_ & _ & Hnav).
  apply (Hnav 1); simpl; lia.
Defined.

(** Going back and forth after stage 3 has been reached. *)
Example back_and_forth :
  App.run [App.GenerateOutcomes true; App.GenerateStructure true true;
           App.Back; App.ClickLogo; App.ClickProgress 3; App.ClickProgress 4]
    App.initial = None /\
  App.run [App.GenerateOutcomes true; App.GenerateStructure true true;
           App.Back; App.ClickLogo; App.ClickProgress 3]
    App.initial
    = Some {| App.step := 3; App.maxStepReached := 3; App.hasPlan := false |}.
Proof. split; reflexivity. Qed.

(** ** C9 *)

Lemma handleRefine_empty_text_is_noop_witness :
  App.handleRefine EmptyString "Training Module Methodology" overwrite
    refiningUI = (Ok tt, refiningUI) /\
  App.handleRefine "Lecture: concepts." "Training Module Methodology"
    overwrite refiningUI
  = (Ok tt,
     {| App.service :=
          ({| world := scriptedWorld []; sink := [];
              console := [ConsoleError EmptyString
                            (RemoteFailure "503 Service Unavailable")] |}
           : State (@World scripted) (list string));
        App.isRefining := false;
        App.target := "Lecture: concepts." |}).
Proof.
  destruct (handleRefine_empty_text_is_noop (platform := scripted)
              "Training Module Methodology" overwrite refiningUI)
    as [Hempty Hfail].
  split; [exact Hempty|].
  apply (Hfail "Lecture: concepts." (RemoteFailure "503 Service Unavailable")
           (scriptedState [])); reflexivity.
Defined.

(** When the remote capability answers, the callback gets the answer. *)
Example refine_updates_the_field :
  App.handleRefine (platform := scripted) (Sink := list string)
    "Lecture: concepts." "Training Module Methodology" overwrite
    {| App.service := scriptedState [Ok (textResponse " Lecture: key ideas. ")];
       App.isRefining := false;
       App.target := "Lecture: concepts." |}
  = (Ok tt,
     {| App.service := scriptedState [];
        App.isRefining := false;
        App.target := "Lecture: key ideas." |}).
Proof. reflexivity. Qed.

(** ** C10 *)

Lemma refineContent_never_blanks_witness :
  exists refined,
    refineContent (platform := scripted) "Lecture: concepts."
      "Training Module Methodology"
      (scriptedState [Ok (textResponse "   ")])
    = (Ok refined, scriptedState []) /\
    refined = "Lecture: concepts.".
Proof.
  destruct (refineContent_never_blanks (platform := scripted)
              "Lecture: concepts." "Training Module Methodology"
              (scriptedState [Ok (textResponse "   ")])
              {| apiKey := "key" |}
              (scriptedState [Ok (textResponse "   ")])
              (textResponse "   ") (scriptedState [])
              eq_refl eq_refl) as (refined & Hrun & Hblank & _).
  exists refined. split; [exact Hrun|].
  apply Hblank. simpl. unfold whitespaceOnly. simpl.
  repeat (apply blank_1; [reflexivity|]). apply blank_nil.
Defined.

(** A response without text and a response of non-breaking spaces both
    leave the text as it is. *)
Example blank_responses :
  fst (refineContent (platform := scripted) (Sink := list string)
         "Lecture: concepts." "Training Module Methodology"
         (scriptedState [Ok emptyResponse]))
    = Ok "Lecture: concepts." /\
  fst (refineContent (platform := scripted) (Sink := list string)
         "Lecture: concepts." "Training Module Methodology"
         (scriptedState
            [Ok (textResponse (String "194" (String "160" EmptyString)))]))
    = Ok "Lecture: concepts.".
Proof. split; reflexivity. Qed.

(** ** The earlier revision *)

(** On the earlier revision a response with a summary and no review
    questions leaves the day without review questions. *)
Example legacy_questions_lost :
  fst (Legacy.generateFinalPlanContent (platform := scripted) leadership []
         [skeletonDay1] keepMessages (legacyState questionsMissing))
  = Ok [ {| dayNumber := 1; iceBreaker := noIceBreaker; recap := None;
            modules := [enriched listening (detailOf "Active Listening");
                        enriched feedback (detailOf "Giving Feedback")];
            summary := JStr "Day 1 in short.";
            reviewQuestions := JUndefined |} ].
Proof. reflexivity. Qed.

Lemma legacy_finalizer_all_or_nothing_witness :
  exists st',
    Legacy.summarize (platform := scripted) {| apiKey := "key" |} leadership
      skeletonDay1 []
      (legacyState [Ok (jsonResponse (JObj [("summary", JStr "Day 1 in short.")]))])
    = (Ok (JStr "Day 1 in short.", JUndefined), st').
Proof.
  destruct (legacy_finalizer_all_or_nothing (platform := scripted)
              {| apiKey := "key" |} leadership skeletonDay1 []
              (legacyState
                 [Ok (jsonResponse (JObj [("summary", JStr "Day 1 in short.")]))]))
    as (s & q & st' & Hrun & _ & Hparsed & _).
  destruct (Hparsed (JObj [("summary", JStr "Day 1 in short.")])
              (JStr "Day 1 in short.") JUndefined eq_refl eq_refl eq_refl)
    as [_ Hyes].
  destruct (Hyes eq_refl) as [-> ->].
  exists st'. exact Hrun.
Defined.

Lemma legacy_isolation_and_identity_witness :
  exists days st',
    Legacy.generateFinalPlanContent (platform := scripted) leadership []
      twoDays keepMessages (legacyState oneFailure) = (Ok days, st') /\
    List.length days = 2.
Proof.
  destruct (legacy_isolation_and_identity (platform := scripted) leadership []
              twoDays keepMessages (legacyState oneFailure)
              {| apiKey := "key" |} (legacyState oneFailure) eq_refl)
    as (days & st' & Hrun & Hlen & _).
  exists days, st'. split; assumption.
Defined.


(** ** Frame and progress *)

Lemma day_frame_witness :
  exists days st',
    generateFinalPlanContent (platform := scripted) leadership [] twoDays
      keepMessages (scriptedState oneFailure) = (Ok days, st') /\
    map dayNumber days = [1%Z; 2%Z] /\
    map recap days = [None; Some "Recap of previous day"].
Proof.
  destruct (generateFinalPlanContent (platform := scripted) leadership []
              twoDays keepMessages (scriptedState oneFailure))
    as [[days|e] st'] eqn:E.
  - exists days, st'. split; [reflexivity|].
    destruct (day_frame (platform := scripted) leadership [] twoDays
                keepMessages (scriptedState oneFailure) days st' E)
      as (H1 & _ & H3).
    split; assumption.
  - vm_compute in E. discriminate E.
Defined.

Lemma progress_is_reported_in_order_witness :
  sink (snd (generateFinalPlanContent (platform := scripted) leadership []
               twoDays (Some (fun msg log => (log ++ [msg])%list))
               (scriptedState oneFailure)))
  = ["Writing content for Day 1: Listening...";
     "Writing content for Day 1: Feedback...";
     "Finalizing Day 1 summary...";
     "Writing content for Day 2: Coaching...";
     "Finalizing Day 2 summary..."].
Proof.
  exact (progress_is_reported_in_order (platform := scripted) leadership []
           twoDays (fun msg log => (log ++ [msg])%list)
           (scriptedState oneFailure)).
Defined.

(** * The rest of the service *)

(** ** Decimal numerals and the identifiers made of them *)

Lemma uint_noDash_empty (d : Decimal.uint) : noDash (NilEmpty.string_of_uint d).
Proof.
  unfold noDash.
  induction d; simpl; intros H; try (destruct H as [H|H]; [discriminate H|]);
    auto.
Qed.

Lemma uint_noDash (d : Decimal.uint) : noDash (NilZero.string_of_uint d).
Proof.
  destruct d; try apply uint_noDash_empty.
  unfold noDash. simpl. intros [H|[]]. discriminate H.
Qed.

Lemma uint_nonEmpty (d : Decimal.uint) :
  d <> Decimal.Nil -> NilZero.string_of_uint d <> EmptyString.
Proof. destruct d; simpl; congruence. Qed.

(** A numeral is a non-empty run of digits, after a minus sign when the
    number is negative. *)
Lemma ofZ_shape (z : Z) :
  exists digits c rest,
    digits = String c rest /\ noDash digits /\
    (ofZ z = digits \/ ofZ z = String "-" digits).
Proof.
  unfold ofZ.
  assert (forall d, d <> Decimal.Nil ->
            exists c rest, NilZero.string_of_uint d = String c rest) as Hne.
  { intros d Hd. destruct (NilZero.string_of_uint d) eqn:E; eauto.
    now apply uint_nonEmpty in E. }
  destruct z as [|p|p]; simpl.
  - exists "0", "0"%char, EmptyString. repeat split; auto.
    intros [H|[]]. discriminate H.
  - destruct (Hne (Pos.to_uint p) (Unsigned.to_uint_nonnil p)) as (c & rest & E).
    exists (NilZero.string_of_uint (Pos.to_uint p)), c, rest.
    repeat split; auto using uint_noDash.
  - destruct (Hne (Pos.to_uint p) (Unsigned.to_uint_nonnil p)) as (c & rest & E).
    exists (NilZero.string_of_uint (Pos.to_uint p)), c, rest.
    repeat split; auto using uint_noDash.
Qed.

Lemma ofZ_inj (z z' : Z) : ofZ z = ofZ z' -> z = z'.
Proof.
  unfold ofZ. intros H. apply to_int_inj.
  assert (forall n, NilZero.int_of_string (NilZero.string_of_int (Z.to_int n))
                    = Some (Z.to_int n)) as Hisi.
  { intros n. apply NilZero.isi; destruct n; simpl; try discriminate;
      intros E; injection E as E; now apply Unsigned.to_uint_nonnil in E. }
  pose proof (Hisi z) as H1. rewrite H, Hisi in H1. now injection H1.
Qed.

Lemma ofNat_inj (n n' : nat) : ofNat n = ofNat n' -> n = n'.
Proof. unfold ofNat. intros H. now apply Nat2Z.inj, ofZ_inj. Qed.

(** Two texts that agree, each cut at its first [c], agree part by part. *)
Lemma cut_at_first (c : ascii) (s1 s2 r1 r2 : string) :
  ~ In c (list_ascii_of_string s1) -> ~ In c (list_ascii_of_string s2) ->
  s1 ++ String c r1 = s2 ++ String c r2 -> s1 = s2 /\ r1 = r2.
Proof.
  revert s2. induction s1 as [|a s1 IH]; intros [|b s2] H1 H2 E; simpl in *.
  - now injection E.
  - injection E as <- _. tauto.
  - injection E as -> _. tauto.
  - injection E as <- E. destruct (IH s2) as [<- <-]; tauto.
Qed.

(** A numeral followed by a minus sign determines itself and what follows. *)
Lemma ofZ_cut (z z' : Z) (r r' : string) :
  ofZ z ++ String "-" r = ofZ z' ++ String "-" r' -> z = z' /\ r = r'.
Proof.
  destruct (ofZ_shape z) as (ds & c & rest & Hds & Hn & Hz).
  destruct (ofZ_shape z') as (ds' & c' & rest' & Hds' & Hn' & Hz').
  intros E.
  assert (c <> "-"%char) as Hc.
  { intros ->. apply Hn. rewrite Hds. now left. }
  assert (c' <> "-"%char) as Hc'.
  { intros ->. apply Hn'. rewrite Hds'. now left. }
  assert (ofZ z = ofZ z' /\ r = r') as [H1 H2];
    [|split; [now apply ofZ_inj|assumption]].
  destruct Hz as [Hz|Hz], Hz' as [Hz'|Hz']; rewrite Hz, Hz' in *.
  - destruct (cut_at_first _ _ _ _ _ Hn Hn' E) as [-> ->]. auto.
  - rewrite Hds in E. simpl in E. injection E as E _. contradiction.
  - rewrite Hds' in E. simpl in E. injection E as E _. now symmetry in E.
  - simpl in E. injection E as E.
    destruct (cut_at_first _ _ _ _ _ Hn Hn' E) as [-> ->]. auto.
Qed.

Lemma outcomeId_index (t t' : Z) (i i' : nat) :
  outcomeId t i = outcomeId t' i' -> i = i'.
Proof.
  unfold outcomeId. cbn [append]. intros E. injection E as E.
  apply ofZ_cut in E as [_ E]. now apply ofNat_inj.
Qed.

Lemma moduleId_indices (d d' m m' : nat) (t t' : Z) :
  moduleId d m t = moduleId d' m' t' -> d = d' /\ m = m'.
Proof.
  unfold moduleId, ofNat. cbn [append]. intros E. injection E as E.
  apply ofZ_cut in E as [Hd E]. injection E as E.
  apply ofZ_cut in E as [Hm _].
  split; now apply Nat2Z.inj.
Qed.

(** A list is free of duplicates when its elements have pairwise distinct
    keys. *)
Lemma NoDup_keys {A K} (P : A -> K -> Prop) (l : list A) (ks : list K) :
  Forall2 P l ks -> NoDup ks ->
  (forall a k k', P a k -> P a k' -> k = k') -> NoDup l.
Proof.
  intros HF Hks Hfun. induction HF as [|a k l ks Hak HF IH].
  - constructor.
  - inversion Hks as [|? ? Hk Hks']; subst. constructor; [|now apply IH].
    intros Ha. apply Hk.
    clear - HF Ha Hak Hfun.
    induction HF as [|b k' l ks Hbk HF IH]; [destruct Ha|].
    destruct Ha as [->|Ha].
    + left. eapply Hfun; eassumption.
    + right. now apply IH.
Qed.

Section GeneratorFacts.

Context {platform : Platform} {Sink : Type}.

Implicit Types (st : State World Sink).

(** Every exported function asks for the client first: with one it goes on
    in a state with the same world and sink, without one it throws. *)
Lemma with_client {A} (k : Client -> Comp (State World Sink) A) st :
  exists st0,
    world st0 = world st /\ sink st0 = sink st /\
    ((keyAvailable (world st) = true /\
      exists ai, getClient st = (Ok ai, st0) /\
                 bind getClient k st = k ai st0) \/
     (keyAvailable (world st) = false /\
      bind getClient k st = (Throw MissingApiKey, st0))).
Proof.
  destruct (getClient_run st) as (st0 & Hw & Hs & [[Hk [ai Hc]]|[Hk Hc]]);
    exists st0; (split; [assumption|]); (split; [assumption|]).
  - left. split; [assumption|]. exists ai. split; [assumption|].
    unfold bind. now rewrite Hc.
  - right. split; [assumption|]. unfold bind. now rewrite Hc.
Qed.

(** X6.  Without an API key in localStorage or in the environment, none of
    the five exported functions of the service reaches the remote
    capability: each throws the missing-key error, and leaves the world and
    the progress sink as they were. *)
Theorem no_key_no_remote_call
    basics outcomes skeleton onProgress dayNum original context st :
  keyAvailable (world st) = false ->
  let unreached {A} (m : Comp (State World Sink) A) :=
    fst (m st) = Throw MissingApiKey /\
    world (snd (m st)) = world st /\ sink (snd (m st)) = sink st in
  unreached (generateOutcomes basics) /\
  unreached (generateCourseStructure basics outcomes) /\
  unreached (generateIceBreakerOptions dayNum) /\
  unreached (generateFinalPlanContent basics outcomes skeleton onProgress) /\
  unreached (refineContent original context).
Proof.
  intros Hk unreached. unfold unreached.
  unfold generateOutcomes, generateCourseStructure, generateIceBreakerOptions,
    generateFinalPlanContent, refineContent.
  repeat split;
    match goal with
    | |- context [bind getClient ?k st] =>
        destruct (with_client k st) as (st0 & Hw & Hs & [[Hk' _]|[_ ->]]);
          [congruence|simpl; auto]
    end.
Qed.

(** A generator whose response has no text parses its default literal. *)
Lemma JSON_parse_or_noText dflt response st :
  noText response = true ->
  JSON_parse_or (Sink := Sink) dflt response st = (Ok dflt, st).
Proof.
  unfold noText, JSON_parse_or. destruct (text response) as [[|c s]|];
    try discriminate; reflexivity.
Qed.

(** The first call of a generator, when it has a client and the call
    answers. *)
Lemma firstReply_run request st response :
  firstReply request st = Ok response ->
  exists ai st0 st1,
    getClient st = (Ok ai, st0) /\ call ai request st0 = (Ok response, st1).
Proof.
  unfold firstReply. destruct (getClient st) as [[ai|e] st0]; [|discriminate].
  destruct (call ai request st0) as [r st1] eqn:E. simpl. intros ->. eauto.
Qed.

(** X7.  A response without text is an empty result, not an error: when the
    remote capability answers a generator with no text (or the empty text),
    [generateOutcomes] returns no outcome, [generateCourseStructure] a
    skeleton without days and [generateIceBreakerOptions] an empty array. *)
Theorem empty_response_is_an_empty_result basics outcomes dayNum st :
  (forall response,
     firstReply (outcomesRequest basics) st = Ok response ->
     noText response = true ->
     fst (generateOutcomes basics st) = Ok []) /\
  (forall response,
     firstReply (structureRequest basics outcomes) st = Ok response ->
     noText response = true ->
     fst (generateCourseStructure basics outcomes st) = Ok []) /\
  (forall response,
     firstReply (iceBreakerRequest dayNum) st = Ok response ->
     noText response = true ->
     fst (generateIceBreakerOptions dayNum st) = Ok (JArr [])).
Proof.
  repeat split; intros response Hr Ht;
    destruct (firstReply_run _ _ _ Hr) as (ai & st0 & st1 & Hc & Hcall);
    unfold generateOutcomes, generateCourseStructure, generateIceBreakerOptions,
      outcomesRequest, structureRequest, iceBreakerRequest in *;
    unfold bind at 1; rewrite Hc; unfold bind at 1; rewrite Hcall;
    try unfold bind at 1; rewrite (JSON_parse_or_noText _ _ _ Ht); reflexivity.
Qed.

(** The loop of [generateOutcomes]: outcome [k] of the result carries the
    index [i + k] in its id and the text of item [k], whatever that is. *)
Lemma mintOutcomes_run l : forall i st outs st',
  mapIndexed mintOutcome i l st = (Ok outs, st') ->
  Forall2 (fun id k => exists t, id = outcomeId t k)
    (map lo_id outs) (seq i (List.length l)) /\
  map (fun o => Some (lo_text o)) outs
    = map (fun item => JS.member item "text") l.
Proof.
  induction l as [|item rest IH]; intros i st outs st' H; simpl in H.
  - unfold ret in H. injection H as <- _. simpl. auto.
  - unfold bind at 1 in H.
    destruct (mintOutcome i item st) as [[o|e] st1] eqn:Eo; [|discriminate].
    unfold bind at 1 in H.
    destruct (mapIndexed mintOutcome (S i) rest st1) as [[os|e] st2] eqn:E;
      [|discriminate].
    unfold ret in H. injection H as <- _.
    destruct (IH _ _ _ _ E) as [IH1 IH2].
    unfold mintOutcome, bind, now, member, ret, throw in Eo.
    destruct (Date_now (world st)) as [t w].
    destruct (JS.member item "text") as [x|] eqn:Ex; [|discriminate].
    injection Eo as <- _. simpl.
    split; [constructor; eauto|]. now rewrite IH2, Ex.
Qed.

(** The loop throws on nothing but [null] and [undefined]. *)
Lemma mintOutcomes_ok l : forall i st,
  forallb (fun item => match item with
                       | JNull | JUndefined => false
                       | _ => true
                       end) l = true ->
  exists outs st', mapIndexed mintOutcome i l st = (Ok outs, st').
Proof.
  induction l as [|item rest IH]; intros i st H; simpl in *.
  - unfold ret. eauto.
  - apply andb_true_iff in H as [Hitem Hrest].
    assert (exists o st1, mintOutcome i item st = (Ok o, st1))
      as (o & st1 & Ho).
    { unfold mintOutcome, bind, now, member, ret.
      destruct (Date_now (world st)) as [t w].
      destruct item; try discriminate; simpl; eauto. }
    destruct (IH (S i) st1 Hrest) as (os & st2 & Hos).
    unfold bind at 1. rewrite Ho. unfold bind at 1. rewrite Hos.
    unfold ret. eauto.
Qed.

(** [generateOutcomes] returns for every array that holds no [null], with
    one outcome per item. *)
Lemma generateOutcomes_ok basics st response raw :
  firstReply (outcomesRequest basics) st = Ok response ->
  noText response = false ->
  parsed response = Some (JArr raw) ->
  forallb (fun item => match item with
                       | JNull | JUndefined => false
                       | _ => true
                       end) raw = true ->
  exists outs st',
    generateOutcomes basics st = (Ok outs, st') /\
    List.length outs = List.length raw /\
    map (fun o => Some (lo_text o)) outs
      = map (fun item => JS.member item "text") raw.
Proof.
  intros Hr Ht Hp Hitems.
  destruct (firstReply_run _ _ _ Hr) as (ai & st0 & st1 & Hc & Hcall).
  unfold generateOutcomes, outcomesRequest in *.
  unfold bind at 1. rewrite Hc. unfold bind at 1. rewrite Hcall.
  unfold bind at 1, JSON_parse_or. unfold noText in Ht.
  destruct (text response) as [[|c t]|]; try discriminate.
  rewrite Hp. unfold ret at 1.
  destruct (mintOutcomes_ok raw 0 st1 Hitems) as (outs & st' & Hrun).
  exists outs, st'. split; [assumption|].
  destruct (mintOutcomes_run _ _ _ _ _ Hrun) as [_ Htexts].
  split; [|assumption].
  apply (f_equal (@List.length _)) in Htexts.
  now rewrite !length_map in Htexts.
Qed.

(** X8.  The outcomes that [generateOutcomes] returns have pairwise distinct
    ids, whatever the clock reads (the index is part of the id); there is
    one outcome per item of the array the remote capability answered with,
    and it carries the [text] of that item, whatever value that is
    ([undefined] for an item without text).  It returns for every array
    that holds no [null]. *)
Theorem generated_outcome_ids_are_distinct basics st :
  (forall outs st',
     generateOutcomes basics st = (Ok outs, st') ->
     NoDup (map lo_id outs) /\
     exists response,
       firstReply (outcomesRequest basics) st = Ok response /\
       ((noText response = true /\ outs = []) \/
        (exists raw,
           parsed response = Some (JArr raw) /\
           List.length outs = List.length raw /\
           map (fun o => Some (lo_text o)) outs
             = map (fun item => JS.member item "text") raw))) /\
  (forall response raw,
     firstReply (outcomesRequest basics) st = Ok response ->
     noText response = false ->
     parsed response = Some (JArr raw) ->
     forallb (fun item => match item with
                          | JNull | JUndefined => false
                          | _ => true
                          end) raw = true ->
     exists outs st',
       generateOutcomes basics st = (Ok outs, st') /\
       List.length outs = List.length raw /\
       map (fun o => Some (lo_text o)) outs
         = map (fun item => JS.member item "text") raw).
Proof.
  split; [|apply generateOutcomes_ok].
  unfold generateOutcomes, firstReply, outcomesRequest. intros outs st' H.
  unfold bind at 1 in H.
  destruct (getClient st) as [[ai|e] st0]; [|discriminate].
  unfold bind at 1 in H.
  destruct (call ai _ st0) as [[response|e] st1]; [|discriminate].
  unfold bind in H.
  destruct (JSON_parse_or (JArr []) response st1) as [[raw|e] st2] eqn:Ep;
    [|discriminate].
  destruct raw as [| | | | |l|]; try discriminate.
  destruct (mintOutcomes_run _ _ _ _ _ H) as [Hids Htexts].
  split.
  - eapply NoDup_keys; [exact Hids|apply seq_NoDup|].
    intros id k k' [t ->] [t' Hk]. eapply outcomeId_index, Hk.
  - exists response. split; [reflexivity|].
    unfold JSON_parse_or, noText in *.
    destruct (text response) as [[|c s]|].
    + left. unfold ret in Ep. injection Ep as <- <-. simpl in H.
      unfold ret in H. injection H as <- _. auto.
    + right. destruct (parsed response) as [v|]; [|discriminate].
      unfold ret in Ep. injection Ep as -> _.
      exists l. repeat split; auto.
      apply (f_equal (@List.length _)) in Htexts.
      now rewrite !length_map in Htexts.
    + left. unfold ret in Ep. injection Ep as <- <-. simpl in H.
      unfold ret in H. injection H as <- _. auto.
Qed.

(** *** The generators leave the progress sink alone *)

Lemma keepsSink_ret {A} (a : A) : keepsSink (Sink := Sink) (ret a).
Proof. intros st. reflexivity. Qed.

Lemma keepsSink_throw {A} (e : Error) : keepsSink (Sink := Sink) (A := A) (throw e).
Proof. intros st. reflexivity. Qed.

Lemma keepsSink_bind {A B} (m : Comp (State World Sink) A)
    (k : A -> Comp (State World Sink) B) :
  keepsSink m -> (forall a, keepsSink (k a)) -> keepsSink (bind m k).
Proof.
  intros Hm Hk st. unfold bind. specialize (Hm st).
  destruct (m st) as [[a|e] st1]; simpl in Hm.
  - now rewrite Hk.
  - assumption.
Qed.

Lemma keepsSink_call ai request : keepsSink (Sink := Sink) (call ai request).
Proof.
  intros st. unfold call. now destruct (generateContent ai request (world st)).
Qed.

Lemma keepsSink_now : keepsSink (Sink := Sink) now.
Proof. intros st. unfold now. now destruct (Date_now (world st)). Qed.

Lemma keepsSink_member v k : keepsSink (Sink := Sink) (member v k).
Proof. intros st. unfold member. now destruct (JS.member v k). Qed.

Lemma keepsSink_JSON_parse_or dflt response :
  keepsSink (Sink := Sink) (JSON_parse_or dflt response).
Proof.
  intros st. unfold JSON_parse_or.
  destruct (text response) as [[|c t]|]; try reflexivity.
  now destruct (parsed response).
Qed.

Lemma keepsSink_getClient : keepsSink (Sink := Sink) getClient.
Proof.
  intros st.
  destruct (getClient_run st) as (st0 & _ & Hs & [[_ [ai ->]]|[_ ->]]);
    assumption.
Qed.

Lemma keepsSink_mapIndexed {A B}
    (f : nat -> A -> Comp (State World Sink) B) :
  (forall i x, keepsSink (f i x)) -> forall l i, keepsSink (mapIndexed f i l).
Proof.
  intros Hf l. induction l as [|x rest IH]; intros i; simpl.
  - apply keepsSink_ret.
  - apply keepsSink_bind; [apply Hf|]. intros y.
    apply keepsSink_bind; [apply IH|]. intros ys. apply keepsSink_ret.
Qed.

Lemma keepsSink_hydrateModule dIdx mIdx m :
  keepsSink (Sink := Sink) (hydrateModule dIdx mIdx m).
Proof.
  unfold hydrateModule.
  apply keepsSink_bind; [apply keepsSink_member|]. intros mid.
  apply keepsSink_bind.
  { destruct (JS.truthy mid); [apply keepsSink_ret|].
    apply keepsSink_bind; [apply keepsSink_now|]. intros t.
    apply keepsSink_ret. }
  intros id. apply keepsSink_bind; [apply keepsSink_member|]. intros title.
  apply keepsSink_bind; [apply keepsSink_member|]. intros duration.
  apply keepsSink_ret.
Qed.

Lemma keepsSink_hydrateDay dIdx d : keepsSink (Sink := Sink) (hydrateDay dIdx d).
Proof.
  unfold hydrateDay.
  apply keepsSink_bind; [apply keepsSink_member|]. intros n.
  apply keepsSink_bind.
  { destruct n; solve [apply keepsSink_ret | apply keepsSink_throw]. }
  intros z. apply keepsSink_bind; [apply keepsSink_member|]. intros ms.
  apply keepsSink_bind.
  { destruct ms; try apply keepsSink_throw.
    apply keepsSink_mapIndexed. intros i x. apply keepsSink_hydrateModule. }
  intros modules. apply keepsSink_ret.
Qed.

Lemma keepsSink_generateCourseStructure basics outcomes :
  keepsSink (Sink := Sink) (generateCourseStructure basics outcomes).
Proof.
  unfold generateCourseStructure.
  apply keepsSink_bind; [apply keepsSink_getClient|]. intros ai.
  apply keepsSink_bind; [apply keepsSink_call|]. intros response.
  apply keepsSink_bind; [apply keepsSink_JSON_parse_or|]. intros rawDays.
  destruct rawDays; try apply keepsSink_throw.
  apply keepsSink_mapIndexed. intros i x. apply keepsSink_hydrateDay.
Qed.

Lemma keepsSink_generateIceBreakerOptions dayNum :
  keepsSink (Sink := Sink) (generateIceBreakerOptions dayNum).
Proof.
  unfold generateIceBreakerOptions.
  apply keepsSink_bind; [apply keepsSink_getClient|]. intros ai.
  apply keepsSink_bind; [apply keepsSink_call|]. intros response.
  apply keepsSink_JSON_parse_or.
Qed.

Lemma keepsSink_generateOutcomes basics :
  keepsSink (Sink := Sink) (generateOutcomes basics).
Proof.
  unfold generateOutcomes.
  apply keepsSink_bind; [apply keepsSink_getClient|]. intros ai.
  apply keepsSink_bind; [apply keepsSink_call|]. intros response.
  apply keepsSink_bind; [apply keepsSink_JSON_parse_or|]. intros raw.
  destruct raw; try apply keepsSink_throw.
  apply keepsSink_mapIndexed. intros i x. unfold mintOutcome.
  apply keepsSink_bind; [apply keepsSink_now|]. intros t.
  apply keepsSink_bind; [apply keepsSink_member|]. intros v.
  apply keepsSink_ret.
Qed.

(** *** The skeleton *)

(** What [hydrateModule] returns: six properties, the id of the response
    when it has a truthy one and a minted id otherwise, title and duration
    as the response has them, and no content. *)
Lemma hydrateModule_run dIdx mIdx m st module st' :
  hydrateModule dIdx mIdx m st = (Ok module, st') ->
  exists x id title duration,
    JS.member m "id" = Some x /\
    (if JS.truthy x then id = x
     else exists t, id = JStr (moduleId dIdx mIdx t)) /\
    JS.member m "title" = Some title /\
    JS.member m "duration" = Some duration /\
    module = [("id", id); ("title", title); ("duration", duration);
              ("subModules", JArr []); ("methodology", JStr EmptyString);
              ("resources", JStr EmptyString)].
Proof.
  unfold hydrateModule, member. intros H.
  destruct (JS.member m "id") as [x|]; [|discriminate].
  unfold bind at 1 in H. unfold ret at 1 in H.
  unfold bind at 1 in H.
  destruct (JS.truthy x) eqn:Ex.
  - unfold ret at 1 in H.
    destruct (JS.member m "title") as [title|]; [|discriminate].
    unfold bind at 1 in H. unfold ret at 1 in H.
    destruct (JS.member m "duration") as [duration|]; [|discriminate].
    unfold bind, ret in H. injection H as <- _.
    exists x, x, title, duration. rewrite Ex. auto.
  - unfold bind at 1 in H. unfold now in H.
    destruct (Date_now (world st)) as [t w]. unfold ret at 1 in H.
    destruct (JS.member m "title") as [title|]; [|discriminate].
    unfold bind at 1 in H. unfold ret at 1 in H.
    destruct (JS.member m "duration") as [duration|]; [|discriminate].
    unfold bind, ret in H. injection H as <- _.
    exists x, (JStr (moduleId dIdx mIdx t)), title, duration. rewrite Ex.
    repeat split; eauto.
Qed.

(** What [hydrateDay] returns besides the modules. *)
Lemma hydrateDay_run dIdx d st day st' :
  hydrateDay dIdx d st = (Ok day, st') ->
  exists ms st1,
    JS.member d "modules" = Some (JArr ms) /\
    mapIndexed (hydrateModule dIdx) 0 ms st = (Ok (modules day), st1) /\
    iceBreaker day = {| ib_title := EmptyString; ib_description := EmptyString;
                        ib_duration := EmptyString |} /\
    recap day = (if (1 <? dayNumber day)%Z then Some "Recap of previous day"
                 else None) /\
    summary day = JStr "Key takeaways and Q&A" /\
    reviewQuestions day = JArr [].
Proof.
  unfold hydrateDay, member. intros H.
  destruct (JS.member d "dayNumber") as [n|]; [|discriminate].
  unfold bind at 1 in H. unfold ret at 1 in H.
  destruct n; try discriminate.
  unfold bind at 1 in H. unfold ret at 1 in H.
  unfold bind at 1 in H.
  destruct (JS.member d "modules") as [ms|]; [|discriminate].
  unfold ret at 1 in H.
  unfold bind at 1 in H.
  destruct ms as [| | | | |ms|]; try discriminate.
  destruct (mapIndexed (hydrateModule dIdx) 0 ms st) as [[modules|e] st1] eqn:E;
    [|discriminate].
  unfold ret in H. injection H as <- _. simpl.
  exists ms, st1. auto 10.
Qed.

(** A property of every element that a loop returns. *)
Lemma mapIndexed_Forall {A B} (f : nat -> A -> Comp (State World Sink) B)
    (P : B -> Prop) (l : list A) :
  (forall i x st y st', f i x st = (Ok y, st') -> P y) ->
  forall i st ys st', mapIndexed f i l st = (Ok ys, st') -> Forall P ys.
Proof.
  intros Hf. induction l as [|x rest IH]; intros i st ys st' H; simpl in H.
  - unfold ret in H. injection H as <- _. constructor.
  - unfold bind at 1 in H.
    destruct (f i x st) as [[y|e] st1] eqn:Ey; [|discriminate].
    unfold bind at 1 in H.
    destruct (mapIndexed f (S i) rest st1) as [[ys'|e] st2] eqn:E;
      [|discriminate].
    unfold ret in H. injection H as <- _.
    constructor; [eapply Hf, Ey|eapply IH, E].
Qed.

(** X9.  The skeleton carries structure only.  In every skeleton that
    [generateCourseStructure] returns, each day has the empty ice breaker,
    the placeholder summary, no review question, and the recap placeholder
    exactly when its day number is above 1; each module has the six
    properties id, title, duration, subModules, methodology and resources
    and no other, with no sub-module, the empty methodology and the empty
    resources: nothing else that the response holds reaches the skeleton. *)
Theorem skeleton_carries_structure_only basics outcomes st days st' :
  generateCourseStructure basics outcomes st = (Ok days, st') ->
  Forall
    (fun day =>
       iceBreaker day = {| ib_title := EmptyString;
                           ib_description := EmptyString;
                           ib_duration := EmptyString |} /\
       recap day = (if (1 <? dayNumber day)%Z
                    then Some "Recap of previous day" else None) /\
       summary day = JStr "Key takeaways and Q&A" /\
       reviewQuestions day = JArr [] /\
       Forall
         (fun module =>
            map fst module = ["id"; "title"; "duration"; "subModules";
                              "methodology"; "resources"] /\
            JS.get "subModules" module = JArr [] /\
            JS.get "methodology" module = JStr EmptyString /\
            JS.get "resources" module = JStr EmptyString)
         (modules day))
    days.
Proof.
  intros H. rewrite generateCourseStructure_run in H.
  destruct (structureReply basics outcomes st) as [[v|e] st1]; [|discriminate].
  destruct v as [| | | | |l|]; try discriminate.
  eapply mapIndexed_Forall; [|exact H].
  intros i d s day s' Hd.
  destruct (hydrateDay_run _ _ _ _ _ Hd)
    as (ms & s1 & _ & Hms & Hi & Hr & Hs & Hq).
  repeat split; auto.
  eapply mapIndexed_Forall; [|exact Hms].
  intros j m s2 module s3 Hm.
  destruct (hydrateModule_run _ _ _ _ _ _ Hm)
    as (x & id & title & dur & _ & _ & _ & _ & ->).
  repeat split; reflexivity.
Qed.

Lemma mintedFor_key id k k' : mintedFor id k -> mintedFor id k' -> k = k'.
Proof.
  intros [t ->] [t' H].
  assert (moduleId (fst k) (snd k) t = moduleId (fst k') (snd k') t') as E
    by congruence.
  apply moduleId_indices in E as [H1 H2].
  destruct k, k'; simpl in *; congruence.
Qed.

Lemma hydrateModules_ids dIdx l : forall i st ms st',
  mapIndexed (hydrateModule dIdx) i l st = (Ok ms, st') ->
  (forall m x, In m l -> JS.member m "id" = Some x -> JS.truthy x = false) ->
  Forall2 mintedFor (map (JS.get "id") ms)
    (map (pair dIdx) (seq i (List.length l))).
Proof.
  induction l as [|m rest IH]; intros i st ms st' H Hno; simpl in H.
  - unfold ret in H. injection H as <- _. constructor.
  - unfold bind at 1 in H.
    destruct (hydrateModule dIdx i m st) as [[y|e] st1] eqn:Ey; [|discriminate].
    unfold bind at 1 in H.
    destruct (mapIndexed (hydrateModule dIdx) (S i) rest st1)
      as [[ys|e] st2] eqn:E; [|discriminate].
    unfold ret in H. injection H as <- _. simpl. constructor.
    + destruct (hydrateModule_run _ _ _ _ _ _ Ey)
        as (x & id & title & dur & Hx & Hid & _ & _ & ->).
      rewrite (Hno m x (or_introl eq_refl) Hx) in Hid.
      destruct Hid as [t ->]. exists t. reflexivity.
    + eapply IH; [exact E|]. intros m' x Hin. apply Hno. now right.
Qed.

Lemma hydrateDays_ids l : forall i st days st',
  mapIndexed hydrateDay i l st = (Ok days, st') ->
  withoutIds l ->
  exists ks,
    Forall2 mintedFor (moduleIds days) ks /\ NoDup ks /\
    Forall (fun k => i <= fst k) ks.
Proof.
  induction l as [|d rest IH]; intros i st days st' H Hno; simpl in H.
  - unfold ret in H. injection H as <- _. exists []. repeat constructor.
  - unfold bind at 1 in H.
    destruct (hydrateDay i d st) as [[day|e] st1] eqn:Ed; [|discriminate].
    unfold bind at 1 in H.
    destruct (mapIndexed hydrateDay (S i) rest st1) as [[days'|e] st2] eqn:E;
      [|discriminate].
    unfold ret in H. injection H as <- _.
    destruct (IH _ _ _ _ E) as (ks & Hks & Hnd & Hge).
    { intros d' ms m Hd'. apply Hno. now right. }
    destruct (hydrateDay_run _ _ _ _ _ Ed) as (ms & s1 & Hms & Hrun & _).
    exists (map (pair i) (seq 0 (List.length ms)) ++ ks)%list.
    unfold moduleIds in *. simpl. split; [|split].
    + apply Forall2_app; [|assumption].
      eapply hydrateModules_ids; [exact Hrun|].
      intros m x Hm. eapply Hno; [now left|exact Hms|exact Hm].
    + apply NoDup_app; [|assumption|].
      * apply Finite.Injective_map_NoDup; [|apply seq_NoDup].
        intros a b Hab. now injection Hab.
      * intros k Hk Hk'. apply in_map_iff in Hk as (j & <- & _).
        rewrite Forall_forall in Hge. apply Hge in Hk'. simpl in Hk'. lia.
    + apply Forall_app. split.
      * apply Forall_forall. intros k Hk.
        apply in_map_iff in Hk as (j & <- & _). simpl. lia.
      * eapply Forall_impl; [|exact Hge]. simpl. intros; lia.
Qed.

(** X10.  When the structure response brings no module id of its own, every
    module of the skeleton gets a minted id, and the minted ids of a
    skeleton are pairwise distinct, whatever the clock reads: the indices of
    the day and of the module are part of the id. *)
Theorem minted_module_ids_are_distinct basics outcomes st days st' rawDays :
  generateCourseStructure basics outcomes st = (Ok days, st') ->
  fst (structureReply basics outcomes st) = Ok (JArr rawDays) ->
  withoutIds rawDays ->
  NoDup (moduleIds days).
Proof.
  intros H Hr Hno. rewrite generateCourseStructure_run in H.
  destruct (structureReply basics outcomes st) as [[v|e] st1]; [|discriminate].
  simpl in Hr. injection Hr as ->.
  destruct (hydrateDays_ids _ _ _ _ _ H Hno) as (ks & Hks & Hnd & _).
  eapply NoDup_keys; [exact Hks|exact Hnd|].
  intros id k k'. apply mintedFor_key.
Qed.

End GeneratorFacts.

(** * The handlers of the component *)

Section ComponentFacts.

Import Component.

Context {platform : Platform}.

Implicit Types (s : Store) (c : Data).

Local Open Scope nat_scope.

(** Unfolds the plumbing of a handler. *)
Ltac plumbing :=
  unfold closure, advanceStep, modify, setLoadingMsg, onService, onData,
    bind, try_finally, try_catch, ret, throw in *.

(** The orchestrator returns a schedule exactly when a key is at hand. *)
Lemma generateFinalPlanContent_run {Sink} basics outcomes skeleton onProgress
    (st : State World Sink) :
  exists st',
    (keyAvailable (world st) = true /\
     exists days,
       generateFinalPlanContent basics outcomes skeleton onProgress st
         = (Ok days, st') /\
       List.length days = List.length skeleton) \/
    (keyAvailable (world st) = false /\
     generateFinalPlanContent basics outcomes skeleton onProgress st
       = (Throw MissingApiKey, st')).
Proof.
  destruct (getClient_run st) as (st0 & _ & _ & [[Hk [ai Hc]]|[Hk Hc]]).
  - destruct (plan_run basics outcomes skeleton onProgress st ai st0 Hc)
      as (days & st' & Hrun & Hlen & _).
    exists st'. left. eauto.
  - exists st0. right. split; [assumption|].
    unfold generateFinalPlanContent, bind. now rewrite Hc.
Qed.

(** Without a key the orchestrator throws before it has touched anything. *)
Lemma no_key_no_plan_call {Sink} basics outcomes skeleton onProgress
    (st : State World Sink) :
  keyAvailable (world st) = false ->
  fst (generateFinalPlanContent basics outcomes skeleton onProgress st)
    = Throw MissingApiKey /\
  world (snd (generateFinalPlanContent basics outcomes skeleton onProgress st))
    = world st /\
  sink (snd (generateFinalPlanContent basics outcomes skeleton onProgress st))
    = sink st.
Proof.
  intros Hk.
  destruct (getClient_run st) as (st0 & Hw & Hs & [[Hk' _]|[_ Hc]]);
    [congruence|].
  unfold generateFinalPlanContent, bind. rewrite Hc. simpl. auto.
Qed.

(** X11.  The handlers refine the events of the wizard.  Run to its end from
    the view that offers it, each generation handler changes [step],
    [maxStepReached] and the presence of a plan as the event of the wizard
    that stands for it: [generateSuggestedOutcomes] as GenerateOutcomes with
    whether a title is given, [generateStructure] as GenerateStructure with
    whether there are three outcomes and whether the structure call
    returned, [prepareIceBreakers] as PrepareIceBreakers, [generateFinal] as
    GenerateFinal with whether an API key is at hand, and [handleLoad] as
    Load. *)
Theorem handlers_refine_the_wizard s :
  let c := data s in
  let after (handler : Comp Store unit) := wizardOf (data (snd (handler s))) in
  (step c = 1 ->
   App.handle (App.GenerateOutcomes (nonEmpty (courseTitle (basics_ c))))
     (wizardOf c) = Some (after generateSuggestedOutcomes)) /\
  (step c = 2 ->
   App.handle
     (App.GenerateStructure (3 <=? List.length (outcomes_ c))
        (succeeds (fst (generateCourseStructure (basics_ c) (outcomes_ c)
                          (announcing "Outlining course modules..." s)))))
     (wizardOf c) = Some (after generateStructure)) /\
  (step c = 3 ->
   App.handle App.PrepareIceBreakers (wizardOf c)
     = Some (after prepareIceBreakers)) /\
  (step c = 4 ->
   App.handle (App.GenerateFinal (keyAvailable (world (service s))))
     (wizardOf c) = Some (after generateFinal)) /\
  (forall saved,
     App.handle App.Load (wizardOf c) = Some (after (handleLoad saved))).
Proof.
  intros c after. subst after c. destruct s as [sv c]. simpl.
  split; [|split; [|split; [|split]]].
  - intros Hs. unfold App.handle. simpl. rewrite Hs. simpl.
    unfold generateSuggestedOutcomes. plumbing. simpl.
    destruct (nonEmpty (courseTitle (basics_ c))); simpl; [|reflexivity].
    destruct (generateOutcomes (basics_ c) _) as [[res|e] st1]; simpl;
      unfold App.advanceStep, wizardOf; simpl;
      destruct (maxStepReached c <? 2); reflexivity.
  - intros Hs. unfold App.handle. simpl. rewrite Hs. simpl.
    unfold generateStructure. plumbing. simpl.
    unfold announcing. simpl.
    destruct (List.length (outcomes_ c)) as [|[|[|n]]]; simpl; try reflexivity.
    destruct (generateCourseStructure (basics_ c) (outcomes_ c) _)
      as [[res|e] st1]; simpl; [|reflexivity].
    unfold App.advanceStep, wizardOf; simpl.
    destruct (maxStepReached c <? 3); reflexivity.
  - intros Hs. unfold App.handle. simpl. rewrite Hs. simpl.
    unfold prepareIceBreakers, loadIceBreakerOptions. plumbing.
    unfold App.advanceStep, wizardOf. simpl.
    destruct (maxStepReached c <? 4) eqn:E;
      destruct (JS.truthy (JS.get "0" (iceBreakerOptions c))); simpl;
      rewrite ?E; try reflexivity;
      match goal with
      | |- context [generateIceBreakerOptions ?d ?st] =>
          destruct (generateIceBreakerOptions d st) as [[opts|e] st1]
      end; simpl; rewrite ?E; try reflexivity;
      match goal with
      | |- context [log ?x ?st] => destruct (log x st)
      end; simpl; rewrite ?E; reflexivity.
  - intros Hs. unfold App.handle. simpl. rewrite Hs. simpl.
    unfold generateFinal. plumbing. simpl.
    match goal with
    | |- context [generateFinalPlanContent ?b ?o ?k ?f ?st] =>
        destruct (generateFinalPlanContent_run b o k f st)
          as (st' & [[Hk (days & -> & _)]|[Hk ->]]); simpl in Hk; rewrite Hk
    end; simpl; [|reflexivity].
    unfold App.advanceStep, wizardOf; simpl.
    destruct (maxStepReached c <? 5); reflexivity.
  - reflexivity.
Qed.

(** X12.  No error of the service escapes a generation handler, and the busy
    flag is released: [generateSuggestedOutcomes], [generateStructure],
    [loadIceBreakerOptions], [prepareIceBreakers] and [generateFinal] all
    return normally, whatever the remote capability does, and leave [status]
    IDLE whenever they had set it (a handler that its guard turns away, or
    that finds the options of day 1 loaded, leaves [status] as it was). *)
Theorem handlers_contain_every_error s dayNum dayIndex :
  let c := data s in
  let returns (handler : Comp Store unit) (after : GenerationStatus) :=
    fst (handler s) = Ok tt /\ status (data (snd (handler s))) = after in
  returns generateSuggestedOutcomes
    (if nonEmpty (courseTitle (basics_ c)) then IDLE else status c) /\
  returns generateStructure
    (if 3 <=? List.length (outcomes_ c) then IDLE else status c) /\
  returns (loadIceBreakerOptions dayNum dayIndex) IDLE /\
  returns prepareIceBreakers
    (if JS.truthy (JS.get "0" (iceBreakerOptions c)) then status c else IDLE) /\
  returns generateFinal IDLE.
Proof.
  intros c returns. subst returns c. destruct s as [sv c]. simpl.
  split; [|split; [|split; [|split]]].
  - unfold generateSuggestedOutcomes. plumbing. simpl.
    destruct (nonEmpty (courseTitle (basics_ c))); simpl; [|auto].
    match goal with
    | |- context [generateOutcomes ?b ?st] =>
        destruct (generateOutcomes b st) as [[res|e] st1]
    end; simpl; destruct (maxStepReached c <? 2); auto.
  - unfold generateStructure. plumbing. simpl.
    destruct (List.length (outcomes_ c)) as [|[|[|n]]]; simpl; auto.
    match goal with
    | |- context [generateCourseStructure ?b ?o ?st] =>
        destruct (generateCourseStructure b o st) as [[res|e] st1]
    end; simpl; destruct (maxStepReached c <? 3); auto.
  - unfold loadIceBreakerOptions. plumbing. simpl.
    match goal with
    | |- context [generateIceBreakerOptions ?d ?st] =>
        destruct (generateIceBreakerOptions d st) as [[opts|e] st1]
    end; simpl; auto.
  - unfold prepareIceBreakers, loadIceBreakerOptions. plumbing. simpl.
    destruct (maxStepReached c <? 4);
      destruct (JS.truthy (JS.get "0" (iceBreakerOptions c))); simpl; auto;
      match goal with
      | |- context [generateIceBreakerOptions ?d ?st] =>
          destruct (generateIceBreakerOptions d st) as [[opts|e] st1]
      end; simpl; auto.
  - unfold generateFinal. plumbing. simpl.
    match goal with
    | |- context [generateFinalPlanContent ?b ?o ?k ?f ?st] =>
        destruct (generateFinalPlanContent b o k f st) as [[days|e] st1]
    end; simpl; destruct (maxStepReached c <? 5); auto.
Qed.

(** A generation that its guard turns away changes nothing but the
    error message: with an empty course title [generateSuggestedOutcomes],
    and with fewer than three outcomes [generateStructure], set [error] and
    return, leaving the service (and so the remote capability) and every
    other state variable untouched. *)
Lemma guards_turn_away_without_a_call s :
  (courseTitle (basics_ (data s)) = EmptyString ->
   generateSuggestedOutcomes s
     = (Ok tt, onData (setError (Some "Enter title")) s)) /\
  (List.length (outcomes_ (data s)) < 3 ->
   generateStructure s
     = (Ok tt, onData (setError (Some "Need at least 3 outcomes")) s)).
Proof.
  split.
  - intros H. unfold generateSuggestedOutcomes, closure. rewrite H. reflexivity.
  - intros H. unfold generateStructure, closure.
    apply Nat.ltb_lt in H. rewrite H. reflexivity.
Qed.

(** X13.  A failed generation leaves the course data as it was.  When the
    structure call fails, [generateStructure] ends with the state variables
    of its start but for three: the error message, [status], which is IDLE,
    and [loadingMsg], which is the message the handler set before the call.
    So does [generateFinal] when no API key is at hand, without a call of
    the remote capability: the structure, the outcomes, the plan and the
    step are those of before.  When the options call fails,
    [loadIceBreakerOptions] changes no state variable but [status] and
    [loadingMsg], and logs the error. *)
Theorem failed_generation_keeps_the_data s dayNum dayIndex :
  let c := data s in
  (3 <= List.length (outcomes_ c) ->
   succeeds (fst (generateCourseStructure (basics_ c) (outcomes_ c)
                    (announcing "Outlining course modules..." s))) = false ->
   data (snd (generateStructure s))
     = setStatus IDLE (setError (Some "Failed to outline structure") c) /\
   loadingMsg (snd (generateStructure s)) = "Outlining course modules...") /\
  (keyAvailable (world (service s)) = false ->
   data (snd (generateFinal s))
     = setStatus IDLE (setError (Some "Failed to generate final content") c) /\
   loadingMsg (snd (generateFinal s)) = "Developing detailed content..." /\
   world (service (snd (generateFinal s))) = world (service s)) /\
  (forall e,
     fst (generateIceBreakerOptions dayNum
            (announcing
               ("Thinking of fun ideas for Day " ++ ofNumber dayNum ++ "...") s))
       = Throw e ->
     data (snd (loadIceBreakerOptions dayNum dayIndex s)) = setStatus IDLE c /\
     loadingMsg (snd (loadIceBreakerOptions dayNum dayIndex s))
       = "Thinking of fun ideas for Day " ++ ofNumber dayNum ++ "..." /\
     exists log,
       console (service (snd (loadIceBreakerOptions dayNum dayIndex s)))
         = (log ++ [ConsoleError EmptyString e])%list).
Proof.
  intros c. subst c. destruct s as [sv c]. unfold announcing, loadingMsg.
  simpl. split; [|split].
  - intros Hn Hf. unfold generateStructure. plumbing. simpl.
    apply Nat.ltb_ge in Hn. rewrite Hn.
    match type of Hf with
    | context [generateCourseStructure ?b ?o ?st] =>
        pose proof (keepsSink_generateCourseStructure b o st) as Hs;
        repeat match goal with
          | |- context [generateCourseStructure b o ?st'] =>
              progress change st' with st
          end;
        destruct (generateCourseStructure b o st) as [[res|e] st1]
    end; [discriminate|]. split; [reflexivity|exact Hs].
  - intros Hk. unfold generateFinal. plumbing. simpl.
    match goal with
    | |- context [generateFinalPlanContent ?b ?o ?k ?f ?st] =>
        destruct (no_key_no_plan_call b o k f st Hk) as (Hr & Hw & Hs);
        destruct (generateFinalPlanContent b o k f st) as [[days|e] st1]
    end; simpl in *; [discriminate|]. auto.
  - intros e He. unfold loadIceBreakerOptions. plumbing. simpl.
    match type of He with
    | context [generateIceBreakerOptions ?d ?st] =>
        pose proof (keepsSink_generateIceBreakerOptions d st) as Hs;
        repeat match goal with
          | |- context [generateIceBreakerOptions d ?st'] =>
              progress change st' with st
          end;
        destruct (generateIceBreakerOptions d st) as [[opts|e'] st1]
    end; simpl in He; [discriminate|]. injection He as ->.
    simpl. split; [reflexivity|]. split; [exact Hs|]. eexists. reflexivity.
Qed.

(** X14.  A failed outcome generation does not stop the wizard: when the
    outcomes call fails, [generateSuggestedOutcomes] still advances to step
    2, and it replaces the outcomes, whatever they were, by a single empty
    outcome with id 1; when the call returns, the outcomes are those it
    returned and the error is cleared.  The call returns whenever the
    remote capability answers with an array that holds no [null]: the
    outcomes are then one per item, with the [text] of the item, be it
    [undefined]. *)
Theorem outcomes_fall_back_to_one_empty_outcome s :
  let c := data s in
  let st := announcing "Drafting simple English outcomes..." s in
  courseTitle (basics_ c) <> EmptyString ->
  step (data (snd (generateSuggestedOutcomes s))) = 2 /\
  outcomes_ (data (snd (generateSuggestedOutcomes s))) =
    match fst (generateOutcomes (basics_ c) st) with
    | Ok res => res
    | Throw _ => [{| lo_id := "1"; lo_text := JStr EmptyString |}]
    end /\
  error (data (snd (generateSuggestedOutcomes s))) =
    match fst (generateOutcomes (basics_ c) st) with
    | Ok _ => None
    | Throw _ => Some "Failed to generate outcomes"
    end /\
  (forall response raw,
     firstReply (outcomesRequest (basics_ c)) st = Ok response ->
     noText response = false ->
     parsed response = Some (JArr raw) ->
     forallb (fun item => match item with
                          | JNull | JUndefined => false
                          | _ => true
                          end) raw = true ->
     error (data (snd (generateSuggestedOutcomes s))) = None /\
     map (fun o => Some (lo_text o))
         (outcomes_ (data (snd (generateSuggestedOutcomes s))))
       = map (fun item => JS.member item "text") raw).
Proof.
  intros c st Ht.
  assert (step (data (snd (generateSuggestedOutcomes s))) = 2 /\
          outcomes_ (data (snd (generateSuggestedOutcomes s))) =
            match fst (generateOutcomes (basics_ c) st) with
            | Ok res => res
            | Throw _ => [{| lo_id := "1"; lo_text := JStr EmptyString |}]
            end /\
          error (data (snd (generateSuggestedOutcomes s))) =
            match fst (generateOutcomes (basics_ c) st) with
            | Ok _ => None
            | Throw _ => Some "Failed to generate outcomes"
            end) as (H1 & H2 & H3).
  { subst c st. destruct s as [sv c]. unfold announcing.
    simpl in *. unfold generateSuggestedOutcomes. plumbing. simpl.
    destruct (courseTitle (basics_ c)); [congruence|]. simpl.
    destruct (generateOutcomes (basics_ c) _) as [[res|e] st1]; simpl;
      destruct (maxStepReached c <? 2); auto. }
  repeat (split; [assumption|]).
  intros response raw Hr Hn Hp Hitems.
  destruct (generateOutcomes_ok _ _ _ _ Hr Hn Hp Hitems)
    as (outs & st' & Hrun & _ & Htexts).
  rewrite H2, H3, Hrun. simpl. auto.
Qed.

(** *** Editing the structure *)

Lemma length_replaceNth {A} (i : nat) (x : A) (l : list A) :
  List.length (replaceNth i x l) = List.length l.
Proof.
  revert i. induction l as [|y l IH]; intros [|i]; simpl; auto.
Qed.

Lemma nth_error_replaceNth_same {A} (i : nat) (x y : A) (l : list A) :
  nth_error l i = Some y -> nth_error (replaceNth i x l) i = Some x.
Proof.
  revert i. induction l as [|z l IH]; intros [|i]; simpl; try discriminate; auto.
Qed.

Lemma nth_error_replaceNth_other {A} (i j : nat) (x : A) (l : list A) :
  i <> j -> nth_error (replaceNth i x l) j = nth_error l j.
Proof.
  revert i j. induction l as [|z l IH]; intros [|i] [|j] H; simpl; auto.
  congruence.
Qed.

Lemma replaceNth_replaceNth {A} (i : nat) (x y : A) (l : list A) :
  replaceNth i x (replaceNth i y l) = replaceNth i x l.
Proof.
  revert i. induction l as [|z l IH]; intros [|i]; simpl; auto.
  now rewrite IH.
Qed.

Lemma replaceNth_same {A} (i : nat) (x : A) (l : list A) :
  nth_error l i = Some x -> replaceNth i x l = l.
Proof.
  revert i. induction l as [|z l IH]; intros [|i]; simpl; try discriminate.
  - now intros [= ->].
  - intros H. now rewrite IH.
Qed.

Lemma map_replaceNth {A B} (f : A -> B) (i : nat) (x y : A) (l : list A) :
  nth_error l i = Some y -> f x = f y -> map f (replaceNth i x l) = map f l.
Proof.
  revert i. induction l as [|z l IH]; intros [|i]; simpl; try discriminate.
  - intros [= ->] ->. reflexivity.
  - intros H E. now rewrite IH.
Qed.

Lemma removeNth_last {A} (l : list A) (x : A) :
  App.removeNth (List.length l) (l ++ [x]) = l.
Proof. induction l as [|y l IH]; simpl; [reflexivity|now rewrite IH]. Qed.

(** A handler that finds its day. *)
Lemma updateModuleField_run field d m val s day module :
  nth_error (structure (data s)) d = Some day ->
  nth_error (modules day) m = Some module ->
  updateModuleField field d m val s =
    (Ok tt,
     onData (setStructure
               (replaceNth d
                  (withModules
                     (replaceNth m (JS.set field (JStr val) module)
                        (modules day))
                     day)
                  (structure (data s)))) s).
Proof.
  intros Hd Hm. unfold updateModuleField, closure. now rewrite Hd, Hm.
Qed.

(** Replacing a day by one with the same day number. *)
Lemma replaced_day_is_local c d day x :
  nth_error (structure c) d = Some day ->
  dayNumber x = dayNumber day ->
  let c' := setStructure (replaceNth d x (structure c)) c in
  c' = setStructure (structure c') c /\
  List.length (structure c') = List.length (structure c) /\
  map dayNumber (structure c') = map dayNumber (structure c) /\
  (forall j, j <> d -> nth_error (structure c') j = nth_error (structure c) j).
Proof.
  intros Hd Hx. simpl. repeat split.
  - apply length_replaceNth.
  - eapply map_replaceNth; eassumption.
  - intros j Hj. apply nth_error_replaceNth_other. congruence.
Qed.

(** X15.  The edits of view 3 are local.  Adding a module, changing a title
    or a duration, removing a module and selecting an ice breaker change no
    state variable but the structure, and there only the day they address:
    the number of days, the day numbers and every other day stay as they
    are.  An edit that addresses a day, or a module to retitle or to give a
    duration, that is not there throws a TypeError before it has changed
    anything. *)
Theorem structure_edits_are_local (e : StructureEdit) s :
  let c := data s in
  let c' := data (snd (edit e s)) in
  c' = setStructure (structure c') c /\
  List.length (structure c') = List.length (structure c) /\
  map dayNumber (structure c') = map dayNumber (structure c) /\
  (forall j, j <> dayIndexOf e ->
     nth_error (structure c') j = nth_error (structure c) j) /\
  (forall err, fst (edit e s) = Throw err ->
     err = TypeError /\ snd (edit e s) = s) /\
  (nth_error (structure c) (dayIndexOf e) = None ->
   fst (edit e s) = Throw TypeError) /\
  (forall d m val day,
     e = SetTitle d m val \/ e = SetDuration d m val ->
     nth_error (structure c) d = Some day ->
     nth_error (modules day) m = None ->
     fst (edit e s) = Throw TypeError).
Proof.
  intros c c'. subst c c'.
  assert (forall d m val day,
            e = SetTitle d m val \/ e = SetDuration d m val ->
            nth_error (structure (data s)) d = Some day ->
            nth_error (modules day) m = None ->
            fst (edit e s) = Throw TypeError) as Habsent.
  { intros d m val day [-> | ->] Hd Hm;
      unfold edit, updateModuleTitle, updateModuleDuration, updateModuleField,
        closure; now rewrite Hd, Hm. }
  cut (localTo (dayIndexOf e) s (edit e s)).
  { intros (H1 & H2 & H3 & H4 & H5 & H6).
    repeat (split; [assumption|]). exact Habsent. }
  clear Habsent.
  assert (forall d, localTo d s (Throw TypeError, s)) as Hthrown.
  { intros d. unfold localTo. simpl. split; [now destruct (data s)|].
    split; [reflexivity|]. split; [reflexivity|]. split; [reflexivity|].
    split; [|reflexivity]. intros err [= <-]. auto. }
  assert (forall d day x sv',
            nth_error (structure (data s)) d = Some day ->
            dayNumber x = dayNumber day ->
            localTo d s
              (Ok tt,
               {| service := sv';
                  data := setStructure (replaceNth d x (structure (data s)))
                            (data s) |}))
    as Hdone.
  { intros d day x sv' Hd Hx. unfold localTo. simpl.
    destruct (replaced_day_is_local (data s) d day x Hd Hx)
      as (H1 & H2 & H3 & H4).
    repeat split; auto; try discriminate. congruence. }
  destruct e as [d|d m val|d m val|d m|d option]; simpl dayIndexOf;
    unfold edit, addModule, updateModuleTitle, updateModuleDuration,
      updateModuleField, removeModule, selectIceBreaker, closure;
    cbv beta;
    destruct (nth_error (structure (data s)) d) as [day|] eqn:Hd;
    try apply Hthrown.
  - unfold bind, onService, now, modify.
    destruct (Date_now (world (service s))) as [t w]. cbn [service data].
    now apply Hdone with (day := day).
  - destruct (nth_error (modules day) m) as [module|] eqn:Hm;
      [|apply Hthrown].
    now apply Hdone with (day := day).
  - destruct (nth_error (modules day) m) as [module|] eqn:Hm;
      [|apply Hthrown].
    now apply Hdone with (day := day).
  - now apply Hdone with (day := day).
  - now apply Hdone with (day := day).
Qed.

(** X16.  Changing the title (or the duration) of a module of the structure
    changes that property only: the module keeps its place, its id and every
    other property, and the other modules of the day, the ice breaker and
    the summary of the day are as before. *)
Theorem module_edit_touches_one_property field d m val s day module :
  nth_error (structure (data s)) d = Some day ->
  nth_error (modules day) m = Some module ->
  exists day' module',
    fst (updateModuleField field d m val s) = Ok tt /\
    nth_error (structure (data (snd (updateModuleField field d m val s)))) d
      = Some day' /\
    nth_error (modules day') m = Some module' /\
    JS.get field module' = JStr val /\
    (forall k, k <> field -> JS.get k module' = JS.get k module) /\
    List.length (modules day') = List.length (modules day) /\
    (forall i, i <> m ->
       nth_error (modules day') i = nth_error (modules day) i) /\
    withModules (modules day) day' = day.
Proof.
  intros Hd Hm. rewrite (updateModuleField_run _ _ _ _ _ _ _ Hd Hm). simpl.
  eexists _, _. split; [reflexivity|]. split.
  { eapply nth_error_replaceNth_same, Hd. }
  simpl. split.
  { eapply nth_error_replaceNth_same, Hm. }
  split; [apply get_set_same|]. split.
  { intros k Hk. apply get_set_other. congruence. }
  split; [apply length_replaceNth|]. split.
  { intros i Hi. apply nth_error_replaceNth_other. congruence. }
  now destruct day.
Qed.

(** X17.  A module that was added can be removed again: [addModule] puts the
    new module last in its day, and [removeModule] at that index gives back
    the structure of before. *)
Theorem added_module_can_be_removed d s day :
  nth_error (structure (data s)) d = Some day ->
  let s1 := snd (addModule d s) in
  (exists day1 t,
     nth_error (structure (data s1)) d = Some day1 /\
     modules day1 = (modules day ++ [newModule t])%list) /\
  structure (data (snd (removeModule d (List.length (modules day)) s1)))
    = structure (data s).
Proof.
  intros Hd. destruct s as [sv c]. simpl in *.
  unfold addModule, removeModule, closure. simpl. rewrite Hd.
  plumbing. unfold now. simpl. destruct (Date_now (world sv)) as [t w]. simpl.
  rewrite (nth_error_replaceNth_same _ _ _ _ Hd). simpl. split.
  - eexists _, t. split; reflexivity.
  - rewrite replaceNth_replaceNth, removeNth_last.
    apply replaceNth_same. rewrite Hd. now destruct day.
Qed.

(** *** From the structure to the plan *)

(** The orchestrator, with a key at hand: one day per day, one module per
    module, with the id and the title of the skeleton, and the day's own
    number, ice breaker and recap. *)
Lemma assembly_keeps_what_the_skeleton_fixes {Sink} basics outcomes skeleton
    onProgress (st : State World Sink) :
  keyAvailable (world st) = true ->
  exists days st',
    generateFinalPlanContent basics outcomes skeleton onProgress st
      = (Ok days, st') /\
    List.length days = List.length skeleton /\
    forall d day, nth_error skeleton d = Some day ->
      exists day',
        nth_error days d = Some day' /\
        dayNumber day' = dayNumber day /\
        iceBreaker day' = iceBreaker day /\
        recap day' = recap day /\
        List.length (modules day') = List.length (modules day) /\
        forall i partialMod, nth_error (modules day) i = Some partialMod ->
          exists refined,
            nth_error (modules day') i = Some refined /\
            JS.get "id" refined = JS.get "id" partialMod /\
            JS.get "title" refined = JS.get "title" partialMod.
Proof.
  intros Hk.
  destruct (getClient_run st) as (st0 & _ & _ & [[_ [ai Hc]]|[Hk' _]]);
    [|congruence].
  destruct (plan_run basics outcomes skeleton onProgress st ai st0 Hc)
    as (days & st' & Hrun & Hlen & Hnth).
  exists days, st'. repeat split; auto.
  intros d day Hd.
  destruct (Hnth d day Hd) as (st_d & day' & _ & Hd' & Hday).
  exists day'. split; [assumption|].
  destruct (refineDay_run ai basics (outcomesTextOf outcomes) onProgress day st_d)
    as (rms & st1 & st2 & Hloop & Hrd).
  rewrite Hrd in Hday. simpl in Hday. injection Hday as <-. simpl.
  destruct (module_loop ai basics (outcomesTextOf outcomes) onProgress day
              (modules day) st_d) as (rms' & st1' & Hloop' & Hl & Hm).
  rewrite Hloop in Hloop'. injection Hloop' as <- <-.
  repeat split; auto.
  intros i pm Hi. destruct (Hm i pm Hi) as (r & _ & Hr).
  eexists. split; [exact Hr|].
  destruct r as [fullMod|e].
  - apply enriched_id_title.
  - destruct (fallback_fields pm) as (H1 & H2 & _). auto.
Qed.

(** [generateFinal] with a key at hand. *)
Lemma generateFinal_run s :
  keyAvailable (world (service s)) = true ->
  exists days sv',
    generateFinalPlanContent (basics_ (data s)) (outcomes_ (data s))
      (structure (data s)) (Some (fun msg _ => msg))
      (announcing "Developing detailed content..." s) = (Ok days, sv') /\
    generateFinal s =
      (Ok tt,
       {| service := sv';
          data :=
            setStatus IDLE
              ((if maxStepReached (data s) <? 5 then setMaxStepReached 5
                else fun c => c)
                 (setStep 5
                    (setCoursePlan
                       (Some {| plan_id := None; lastModified := None;
                                basics := basics_ (data s);
                                outcomes := outcomes_ (data s);
                                schedule := days |})
                       (setStatus GENERATING_PLAN
                          (setError None (data s)))))) |}).
Proof.
  intros Hk. destruct s as [sv c]. unfold announcing. simpl in *.
  match goal with
  | |- context [generateFinalPlanContent ?b ?o ?k ?f ?st] =>
      destruct (generateFinalPlanContent_run b o k f st)
        as (st' & [[_ (days & Hrun & _)]|[Hk' _]]); [|simpl in Hk'; congruence]
  end.
  exists days, st'. split; [assumption|].
  unfold generateFinal. plumbing. simpl. rewrite Hrun. simpl.
  destruct (maxStepReached c <? 5); reflexivity.
Qed.

(** X18.  What the trainer fixed in views 3 and 4 reaches the plan.  With an
    API key at hand, a title typed into the structure is, after
    [generateFinal], the title of the module at that place of the plan,
    under the id the module had; and an ice breaker selected for a day is
    the ice breaker of that day of the plan: whatever the remote capability
    answers or fails to answer. *)
Theorem what_the_trainer_fixed_reaches_the_plan d m val option s day module :
  keyAvailable (world (service s)) = true ->
  nth_error (structure (data s)) d = Some day ->
  nth_error (modules day) m = Some module ->
  (let s' := snd (generateFinal (snd (updateModuleTitle d m val s))) in
   exists plan day' module',
     coursePlan (data s') = Some plan /\
     List.length (schedule plan) = List.length (structure (data s)) /\
     nth_error (schedule plan) d = Some day' /\
     nth_error (modules day') m = Some module' /\
     JS.get "title" module' = JStr val /\
     JS.get "id" module' = JS.get "id" module) /\
  (let s' := snd (generateFinal (snd (selectIceBreaker d option s))) in
   exists plan day',
     coursePlan (data s') = Some plan /\
     nth_error (schedule plan) d = Some day' /\
     iceBreaker day' = option /\
     dayNumber day' = dayNumber day).
Proof.
  intros Hk Hd Hm. split.
  - unfold updateModuleTitle.
    rewrite (updateModuleField_run _ _ _ _ _ _ _ Hd Hm). simpl.
    set (s1 := onData _ s).
    destruct (generateFinal_run s1 Hk) as (days & sv' & Hrun & ->).
    match type of Hrun with
    | generateFinalPlanContent ?b ?o ?k ?f ?st = _ =>
        destruct (assembly_keeps_what_the_skeleton_fixes b o k f st Hk)
          as (days' & sv'' & Hrun' & Hlen & Hdays)
    end.
    rewrite Hrun in Hrun'. injection Hrun' as <- <-.
    simpl in Hlen, Hdays.
    edestruct Hdays as (day' & Hd' & _ & _ & _ & _ & Hmods).
    { eapply nth_error_replaceNth_same, Hd. }
    simpl in Hmods.
    edestruct Hmods as (module' & Hm' & Hid & Htitle).
    { eapply nth_error_replaceNth_same, Hm. }
    exists {| plan_id := None; lastModified := None;
              basics := basics_ (data s); outcomes := outcomes_ (data s);
              schedule := days |}, day', module'.
    simpl. split.
    { destruct (maxStepReached (data s) <? 5); reflexivity. }
    split; [now rewrite Hlen, length_replaceNth|].
    split; [assumption|]. split; [assumption|].
    rewrite Htitle, Hid, get_set_same.
    split; [reflexivity|]. apply get_set_other. discriminate.
  - unfold selectIceBreaker, closure. rewrite Hd. simpl.
    set (s1 := {| service := service s; data := _ |}).
    destruct (generateFinal_run s1 Hk) as (days & sv' & Hrun & ->).
    match type of Hrun with
    | generateFinalPlanContent ?b ?o ?k ?f ?st = _ =>
        destruct (assembly_keeps_what_the_skeleton_fixes b o k f st Hk)
          as (days' & sv'' & Hrun' & Hlen & Hdays)
    end.
    rewrite Hrun in Hrun'. injection Hrun' as <- <-.
    simpl in Hlen, Hdays.
    edestruct Hdays as (day' & Hd' & Hn & Hi & _).
    { eapply nth_error_replaceNth_same, Hd. }
    exists {| plan_id := None; lastModified := None;
              basics := basics_ (data s); outcomes := outcomes_ (data s);
              schedule := days |}, day'.
    simpl. split.
    { destruct (maxStepReached (data s) <? 5); reflexivity. }
    auto.
Qed.

(** *** Loading, regenerating, editing outcomes *)

Lemma emptied_fields (m : ModuleContent) :
  JS.get "subModules" (emptied m) = JArr [] /\
  JS.get "methodology" (emptied m) = JStr EmptyString /\
  JS.get "resources" (emptied m) = JStr EmptyString /\
  forall k, k <> "subModules" -> k <> "methodology" -> k <> "resources" ->
    JS.get k (emptied m) = JS.get k m.
Proof.
  unfold emptied. repeat split.
  - rewrite get_set_other, get_set_other by discriminate. apply get_set_same.
  - rewrite get_set_other by discriminate. apply get_set_same.
  - apply get_set_same.
  - intros k H1 H2 H3.
    rewrite !get_set_other by congruence. reflexivity.
Qed.

(** X19.  Loading a saved course shows it as it was saved and derives an
    approximate structure from it: the plan is the saved one, untouched; the
    basics and the outcomes are its own; every stage is unlocked; and the
    structure has one day per day of the plan, each with its number, ice
    breaker, recap and summary, and one module per module, with the same
    properties (so the same id, title and duration) except that it has no
    sub-module, no methodology and no resources.  The service is not
    touched. *)
Theorem load_keeps_the_plan_and_empties_the_structure saved s :
  let c' := data (snd (handleLoad saved s)) in
  fst (handleLoad saved s) = Ok tt /\
  service (snd (handleLoad saved s)) = service s /\
  coursePlan c' = Some saved /\
  basics_ c' = basics saved /\ outcomes_ c' = outcomes saved /\
  step c' = 5 /\ maxStepReached c' = 5 /\
  List.length (structure c') = List.length (schedule saved) /\
  forall d day, nth_error (schedule saved) d = Some day ->
    exists day',
      nth_error (structure c') d = Some day' /\
      withModules (modules day) day' = day /\
      List.length (modules day') = List.length (modules day) /\
      forall i module, nth_error (modules day) i = Some module ->
        exists module',
          nth_error (modules day') i = Some module' /\
          JS.get "subModules" module' = JArr [] /\
          JS.get "methodology" module' = JStr EmptyString /\
          JS.get "resources" module' = JStr EmptyString /\
          forall k, k <> "subModules" -> k <> "methodology" ->
            k <> "resources" -> JS.get k module' = JS.get k module.
Proof.
  simpl. repeat split; try apply length_map.
  intros d day Hd. exists (approximate day). split.
  { now apply map_nth_error. }
  split; [now destruct day|]. split; [apply length_map|].
  intros i module Hi. exists (emptied module). split.
  { simpl. now apply map_nth_error. }
  apply emptied_fields.
Qed.

(** X20.  Regeneration overwrites.  With an API key at hand, the plan that
    [generateFinal] sets does not depend on the plan there was: it is made
    of the basics, the outcomes and the structure of the component, and has
    neither the id nor the time stamp of a saved course. *)
Theorem regeneration_overwrites_the_plan previous s :
  keyAvailable (world (service s)) = true ->
  coursePlan (data (snd (generateFinal (onData (setCoursePlan previous) s))))
    = coursePlan (data (snd (generateFinal s))) /\
  exists plan,
    coursePlan (data (snd (generateFinal s))) = Some plan /\
    plan_id plan = None /\ lastModified plan = None /\
    basics plan = basics_ (data s) /\ outcomes plan = outcomes_ (data s) /\
    List.length (schedule plan) = List.length (structure (data s)).
Proof.
  intros Hk.
  destruct (generateFinal_run s Hk) as (days & sv' & Hrun & ->).
  destruct (generateFinal_run (onData (setCoursePlan previous) s) Hk)
    as (days' & sv'' & Hrun' & ->).
  unfold announcing in *. simpl in *.
  rewrite Hrun in Hrun'. injection Hrun' as <- <-.
  match type of Hrun with
  | generateFinalPlanContent ?b ?o ?k ?f ?st = _ =>
      destruct (generateFinalPlanContent_run b o k f st)
        as (st' & [[_ (days' & Hrun' & Hlen)]|[_ Hrun']]);
        rewrite Hrun in Hrun'; [injection Hrun' as <- <-|discriminate]
  end.
  split.
  - destruct (maxStepReached (data s) <? 5); reflexivity.
  - eexists. split.
    { destruct (maxStepReached (data s) <? 5); reflexivity. }
    simpl. auto.
Qed.

Lemma edit_by_id_is_by_index (outs : list LearningOutcome) :
  NoDup (map lo_id outs) ->
  forall k o value, nth_error outs k = Some o ->
    map (fun x => if String.eqb (lo_id x) (lo_id o)
                  then {| lo_id := lo_id x; lo_text := JStr value |} else x) outs
      = replaceNth k {| lo_id := lo_id o; lo_text := JStr value |} outs /\
    filter (fun x => negb (String.eqb (lo_id x) (lo_id o))) outs
      = App.removeNth k outs.
Proof.
  induction outs as [|x rest IH]; intros Hnd [|k] o value Hk;
    try discriminate; simpl in *; inversion Hnd as [|? ? Hx Hrest]; subst.
  - injection Hk as ->. rewrite String.eqb_refl. simpl.
    assert (forall l, ~ In (lo_id o) (map lo_id l) ->
              map (fun x => if String.eqb (lo_id x) (lo_id o)
                            then {| lo_id := lo_id x; lo_text := JStr value |}
                            else x) l = l /\
              filter (fun x => negb (String.eqb (lo_id x) (lo_id o))) l = l)
      as Hother.
    { induction l as [|y l IHl]; simpl; intros Hy; [auto|].
      destruct (String.eqb_spec (lo_id y) (lo_id o)) as [E|E]; [tauto|].
      simpl. destruct IHl as [-> ->]; tauto. }
    destruct (Hother rest Hx) as [-> ->]. auto.
  - destruct (IH Hrest k o value Hk) as [-> ->].
    destruct (String.eqb_spec (lo_id x) (lo_id o)) as [E|E]; [|auto].
    exfalso. apply Hx. rewrite E. apply in_map. eapply nth_error_In, Hk.
Qed.

(** X21.  The outcome rows of view 2 are edited and removed by id.  When the
    ids of the outcomes are pairwise distinct (as those of
    [generateOutcomes] are), editing the text of an outcome changes that
    outcome only and keeps its id, and removing an outcome removes that one
    only; adding an outcome puts an empty one last and keeps the others. *)
Theorem outcome_rows_are_edited_by_id s k o value :
  NoDup (map lo_id (outcomes_ (data s))) ->
  nth_error (outcomes_ (data s)) k = Some o ->
  outcomes_ (data (snd (editOutcome (lo_id o) value s)))
    = replaceNth k {| lo_id := lo_id o; lo_text := JStr value |}
        (outcomes_ (data s)) /\
  outcomes_ (data (snd (removeOutcome (lo_id o) s)))
    = App.removeNth k (outcomes_ (data s)) /\
  exists id,
    outcomes_ (data (snd (addOutcome s)))
      = (outcomes_ (data s) ++ [{| lo_id := id; lo_text := JStr EmptyString |}])%list.
Proof.
  intros Hnd Hk.
  destruct (edit_by_id_is_by_index _ Hnd k o value Hk) as [He Hr].
  unfold editOutcome, removeOutcome, addOutcome, closure. plumbing. simpl.
  split; [assumption|]. split; [assumption|].
  unfold now. destruct (Date_now (world (service s))) as [t w]. simpl.
  eexists. reflexivity.
Qed.

End ComponentFacts.

(** * Editing the plan in the table *)

Section TableEditFacts.

Import Component TableEdit SessionPlanTable.

Local Open Scope nat_scope.

Implicit Types (plan : CoursePlan) (day : DayPlan) (module : ModuleContent).

Lemma Forall_replaceNth {A} (P : A -> Prop) (i : nat) (x : A) (l : list A) :
  Forall P l -> P x -> Forall P (replaceNth i x l).
Proof.
  intros Hl Hx. revert i. induction Hl as [|y l Hy Hl IH]; intros [|i]; simpl;
    constructor; auto.
Qed.

Lemma nth_error_length {A} (l : list A) (i : nat) (x : A) :
  nth_error l i = Some x -> (i <? List.length l) = true.
Proof.
  intros H. apply Nat.ltb_lt. apply nth_error_Some. congruence.
Qed.

(** [updateDay] on a day that is there, with an updater that returns. *)
Lemma updateDay_run d updater plan day day' :
  nth_error (schedule plan) d = Some day ->
  updater (Some day) = Ok day' ->
  updateDay d updater plan
    = Ok (withSchedule (replaceNth d day' (schedule plan)) plan).
Proof.
  intros Hd Hu. unfold updateDay. rewrite Hd, Hu.
  now rewrite (nth_error_length _ _ _ Hd).
Qed.

(** [updateModule] on a module that is there. *)
Lemma updateModule_run d m field value plan day module :
  nth_error (schedule plan) d = Some day ->
  nth_error (modules day) m = Some module ->
  updateModule d m field value plan
    = Ok (withSchedule
            (replaceNth d
               (withModules
                  (replaceNth m (JS.set field value module) (modules day)) day)
               (schedule plan))
            plan).
Proof.
  intros Hd Hm. unfold updateModule.
  apply updateDay_run with (day := day); [assumption|]. now rewrite Hm.
Qed.

(** X22.  A cell of a module edits one property of one module.  For a module
    that is there, [updateModule] returns a plan with the same id, time
    stamp, basics and outcomes, the same days but for the one addressed, and
    in that day the same ice breaker, recap, summary and modules but for the
    one addressed, which has the new value as the property and every other
    property (so its id) as before.  For a day that is not there it throws a
    TypeError. *)
Theorem module_cell_edits_one_property d m field value plan :
  (forall day module,
     nth_error (schedule plan) d = Some day ->
     nth_error (modules day) m = Some module ->
     exists plan' day' module',
       updateModule d m field value plan = Ok plan' /\
       withSchedule (schedule plan) plan' = plan /\
       List.length (schedule plan') = List.length (schedule plan) /\
       (forall j, j <> d ->
          nth_error (schedule plan') j = nth_error (schedule plan) j) /\
       nth_error (schedule plan') d = Some day' /\
       withModules (modules day) day' = day /\
       List.length (modules day') = List.length (modules day) /\
       (forall i, i <> m ->
          nth_error (modules day') i = nth_error (modules day) i) /\
       nth_error (modules day') m = Some module' /\
       JS.get field module' = value /\
       (forall k, k <> field -> JS.get k module' = JS.get k module)) /\
  (nth_error (schedule plan) d = None ->
   updateModule d m field value plan = Throw TypeError).
Proof.
  split.
  - intros day module Hd Hm.
    rewrite (updateModule_run _ _ _ _ _ _ _ Hd Hm).
    eexists _, _, _. split; [reflexivity|]. simpl.
    split; [now destruct plan|]. split; [apply length_replaceNth|].
    split.
    { intros j Hj. apply nth_error_replaceNth_other. congruence. }
    split.
    { eapply nth_error_replaceNth_same, Hd. }
    simpl. split; [now destruct day|]. split; [apply length_replaceNth|].
    split.
    { intros i Hi. apply nth_error_replaceNth_other. congruence. }
    split.
    { eapply nth_error_replaceNth_same, Hm. }
    split; [apply get_set_same|].
    intros k Hk. apply get_set_other. congruence.
  - intros Hd. unfold updateModule, updateDay. now rewrite Hd.
Qed.

(** *** The numbering under edits *)

(** A render of the modules of a day that returns has numbered each module
    with the counter, and found an array of sub-modules in each. *)
Lemma renderModules_inv ms : forall n rows n',
  forEach renderModule ms n = (Ok rows, n') ->
  Forall hasSubModules ms /\
  n' = n + List.length ms /\
  map label rows = map (fun i => ofNat i ++ ".") (seq n (List.length ms)).
Proof.
  induction ms as [|m rest IH]; intros n rows n' H; simpl in H.
  - unfold ret in H. injection H as <- <-. simpl. auto.
  - unfold bind at 1 in H. unfold renderModule at 1 in H.
    destruct (JS.get "subModules" m) as [| | | | |subs|] eqn:Hsubs;
      try discriminate.
    unfold bind at 1 in H.
    destruct (forEach renderModule rest (n + 1)) as [[rows'|e] n1] eqn:E;
      [|discriminate].
    unfold ret in H. injection H as <- <-.
    destruct (IH _ _ _ E) as (Hwf & -> & Hlabels).
    split; [constructor; [now exists subs|assumption]|].
    split; [simpl; lia|]. simpl. f_equal.
    rewrite Hlabels. now replace (n + 1) with (S n) by lia.
Qed.

Lemma renderModules_ok ms : forall n,
  Forall hasSubModules ms -> exists rows n', forEach renderModule ms n = (Ok rows, n').
Proof.
  induction ms as [|m rest IH]; intros n H; simpl.
  - unfold ret. eauto.
  - inversion H as [|? ? [subs Hm] Hrest]; subst.
    destruct (IH (n + 1) Hrest) as (rows & n' & E).
    unfold bind at 1. unfold renderModule at 1. rewrite Hm.
    unfold bind at 1. rewrite E. unfold ret. eauto.
Qed.

Lemma renderDays_inv days : forall n rows n',
  forEach renderDay days n = (Ok rows, n') ->
  Forall renderable days /\
  map (map label) rows
    = labelsFrom n (map (fun day => List.length (modules day)) days).
Proof.
  induction days as [|day rest IH]; intros n rows n' H; simpl in H.
  - unfold ret in H. injection H as <- <-. simpl. auto.
  - unfold bind at 1 in H. unfold renderDay at 1 in H.
    unfold bind at 1 in H.
    destruct (forEach renderModule (modules day) n) as [[row|e] n1] eqn:Ed;
      [|discriminate].
    unfold reviewQuestionsText, lift in H.
    destruct (reviewQuestions day) as [| | | | |questions|] eqn:Hq;
      try discriminate.
    unfold bind at 1, ret at 1 in H.
    unfold bind at 1 in H.
    destruct (forEach renderDay rest n1) as [[rows'|e] n2] eqn:E;
      [|discriminate].
    unfold ret in H. injection H as <- <-.
    destruct (renderModules_inv _ _ _ _ Ed) as (Hwf & -> & Hlabels).
    destruct (IH _ _ _ E) as (Hwfs & Hlabelss).
    split.
    + constructor; [|assumption]. split; [assumption|now exists questions].
    + simpl. now rewrite Hlabels, Hlabelss.
Qed.

Lemma renderDays_ok days : forall n,
  Forall renderable days ->
  exists rows n', forEach renderDay days n = (Ok rows, n').
Proof.
  induction days as [|day rest IH]; intros n H; simpl.
  - unfold ret. eauto.
  - inversion H as [|? ? [Hday [questions Hq]] Hrest]; subst.
    destruct (renderModules_ok _ n Hday) as (row & n1 & Ed).
    destruct (IH n1 Hrest) as (rows & n' & E).
    unfold bind at 1. unfold renderDay at 1. unfold bind at 1. rewrite Ed.
    unfold reviewQuestionsText, lift. rewrite Hq.
    unfold bind at 1, ret at 1.
    unfold bind at 1. rewrite E. unfold ret. eauto.
Qed.

(** The days that the table can render are the well-formed ones. *)
Lemma renderable_wellFormed plan :
  Forall renderable (schedule plan) -> wellFormed plan.
Proof.
  intros H day Hd. rewrite Forall_forall in H.
  destruct (H day Hd) as [Hm Hq]. split; [|assumption].
  intros module Hin. rewrite Forall_forall in Hm. now apply Hm.
Qed.

(** A render returns the same numbers for two schedules of the same shape
    that can both be rendered. *)
Lemma render_labels plan plan' rows :
  render plan = Ok rows ->
  map (fun day => List.length (modules day)) (schedule plan')
    = map (fun day => List.length (modules day)) (schedule plan) ->
  (Forall renderable (schedule plan) -> Forall renderable (schedule plan')) ->
  exists rows',
    render plan' = Ok rows' /\ map (map label) rows' = map (map label) rows /\
    Forall renderable (schedule plan').
Proof.
  unfold render. intros Hr Hshape Hwf.
  destruct (forEach renderDay (schedule plan) 1) as [[rows0|e] n] eqn:E;
    simpl in Hr; [|discriminate]. injection Hr as ->.
  destruct (renderDays_inv _ _ _ _ E) as (Hwf0 & Hlabels).
  destruct (renderDays_ok _ 1 (Hwf Hwf0)) as (rows' & n' & E').
  exists rows'. rewrite E'. split; [reflexivity|].
  destruct (renderDays_inv _ _ _ _ E') as (_ & Hlabels').
  split; [|auto]. now rewrite Hlabels, Hlabels', Hshape.
Qed.

(** Replacing a day by one with as many modules that can be rendered if the
    day could. *)
Lemma replaced_day_keeps_shape plan d day day' :
  nth_error (schedule plan) d = Some day ->
  List.length (modules day') = List.length (modules day) ->
  (renderable day -> renderable day') ->
  let plan' := withSchedule (replaceNth d day' (schedule plan)) plan in
  map (fun day => List.length (modules day)) (schedule plan')
    = map (fun day => List.length (modules day)) (schedule plan) /\
  (Forall renderable (schedule plan) -> Forall renderable (schedule plan')).
Proof.
  intros Hd Hlen Hwf. simpl. split.
  - eapply map_replaceNth; eassumption.
  - intros H. apply Forall_replaceNth; [assumption|].
    apply Hwf. rewrite Forall_forall in H. eapply H, nth_error_In, Hd.
Qed.

(** Replacing a module of a day by one that has sub-modules if it had. *)
Lemma replaced_module_keeps_shape day m module module' :
  nth_error (modules day) m = Some module ->
  (hasSubModules module -> hasSubModules module') ->
  let day' := withModules (replaceNth m module' (modules day)) day in
  List.length (modules day') = List.length (modules day) /\
  (renderable day -> renderable day').
Proof.
  intros Hm Hwf. simpl. split; [apply length_replaceNth|].
  intros [H Hq]. split; [|exact Hq].
  apply Forall_replaceNth; [assumption|].
  apply Hwf. rewrite Forall_forall in H. eapply H, nth_error_In, Hm.
Qed.

Lemma moduleAt_inv d m plan module :
  moduleAt d m plan = Some module ->
  exists day,
    nth_error (schedule plan) d = Some day /\
    nth_error (modules day) m = Some module.
Proof.
  unfold moduleAt. destruct (nth_error (schedule plan) d) as [day|];
    [eauto|discriminate].
Qed.

(** The cells of a day leave its modules alone, and its review questions an
    array: the one cell that writes them writes the lines of its text. *)
Lemma editCell_renderable cell val day :
  List.length (modules (editCell cell val day)) = List.length (modules day) /\
  (renderable day -> renderable (editCell cell val day)).
Proof.
  split; [now destruct cell|].
  intros [Hm Hq]. destruct cell; (split; [exact Hm|]); try exact Hq.
  simpl. eexists. reflexivity.
Qed.

(** X23.  The numbering survives every edit.  Every edit that the table of a
    plan offers returns a plan, with the id and the time stamp of the plan
    it was made from, that the table can render again: its modules have
    arrays of sub-modules and its days arrays of review questions, as those
    of the plan rendered had.  The next render shows the same number before
    every module, whatever was edited, sub-modules added or removed
    included. *)
Theorem numbering_survives_edits (e : Edit) plan rows :
  offered e plan ->
  render plan = Ok rows ->
  exists plan' rows',
    applyEdit e plan = Ok plan' /\
    plan_id plan' = plan_id plan /\
    lastModified plan' = lastModified plan /\
    render plan' = Ok rows' /\
    map (map label) rows' = map (map label) rows /\
    wellFormed plan' /\
    (forall day', In day' (schedule plan') ->
       exists questions, reviewQuestions day' = JArr questions).
Proof.
  intros Hoff Hr.
  assert (forall plan',
            plan_id plan' = plan_id plan ->
            lastModified plan' = lastModified plan ->
            map (fun day => List.length (modules day)) (schedule plan')
              = map (fun day => List.length (modules day)) (schedule plan) /\
            (Forall renderable (schedule plan) ->
             Forall renderable (schedule plan')) ->
            exists plan'' rows',
              Ok plan' = Ok plan'' /\
              plan_id plan'' = plan_id plan /\
              lastModified plan'' = lastModified plan /\
              render plan'' = Ok rows' /\
              map (map label) rows' = map (map label) rows /\
              wellFormed plan'' /\
              (forall day', In day' (schedule plan'') ->
                 exists questions, reviewQuestions day' = JArr questions))
    as Hdone.
  { intros plan' Hid Hlm [Hshape Hwf].
    destruct (render_labels plan plan' rows Hr Hshape Hwf)
      as (rows' & H1 & H2 & H3).
    exists plan', rows'. repeat (split; [solve [auto]|]). split.
    - now apply renderable_wellFormed.
    - intros day' Hin. rewrite Forall_forall in H3. now apply H3. }
  assert (forall d m module f,
            moduleAt d m plan = Some module ->
            (hasSubModules module -> hasSubModules (f module)) ->
            exists day,
              nth_error (schedule plan) d = Some day /\
              nth_error (modules day) m = Some module /\
              let plan' :=
                withSchedule
                  (replaceNth d
                     (withModules (replaceNth m (f module) (modules day)) day)
                     (schedule plan)) plan in
              map (fun day => List.length (modules day)) (schedule plan')
                = map (fun day => List.length (modules day)) (schedule plan) /\
              (Forall renderable (schedule plan) ->
               Forall renderable (schedule plan'))) as Hmodule.
  { intros d m module f Hat Hf.
    destruct (moduleAt_inv _ _ _ _ Hat) as (day & Hd & Hm).
    exists day. split; [assumption|]. split; [assumption|].
    destruct (replaced_module_keeps_shape day m module (f module) Hm Hf)
      as [Hlen Hwf].
    now apply replaced_day_keeps_shape with (day := day). }
  destruct e as [field value|index value|d cell val|d m field value
                |d m sIdx val|d m sIdx|d m]; simpl in Hoff; simpl applyEdit.
  - apply Hdone; auto.
  - unfold updateOutcome.
    destruct (nth_error (outcomes plan) index) as [o|] eqn:Ho.
    + apply Hdone; auto.
    + apply nth_error_None in Ho. lia.
  - destruct (nth_error (schedule plan) d) as [day|] eqn:Hd.
    + unfold updateCell.
      rewrite (updateDay_run d _ plan day (editCell cell val day) Hd eq_refl).
      apply Hdone; auto.
      destruct (editCell_renderable cell val day) as [Hlen Hwf].
      now apply replaced_day_keeps_shape with (day := day).
    + apply nth_error_None in Hd. lia.
  - destruct Hoff as [Hfield [module Hat]].
    destruct (Hmodule d m module (JS.set field (JStr value)) Hat)
      as (day & Hd & Hm & Hshape).
    { intros [subs Hsubs]. exists subs. rewrite get_set_other; [assumption|].
      simpl in Hfield. intuition congruence. }
    rewrite (updateModule_run _ _ _ _ _ _ _ Hd Hm). apply Hdone; auto.
  - destruct Hoff as (module & subs & Hat & Hsubs & _).
    destruct (Hmodule d m module
                (JS.set "subModules" (JArr (replaceNth sIdx (JStr val) subs)))
                Hat) as (day & Hd & Hm & Hshape).
    { intros _. eexists. apply get_set_same. }
    unfold editSubModule, onSubModules. rewrite Hd, Hm, Hsubs.
    rewrite (updateModule_run _ _ _ _ _ _ _ Hd Hm). apply Hdone; auto.
  - destruct Hoff as (module & subs & Hat & Hsubs & _).
    destruct (Hmodule d m module
                (JS.set "subModules" (JArr (App.removeNth sIdx subs)))
                Hat) as (day & Hd & Hm & Hshape).
    { intros _. eexists. apply get_set_same. }
    unfold removeSubModule, onSubModules. rewrite Hd, Hm, Hsubs.
    rewrite (updateModule_run _ _ _ _ _ _ _ Hd Hm). apply Hdone; auto.
  - destruct Hoff as (module & subs & Hat & Hsubs).
    destruct (Hmodule d m module
                (JS.set "subModules" (JArr (subs ++ [JStr "New Sub-module"])))
                Hat) as (day & Hd & Hm & Hshape).
    { intros _. eexists. apply get_set_same. }
    unfold addSubModule, onSubModules. rewrite Hd, Hm, Hsubs.
    rewrite (updateModule_run _ _ _ _ _ _ _ Hd Hm). apply Hdone; auto.
Qed.

Lemma split_lf_nonEmpty (s : string) : split_lf s <> [].
Proof.
  destruct s as [|c rest]; simpl; [discriminate|].
  destruct (Ascii.eqb c "010"); [discriminate|].
  destruct (split_lf rest); discriminate.
Qed.

(** Joining the pieces of a text with line feeds gives the text back. *)
Lemma concat_split_lf (s : string) : String.concat lf (split_lf s) = s.
Proof.
  induction s as [|c rest IH]; simpl; [reflexivity|].
  destruct (Ascii.eqb_spec c "010") as [->|Hc].
  - pose proof (split_lf_nonEmpty rest) as Hne.
    simpl. destruct (split_lf rest) as [|piece pieces]; [congruence|].
    rewrite IH. reflexivity.
  - destruct (split_lf rest) as [|piece pieces] eqn:E.
    + now apply split_lf_nonEmpty in E.
    + simpl in *. destruct pieces; [now rewrite IH|].
      rewrite <- IH. reflexivity.
Qed.

Lemma join_strings (sep : string) (l : list string) :
  JS.join sep (map JStr l) = String.concat sep l.
Proof.
  unfold JS.join. rewrite map_map. simpl. now rewrite map_id.
Qed.

(** No piece of a text split at the line feeds holds a line feed. *)
Lemma split_lf_lines (s : string) :
  Forall (fun piece => ~ In "010"%char (list_ascii_of_string piece))
    (split_lf s).
Proof.
  induction s as [|c rest IH]; simpl.
  - constructor; [intros []|constructor].
  - destruct (Ascii.eqb_spec c "010") as [->|Hc].
    + constructor; [intros []|assumption].
    + destruct (split_lf rest) as [|piece pieces].
      * constructor; [|constructor]. simpl. intros [H|[]]. congruence.
      * inversion IH as [|? ? Hpiece Hpieces]; subst.
        constructor; [|assumption]. simpl. intros [H|H]; [congruence|tauto].
Qed.

(** X24.  The review questions round trip through their text area.  The
    table shows the questions of a day joined by line feeds, and stores an
    edit split at the line feeds: after an edit the text area shows exactly
    the text that was typed, the questions are strings, one per line (none
    of them holds a line feed), and there is at least one of them (clearing
    the text area leaves one empty question, not an empty list); nothing
    else of the day changes. *)
Theorem review_questions_round_trip d val plan day :
  nth_error (schedule plan) d = Some day ->
  exists plan' day' question questions,
    updateCell d ReviewQuestions val plan = Ok plan' /\
    nth_error (schedule plan') d = Some day' /\
    reviewQuestions day' = JArr (map JStr (question :: questions)) /\
    reviewQuestionsText day' = Ok val /\
    withReviewQuestions (reviewQuestions day) day' = day /\
    String.concat lf (question :: questions) = val /\
    Forall (fun line => ~ In "010"%char (list_ascii_of_string line))
      (question :: questions).
Proof.
  intros Hd. unfold updateCell.
  rewrite (updateDay_run d _ plan day (editCell ReviewQuestions val day) Hd
             eq_refl).
  pose proof (split_lf_lines val) as Hlines.
  pose proof (concat_split_lf val) as Hconcat.
  destruct (split_lf val) as [|question questions] eqn:E.
  { now apply split_lf_nonEmpty in E. }
  eexists _, _, question, questions. split; [reflexivity|]. split.
  { simpl. eapply nth_error_replaceNth_same, Hd. }
  unfold reviewQuestionsText. simpl. rewrite E. split; [reflexivity|]. split.
  { f_equal.
    change (JStr question :: map JStr questions)
      with (map JStr (question :: questions)).
    rewrite join_strings. exact Hconcat. }
  split; [now destruct day|]. split; assumption.
Qed.

End TableEditFacts.

(** * The course store *)

Section DbFacts.

Import Db.

Local Open Scope Z_scope.

(** ** The order of the keys *)

Lemma ascii_compare_refl (c : ascii) : Ascii.compare c c = Eq.
Proof. unfold Ascii.compare. apply N.compare_refl. Qed.

Lemma ascii_compare_lt_trans (a b c : ascii) :
  Ascii.compare a b = Lt -> Ascii.compare b c = Lt -> Ascii.compare a c = Lt.
Proof.
  unfold Ascii.compare. rewrite !N.compare_lt_iff. apply N.lt_trans.
Qed.

Lemma string_compare_refl (s : string) : String.compare s s = Eq.
Proof.
  induction s as [|c s IH]; simpl; [reflexivity|].
  now rewrite ascii_compare_refl.
Qed.

Lemma string_compare_lt_trans (a b c : string) :
  String.compare a b = Lt -> String.compare b c = Lt ->
  String.compare a c = Lt.
Proof.
  revert b c. induction a as [|x a IH]; intros [|y b] [|z c]; simpl;
    try discriminate; auto.
  destruct (Ascii.compare x y) eqn:Exy; try discriminate;
    destruct (Ascii.compare y z) eqn:Eyz; try discriminate; intros H1 H2.
  - apply Ascii.compare_eq_iff in Exy, Eyz. subst.
    rewrite ascii_compare_refl. eapply IH; eassumption.
  - apply Ascii.compare_eq_iff in Exy. subst. now rewrite Eyz.
  - apply Ascii.compare_eq_iff in Eyz. subst. now rewrite Exy.
  - now rewrite (ascii_compare_lt_trans _ _ _ Exy Eyz).
Qed.

Lemma string_compare_lt_neq (a b : string) : String.compare a b = Lt -> a <> b.
Proof. intros H ->. rewrite string_compare_refl in H. discriminate. Qed.

Lemma string_compare_gt_lt (a b : string) :
  String.compare a b = Gt -> String.compare b a = Lt.
Proof. intros H. rewrite String.compare_antisym, H. reflexivity. Qed.

(** ** The object store *)

Lemma keyed_keys (x : SavedCourse) (l : ObjectStore) :
  keyed (x :: l) ->
  keyed l /\
  Forall (fun y => String.compare (saved_id x) (saved_id y) = Lt) l.
Proof. intros H. now apply StronglySorted_inv in H. Qed.

Lemma In_put (r x : SavedCourse) (l : ObjectStore) :
  keyed l ->
  (In x (put r l) <-> x = r \/ (In x l /\ saved_id x <> saved_id r)).
Proof.
  induction l as [|y l IH]; intros Hk; simpl.
  - intuition.
  - destruct (keyed_keys _ _ Hk) as [Hl Hy].
    rewrite Forall_forall in Hy.
    destruct (String.compare (saved_id r) (saved_id y)) eqn:E; simpl.
    + apply String.compare_eq_iff in E. split.
      * intros [<-|Hx]; [now left|]. right. split; [now right|].
        rewrite E. apply not_eq_sym, string_compare_lt_neq, Hy, Hx.
      * intros [->|[[->|Hx] Hne]]; [now left|congruence|now right].
    + split.
      * intros [<-|[<-|Hx]]; [now left| |].
        -- right. split; [now left|].
           apply not_eq_sym, string_compare_lt_neq, E.
        -- right. split; [now right|].
           apply not_eq_sym, string_compare_lt_neq.
           eapply string_compare_lt_trans; [exact E|apply Hy, Hx].
      * intros [->|[[->|Hx] _]]; auto.
    + rewrite (IH Hl). split.
      * intros [<-|[->|[Hx Hne]]]; auto.
        right. split; [now left|].
        apply string_compare_lt_neq, string_compare_gt_lt, E.
      * intros [->|[[->|Hx] Hne]]; auto.
Qed.

Lemma put_keyed (r : SavedCourse) (l : ObjectStore) :
  keyed l -> keyed (put r l).
Proof.
  induction l as [|y l IH]; intros Hk; simpl.
  - repeat constructor.
  - destruct (keyed_keys _ _ Hk) as [Hl Hy].
    destruct (String.compare (saved_id r) (saved_id y)) eqn:E.
    + apply String.compare_eq_iff in E. constructor; [assumption|].
      now rewrite E.
    + constructor; [assumption|]. constructor; [assumption|].
      eapply Forall_impl; [|exact Hy]. simpl. intros z Hz.
      eapply string_compare_lt_trans; eassumption.
    + constructor; [now apply IH|].
      apply Forall_forall. intros z Hz. apply (In_put _ _ _ Hl) in Hz.
      destruct Hz as [->|[Hz _]].
      * now apply string_compare_gt_lt.
      * rewrite Forall_forall in Hy. now apply Hy.
Qed.

(** Putting a record whose key is there keeps the keys; putting one whose
    key is new adds a record. *)
Lemma put_keys (r : SavedCourse) (l : ObjectStore) :
  keyed l ->
  (In (saved_id r) (map saved_id l) ->
   map saved_id (put r l) = map saved_id l) /\
  (~ In (saved_id r) (map saved_id l) ->
   List.length (put r l) = S (List.length l)).
Proof.
  induction l as [|y l IH]; intros Hk; simpl.
  - split; [tauto|reflexivity].
  - destruct (keyed_keys _ _ Hk) as [Hl Hy].
    destruct (IH Hl) as [IH1 IH2].
    destruct (String.compare (saved_id r) (saved_id y)) eqn:E; simpl.
    + apply String.compare_eq_iff in E. split; [now rewrite E|].
      intros H. exfalso. apply H. now left.
    + split; [|reflexivity]. intros [H|H].
      * apply string_compare_lt_neq in E. congruence.
      * exfalso. apply in_map_iff in H as (z & Hz & Hin).
        rewrite Forall_forall in Hy. apply Hy in Hin.
        rewrite Hz in Hin.
        pose proof (string_compare_lt_trans _ _ _ E Hin) as Hrr.
        now rewrite string_compare_refl in Hrr.
    + split.
      * intros [H|H].
        -- rewrite H, string_compare_refl in E. discriminate.
        -- now rewrite IH1.
      * intros H. rewrite IH2; tauto.
Qed.

Lemma delete_keyed (id : string) (l : ObjectStore) :
  keyed l -> keyed (delete id l).
Proof.
  unfold keyed, delete. induction 1 as [|y l Hl IH Hy]; simpl.
  - constructor.
  - destruct (negb (String.eqb (saved_id y) id)); [|assumption].
    constructor; [assumption|].
    apply Forall_forall. intros z Hz. apply filter_In in Hz as [Hz _].
    rewrite Forall_forall in Hy. now apply Hy.
Qed.

(** ** The sort *)

Lemma insert_Permutation {A} (f : A -> A -> Z) (x : A) (l : list A) :
  Permutation (insert f x l) (x :: l).
Proof.
  induction l as [|y l IH]; simpl; [reflexivity|].
  destruct (0 <? f x y); [|reflexivity].
  rewrite IH. apply perm_swap.
Qed.

Lemma sort_Permutation {A} (f : A -> A -> Z) (l : list A) :
  Permutation (sort f l) l.
Proof.
  induction l as [|x l IH]; simpl; [reflexivity|].
  rewrite insert_Permutation. now constructor.
Qed.

Lemma insert_newestFirst (x : SavedCourse) (l : list SavedCourse) :
  StronglySorted newerOrSame l -> StronglySorted newerOrSame (insert newestFirst x l).
Proof.
  induction 1 as [|y l Hl IH Hy]; simpl.
  - repeat constructor.
  - unfold newestFirst at 1.
    destruct (0 <? saved_lastModified y - saved_lastModified x) eqn:E.
    + apply Z.ltb_lt in E. constructor; [assumption|].
      apply Forall_forall. intros z Hz.
      apply (Permutation_in _ (insert_Permutation _ _ _)) in Hz.
      destruct Hz as [<-|Hz].
      * unfold newerOrSame. lia.
      * rewrite Forall_forall in Hy. now apply Hy.
    + apply Z.ltb_ge in E. constructor.
      * now constructor.
      * constructor; [unfold newerOrSame; lia|].
        eapply Forall_impl; [|exact Hy]. unfold newerOrSame. intros; lia.
Qed.

Lemma sort_newestFirst (l : list SavedCourse) :
  StronglySorted newerOrSame (sort newestFirst l).
Proof.
  induction l as [|x l IH]; simpl; [constructor|].
  now apply insert_newestFirst.
Qed.

(** The sort is stable: the courses of one time stamp keep their order. *)
Lemma insert_stable (t : Z) (x : SavedCourse) (l : list SavedCourse) :
  filter (fun r => saved_lastModified r =? t) (insert newestFirst x l)
    = filter (fun r => saved_lastModified r =? t) (x :: l).
Proof.
  induction l as [|y l IH]; simpl; [reflexivity|].
  unfold newestFirst at 1.
  destruct (0 <? saved_lastModified y - saved_lastModified x) eqn:E;
    [|reflexivity].
  apply Z.ltb_lt in E. simpl. rewrite IH. simpl.
  destruct (saved_lastModified x =? t) eqn:Ex;
    destruct (saved_lastModified y =? t) eqn:Ey; try reflexivity.
  apply Z.eqb_eq in Ex, Ey. lia.
Qed.

Lemma sort_stable (t : Z) (l : list SavedCourse) :
  filter (fun r => saved_lastModified r =? t) (sort newestFirst l)
    = filter (fun r => saved_lastModified r =? t) l.
Proof.
  induction l as [|x l IH]; simpl; [reflexivity|].
  rewrite insert_stable. simpl. now rewrite IH.
Qed.

Context {platform : Platform} {browser : Browser}.

Implicit Types (db : Disk) (plan : CoursePlan).

(** The three functions of the store service, step by step. *)
Ltac stepwise :=
  unfold saveCourseToDB, getAllCourses, deleteCourse, openDB, commit, onWorld,
    bind, ret in *.

(** X25.  The saved courses are listed newest first.  What [getAllCourses]
    returns is the content of the store, each record once, in descending
    order of the time stamps, the courses of one time stamp in the order of
    the store; it changes nothing in the store. *)
Theorem saved_courses_are_listed_newest_first db list db' :
  getAllCourses db = (Ok list, db') ->
  StronglySorted
    (fun a b => saved_lastModified b <= saved_lastModified a) list /\
  Permutation list (courses db) /\
  (forall t,
     filter (fun r => saved_lastModified r =? t) list
       = filter (fun r => saved_lastModified r =? t) (courses db)) /\
  courses db' = courses db.
Proof.
  stepwise. intros H.
  destruct (indexedDB_open (world db)) as [[[]|e] w1]; [|discriminate].
  simpl in H.
  destruct (transaction w1) as [[[]|e] w2]; [|discriminate].
  simpl in H. injection H as <- <-. simpl.
  split; [apply sort_newestFirst|]. split; [apply sort_Permutation|].
  split; [intros t; apply sort_stable|reflexivity].
Qed.

(** What [saveCourseToDB] stores for a plan, under [id] at time [t]. *)
Lemma put_record plan id t (l : ObjectStore) :
  keyed l ->
  let savedItem :=
    {| saved_id := id; saved_lastModified := t;
       saved_basics := basics plan; saved_outcomes := outcomes plan;
       saved_schedule := schedule plan |} in
  keyed (put savedItem l) /\
  (exists r,
     In r (put savedItem l) /\ saved_id r = id /\
     saved_basics r = basics plan /\ saved_outcomes r = outcomes plan /\
     saved_schedule r = schedule plan) /\
  (forall x, saved_id x <> id -> (In x (put savedItem l) <-> In x l)) /\
  (In id (map saved_id l) -> map saved_id (put savedItem l) = map saved_id l) /\
  (~ In id (map saved_id l) ->
   List.length (put savedItem l) = S (List.length l)).
Proof.
  intros Hk savedItem. split; [now apply put_keyed|]. split.
  { exists savedItem. split; [|now auto].
    apply In_put; [assumption|now left]. }
  split.
  { intros x Hx. rewrite (In_put _ _ _ Hk). simpl. split.
    - intros [->|[H _]]; [now simpl in Hx|assumption].
    - auto. }
  apply (put_keys savedItem l Hk).
Qed.

(** How [saveCourseToDB] ends. *)
Lemma saveCourseToDB_inv plan db r db' :
  saveCourseToDB plan db = (r, db') ->
  (exists id t,
     r = Ok id /\
     (forall c k, plan_id plan = Some (String c k) -> id = String c k) /\
     courses db' =
       put {| saved_id := id; saved_lastModified := t;
              saved_basics := basics plan; saved_outcomes := outcomes plan;
              saved_schedule := schedule plan |} (courses db)) \/
  (exists e, r = Throw e /\ courses db' = courses db).
Proof.
  stepwise.
  destruct (indexedDB_open (world db)) as [[[]|e0] w1]; simpl.
  2: { intros [= <- <-]. right. eauto. }
  destruct (plan_id plan) as [[|c k]|]; simpl;
    try (destruct (crypto_randomUUID w1) as [id w2]; simpl);
    match goal with
    | |- context [Date_now ?w] => destruct (Date_now w) as [t w3]
    end; simpl;
    destruct (transaction w3) as [[[]|e] w4]; simpl;
    intros [= <- <-]; simpl;
    try (right; eauto; fail);
    left; eexists _, t; (split; [reflexivity|]); (split; [|reflexivity]);
    try discriminate.
  now intros c' k' [= <- <-].
Qed.

(** X26.  The store keeps one record per course.  When [saveCourseToDB]
    returns, it returns the id of the plan if the plan has one, and the
    store holds under that id a record with the basics, the outcomes and the
    schedule of the plan; every record of another id is as before; a plan
    whose id is in the store has replaced its record, the keys of the store
    being the same, and a plan whose id is new (or that has none) has added
    one record.  When it throws, the store is as before. *)
Theorem saving_keeps_one_record_per_course plan db :
  keyed (courses db) ->
  (forall id db',
     saveCourseToDB plan db = (Ok id, db') ->
     keyed (courses db') /\
     (forall c k, plan_id plan = Some (String c k) -> id = String c k) /\
     (exists r,
        In r (courses db') /\ saved_id r = id /\
        saved_basics r = basics plan /\ saved_outcomes r = outcomes plan /\
        saved_schedule r = schedule plan) /\
     (forall x, saved_id x <> id -> (In x (courses db') <-> In x (courses db))) /\
     (In id (map saved_id (courses db)) ->
      map saved_id (courses db') = map saved_id (courses db)) /\
     (~ In id (map saved_id (courses db)) ->
      List.length (courses db') = S (List.length (courses db)))) /\
  (forall e db',
     saveCourseToDB plan db = (Throw e, db') -> courses db' = courses db).
Proof.
  intros Hk. split.
  - intros id db' H.
    destruct (saveCourseToDB_inv _ _ _ _ H)
      as [(id' & t & [= <-] & Hid & ->)|(e & He & _)]; [|discriminate].
    destruct (put_record plan id t (courses db) Hk) as (H1 & H2 & H3 & H4 & H5).
    repeat split; auto; apply H3; assumption.
  - intros e db' H.
    destruct (saveCourseToDB_inv _ _ _ _ H)
      as [(id' & t & He & _)|(e' & _ & ->)]; [discriminate|reflexivity].
Qed.

(** ** The name of an exported file *)

(** An underscore is no byte of a white space character. *)
Lemma underscore_first (l : list ascii) : spaceAhead ("_"%char :: l) = false.
Proof. destruct l as [|a [|b l]]; reflexivity. Qed.

Lemma underscore_second (c : ascii) : ws2 c "_" = false.
Proof. unfold ws2. simpl. apply andb_false_r. Qed.

Lemma underscore_second_of_three (c x : ascii) : ws3 c "_" x = false.
Proof.
  unfold ws3. simpl.
  now rewrite !andb_false_r.
Qed.

Lemma underscore_third (c1 c2 : ascii) : ws3 c1 c2 "_" = false.
Proof.
  unfold ws3. simpl.
  now rewrite !andb_false_r.
Qed.

(** How the replacement begins, outside a run of white space: with an
    underscore when white space is ahead, with the first byte otherwise. *)
Lemma underscored_head (l : list ascii) :
  match l with
  | [] => underscored false l = []
  | c :: rest =>
      if spaceAhead l then exists out, underscored false l = "_"%char :: out
      else underscored false l = c :: underscored false rest
  end.
Proof.
  destruct l as [|c1 [|c2 [|c3 l3]]]; simpl; [reflexivity| | |].
  - destruct (ws1 c1); simpl; eauto.
  - destruct (ws1 c1); simpl; [eauto|].
    destruct (ws2 c1 c2); simpl; eauto.
  - destruct (ws1 c1); simpl; [eauto|].
    destruct (ws2 c1 c2); simpl; [eauto|].
    destruct (ws3 c1 c2 c3); simpl; eauto.
Qed.

(** A byte with no white space ahead has none ahead after the replacement of
    what follows it. *)
Lemma no_space_ahead_after (c1 : ascii) (l1 : list ascii) :
  spaceAhead (c1 :: l1) = false ->
  spaceAhead (c1 :: underscored false l1) = false.
Proof.
  intros H. pose proof (underscored_head l1) as H1.
  destruct l1 as [|c2 l2]; [now rewrite H1|].
  simpl in H. apply orb_false_iff in H as [Hw1 H].
  apply orb_false_iff in H as [Hw2 Hw3].
  destruct (spaceAhead (c2 :: l2)).
  - destruct H1 as [out ->]. simpl. rewrite Hw1, underscore_second. simpl.
    destruct out; [reflexivity|apply underscore_second_of_three].
  - rewrite H1. simpl. rewrite Hw1, Hw2. simpl.
    pose proof (underscored_head l2) as H2.
    destruct l2 as [|c3 l3]; [now rewrite H2|].
    destruct (spaceAhead (c3 :: l3)).
    + destruct H2 as [out ->]. apply underscore_third.
    + rewrite H2. exact Hw3.
Qed.

(** No white space is left by the replacement. *)
Lemma underscored_hasSpace (n : nat) : forall (l : list ascii) (inRun : bool),
  (List.length l <= n)%nat -> hasSpace (underscored inRun l) = false.
Proof.
  induction n as [|n IH]; intros l inRun Hn.
  { destruct l; [reflexivity|simpl in Hn; lia]. }
  assert (forall rest, (List.length rest <= n)%nat ->
            hasSpace ((if inRun then [] else ["_"%char])
                        ++ underscored true rest) = false) as Hrun.
  { intros rest Hrest. destruct inRun; simpl app.
    - now apply IH.
    - change (spaceAhead ("_"%char :: underscored true rest)
              || hasSpace (underscored true rest) = false).
      rewrite underscore_first. now apply IH. }
  assert (forall c1 l1, (List.length l1 <= n)%nat ->
            spaceAhead (c1 :: l1) = false ->
            hasSpace (c1 :: underscored false l1) = false) as Hkeep.
  { intros c1 l1 Hl1 Hc.
    change (spaceAhead (c1 :: underscored false l1)
            || hasSpace (underscored false l1) = false).
    rewrite (no_space_ahead_after _ _ Hc). now apply IH. }
  destruct l as [|c1 l1]; [reflexivity|]. simpl in Hn.
  change (hasSpace
            (if ws1 c1
             then (if inRun then [] else ["_"%char]) ++ underscored true l1
             else match l1 with
                  | c2 :: l2 =>
                      if ws2 c1 c2
                      then (if inRun then [] else ["_"%char])
                             ++ underscored true l2
                      else match l2 with
                           | c3 :: l3 =>
                               if ws3 c1 c2 c3
                               then (if inRun then [] else ["_"%char])
                                      ++ underscored true l3
                               else c1 :: underscored false l1
                           | [] => c1 :: underscored false l1
                           end
                  | [] => [c1]
                  end) = false).
  destruct (ws1 c1) eqn:E1; [apply Hrun; lia|].
  destruct l1 as [|c2 l2].
  { simpl. now rewrite E1. }
  simpl in Hn.
  destruct (ws2 c1 c2) eqn:E2; [apply Hrun; lia|].
  destruct l2 as [|c3 l3].
  { apply Hkeep; [simpl; lia|]. simpl. now rewrite E1, E2. }
  simpl in Hn.
  destruct (ws3 c1 c2 c3) eqn:E3; [apply Hrun; lia|].
  apply Hkeep; [simpl; lia|]. simpl. now rewrite E1, E2, E3.
Qed.

(** A text without white space is its own replacement. *)
Lemma underscored_without_space (l : list ascii) :
  hasSpace l = false -> underscored false l = l.
Proof.
  induction l as [|c l IH]; [reflexivity|].
  intros H. change (spaceAhead (c :: l) || hasSpace l = false) in H.
  apply orb_false_iff in H as [Hc Hl].
  pose proof (underscored_head (c :: l)) as Hh. rewrite Hc in Hh.
  rewrite Hh. now rewrite IH.
Qed.

(** An underscore after a text without white space starts afresh. *)
Lemma hasSpace_before_underscore (l rest : list ascii) :
  hasSpace l = false ->
  hasSpace (l ++ "_"%char :: rest) = hasSpace rest.
Proof.
  induction l as [|c1 l IH]; intros H.
  - change (spaceAhead ("_"%char :: rest) || hasSpace rest = hasSpace rest).
    now rewrite underscore_first.
  - change (spaceAhead (c1 :: l) || hasSpace l = false) in H.
    apply orb_false_iff in H as [Hc Hl].
    change (spaceAhead (c1 :: l ++ "_"%char :: rest)
            || hasSpace (l ++ "_"%char :: rest) = hasSpace rest).
    rewrite (IH Hl).
    replace (spaceAhead (c1 :: l ++ "_"%char :: rest)) with false;
      [reflexivity|].
    symmetry. destruct l as [|c2 [|c3 l3]]; simpl in Hc |- *.
    + rewrite orb_false_r in Hc. rewrite Hc, underscore_second. simpl.
      destruct rest; [reflexivity|apply underscore_second_of_three].
    + apply orb_false_iff in Hc as [H1 H2]. rewrite orb_false_r in H2.
      now rewrite H1, H2, underscore_third.
    + exact Hc.
Qed.

Lemma list_ascii_of_string_app (a b : string) :
  list_ascii_of_string (a ++ b)
    = (list_ascii_of_string a ++ list_ascii_of_string b)%list.
Proof. induction a as [|c a IH]; simpl; [reflexivity|now rewrite IH]. Qed.

(** X27.  The name of an exported file has no white space: the download
    name that [exportToJSON] and [exportToMarkdown] make of the course title
    contains no white space character and no line terminator, whatever the
    title is, and a title without white space is kept as it is. *)
Theorem download_name_has_no_white_space plan :
  hasSpace (list_ascii_of_string (downloadName plan "json")) = false /\
  hasSpace (list_ascii_of_string (downloadName plan "md")) = false /\
  (hasSpace (list_ascii_of_string (courseTitle (basics plan))) = false ->
   forall extension,
     downloadName plan extension
       = courseTitle (basics plan) ++ "_TTT." ++ extension).
Proof.
  unfold downloadName.
  rewrite !list_ascii_of_string_app, !list_ascii_of_string_of_list_ascii.
  repeat split.
  - apply (hasSpace_before_underscore _ (list_ascii_of_string "TTT.json")).
    now apply (underscored_hasSpace _ _ _ (Nat.le_refl _)).
  - apply (hasSpace_before_underscore _ (list_ascii_of_string "TTT.md")).
    now apply (underscored_hasSpace _ _ _ (Nat.le_refl _)).
  - intros H extension. rewrite (underscored_without_space _ H).
    now rewrite string_of_list_ascii_of_string.
Qed.

End DbFacts.

(** * The saved courses of the component *)

Section SavedFacts.

Import Component TableEdit Saved.

Context {platform : Platform} {browser : Db.Browser}.

Implicit Types (s : Machine) (plan : CoursePlan).

Lemma getAllCourses_courses db0 r db :
  Db.getAllCourses db0 = (r, db) -> Db.courses db = Db.courses db0.
Proof.
  unfold Db.getAllCourses, Db.openDB, Db.commit, bind.
  destruct (Db.indexedDB_open _) as [[[]|e] w1]; simpl;
    [|now intros [= _ <-]].
  destruct (Db.transaction w1) as [[[]|e] w2]; simpl; now intros [= _ <-].
Qed.

(** Refreshing the list never throws and touches neither the store nor the
    alerts. *)
Lemma loadSavedList_run s :
  exists u, loadSavedList s = (Ok tt, {| ui := u; disk := disk s;
                                         alerts := alerts s |}).
Proof.
  unfold loadSavedList, try_catch, bind, onDisk, onUI, modify, onService, log.
  destruct (Db.getAllCourses _) as [[list|e] db] eqn:E; simpl;
    apply getAllCourses_courses in E; simpl in E; rewrite E; eauto.
Qed.

(** [handleSave] with a plan: it ends normally, with one alert that tells
    how [saveCourseToDB] ended, in the store that [saveCourseToDB] left. *)
Lemma handleSave_run s plan :
  coursePlan (data (ui s)) = Some plan ->
  let saved :=
    Db.saveCourseToDB plan {| Db.world := world (service (ui s));
                              Db.courses := disk s |} in
  exists u,
    handleSave s =
      (Ok tt,
       {| ui := u;
          disk := Db.courses (snd saved);
          alerts := (alerts s ++ [if succeeds (fst saved)
                                  then "Course saved successfully!"
                                  else "Failed to save"])%list |}) /\
    setSavedCourses (savedCourses (data (ui s))) (data u) = data (ui s).
Proof.
  intros Hp. simpl. unfold handleSave. rewrite Hp.
  unfold try_catch, bind at 1. unfold onDisk at 1.
  destruct (Db.saveCourseToDB plan _) as [[id|e] db]; simpl.
  - unfold bind, alert. simpl.
    match goal with
    | |- context [loadSavedList ?s1] =>
        destruct (loadSavedList_run s1) as [u Hu];
          pose proof Hu as Hdata; rewrite Hu
    end.
    simpl. exists u. split; [reflexivity|].
    revert Hdata.
    unfold loadSavedList, try_catch, bind, onDisk, onUI, modify, onService, log.
    destruct (Db.getAllCourses _) as [[list|e] db1]; simpl;
      intros [= <-]; simpl; now destruct (data (ui s)).
  - unfold alert. simpl. eexists. split; [reflexivity|].
    simpl. now destruct (data (ui s)).
Qed.

(** X28.  Saving reports once and never throws.  Without a plan
    [handleSave] does nothing at all.  With one it ends normally whatever
    the store does, shows exactly one alert, of success or of failure, and
    leaves every state variable but the list of saved courses as it was;
    after the alert of failure the store is as before. *)
Theorem saving_reports_once_and_never_throws s :
  (coursePlan (data (ui s)) = None -> handleSave s = (Ok tt, s)) /\
  (forall plan,
     coursePlan (data (ui s)) = Some plan ->
     let s' := snd (handleSave s) in
     fst (handleSave s) = Ok tt /\
     setSavedCourses (savedCourses (data (ui s))) (data (ui s'))
       = data (ui s) /\
     (alerts s' = (alerts s ++ ["Course saved successfully!"])%list \/
      (alerts s' = (alerts s ++ ["Failed to save"])%list /\
       disk s' = disk s))).
Proof.
  split.
  - intros Hp. unfold handleSave. now rewrite Hp.
  - intros plan Hp. destruct (handleSave_run s plan Hp) as (u & -> & Hdata).
    simpl. split; [reflexivity|]. split; [assumption|].
    destruct (Db.saveCourseToDB plan _) as [[id|e] db] eqn:E; simpl.
    + now left.
    + right. split; [reflexivity|].
      destruct (saveCourseToDB_inv _ _ _ _ E)
        as [(id' & t & He & _)|(e' & _ & ->)]; [discriminate|reflexivity].
Qed.

(** No edit of the table changes the id or the time stamp of the plan. *)
Lemma applyEdit_keeps_the_id (e : Edit) plan plan' :
  applyEdit e plan = Ok plan' ->
  plan_id plan' = plan_id plan /\ lastModified plan' = lastModified plan.
Proof.
  assert (forall d updater, updateDay d updater plan = Ok plan' ->
            plan_id plan' = plan_id plan /\
            lastModified plan' = lastModified plan) as Hday.
  { intros d updater. unfold updateDay.
    destruct (updater _) as [day'|err]; [|discriminate].
    destruct (d <? _)%nat; [now intros [= <-]|].
    destruct (d =? _)%nat; [now intros [= <-]|discriminate]. }
  assert (forall d m f, onSubModules d m f plan = Ok plan' ->
            plan_id plan' = plan_id plan /\
            lastModified plan' = lastModified plan) as Hsub.
  { intros d m f. unfold onSubModules.
    destruct (nth_error (schedule plan) d) as [day|]; [|discriminate].
    destruct (nth_error (modules day) m) as [module|]; [|discriminate].
    destruct (JS.get "subModules" module); try discriminate.
    apply Hday. }
  destruct e; simpl; try apply Hday; try apply Hsub.
  - now intros [= <-].
  - unfold updateOutcome.
    destruct (nth_error (outcomes plan) index); [now intros [= <-]|discriminate].
Qed.

(** X29.  A course that was loaded is saved in place.  When a course of the
    store is loaded, edited in the table and saved, [handleSave] puts it
    under the id it was loaded with: the store has the same keys as before,
    so no second copy, and after the alert of success the record of that id
    has the basics, the outcomes and the schedule of the edited plan. *)
Theorem loaded_course_is_saved_in_place (r : SavedCourse) (e : Edit) plan' s :
  Db.keyed (disk s) ->
  In r (disk s) ->
  saved_id r <> EmptyString ->
  applyEdit e (asPlan r) = Ok plan' ->
  let s1 := snd (onUI (handleLoad (asPlan r)) s) in
  let s2 := snd (onUI (modify (setCoursePlan (Some plan'))) s1) in
  let s3 := snd (handleSave s2) in
  coursePlan (data (ui s1)) = Some (asPlan r) /\
  map saved_id (disk s3) = map saved_id (disk s) /\
  (alerts s3 = (alerts s ++ ["Course saved successfully!"])%list ->
   exists r',
     In r' (disk s3) /\ saved_id r' = saved_id r /\
     saved_basics r' = basics plan' /\ saved_outcomes r' = outcomes plan' /\
     saved_schedule r' = schedule plan').
Proof.
  intros Hk Hr Hne He s1 s2 s3. split; [reflexivity|].
  destruct (applyEdit_keeps_the_id _ _ _ He) as [Hid _]. simpl in Hid.
  destruct (handleSave_run s2 plan' eq_refl) as (u & Hrun & _).
  subst s3. rewrite Hrun. simpl. clear Hrun.
  destruct (Db.saveCourseToDB plan' _) as [res db] eqn:E.
  destruct (saveCourseToDB_inv _ _ _ _ E)
    as [(id & t & -> & Hgiven & Hput)|(err & -> & Hsame)]; simpl in *.
  - destruct (saved_id r) as [|c k] eqn:Hrid; [congruence|].
    rewrite (Hgiven c k Hid) in Hput.
    destruct (put_record plan' (String c k) t (disk s) Hk)
      as (_ & Hrec & _ & Hkeys & _).
    rewrite Hput. split.
    + apply Hkeys. rewrite <- Hrid. now apply in_map.
    + intros _. exact Hrec.
  - rewrite Hsame. split; [reflexivity|].
    intros Ha. apply app_inv_head in Ha. discriminate.
Qed.

(** [handleDelete], confirmed: the store has lost the record when the
    handler returns, and is as before when it throws. *)
Lemma handleDelete_run id s :
  exists r u,
    handleDelete id true s =
      (r, {| ui := u;
             disk := if succeeds r then Db.delete id (disk s) else disk s;
             alerts := alerts s |}) /\
    setSavedCourses (savedCourses (data (ui s))) (data u) = data (ui s).
Proof.
  assert (setSavedCourses (savedCourses (data (ui s))) (data (ui s)) = data (ui s))
    as Hsame by now destruct (data (ui s)).
  unfold handleDelete, bind, onDisk.
  unfold Db.deleteCourse, Db.openDB, Db.commit, bind. simpl.
  destruct (Db.indexedDB_open _) as [[[]|e] w1]; simpl.
  2: { eexists (Throw e), _. split; [reflexivity|assumption]. }
  destruct (Db.transaction w1) as [[[]|e] w2]; simpl.
  2: { eexists (Throw e), _. split; [reflexivity|assumption]. }
  match goal with
  | |- context [loadSavedList ?s1] =>
      destruct (loadSavedList_run s1) as [u Hu];
        pose proof Hu as Hdata; rewrite Hu
  end.
  simpl. exists (Ok tt), u. split; [reflexivity|].
  revert Hdata.
  unfold loadSavedList, try_catch, bind, onDisk, onUI, modify, onService, log.
  destruct (Db.getAllCourses _) as [[list|e] db1]; simpl;
    intros [= <-]; simpl; now destruct (data (ui s)).
Qed.

(** X30.  Deleting removes that course only, and only when confirmed.
    Unconfirmed, [handleDelete] does nothing.  Confirmed, it leaves in the
    store every record of another id, adds none, and when it returns the
    store holds no record of the id; it shows no alert and sets no state
    variable but the list of saved courses, so a plan that is open stays
    open. *)
Theorem deleting_removes_that_course_only id s :
  handleDelete id false s = (Ok tt, s) /\
  let s' := snd (handleDelete id true s) in
  (forall x, In x (disk s') -> In x (disk s)) /\
  (forall x, saved_id x <> id -> In x (disk s) -> In x (disk s')) /\
  (fst (handleDelete id true s) = Ok tt ->
   forall x, In x (disk s') -> saved_id x <> id) /\
  alerts s' = alerts s /\
  setSavedCourses (savedCourses (data (ui s))) (data (ui s')) = data (ui s).
Proof.
  split; [reflexivity|].
  destruct (handleDelete_run id s) as (r & u & -> & Hdata). simpl.
  assert (forall x, In x (Db.delete id (disk s)) <->
                    In x (disk s) /\ saved_id x <> id) as Hdel.
  { intros x. unfold Db.delete. rewrite filter_In.
    destruct (String.eqb_spec (saved_id x) id); simpl; intuition congruence. }
  destruct r as [[]|e]; simpl; repeat split; auto; try discriminate.
  - intros x Hx. now apply Hdel in Hx.
  - intros x Hne Hx. now apply Hdel.
  - intros _ x Hx. now apply Hdel in Hx.
Qed.

End SavedFacts.

(** * The further properties on the sample data *)

(** ** The service *)

Lemma no_key_no_remote_call_witness :
  keyAvailable (world noKeyState) = false /\
  fst (generateOutcomes (platform := scripted) leadership noKeyState)
    = Throw MissingApiKey /\
  fst (refineContent (platform := scripted) "Lecture: concepts."
         "Training Module Methodology" noKeyState)
    = Throw MissingApiKey.
Proof.
  split; [reflexivity|].
  destruct (no_key_no_remote_call (platform := scripted) leadership []
              twoDays None 1%Z "Lecture: concepts."
              "Training Module Methodology" noKeyState eq_refl)
    as ((H1 & _) & _ & _ & _ & (H5 & _)).
  split; assumption.
Defined.

(** The remote capability answers the three generators without text. *)
Example empty_responses :
  fst (generateOutcomes (platform := scripted) (Sink := list string)
         leadership (scriptedState [Ok emptyResponse])) = Ok [] /\
  fst (generateCourseStructure (platform := scripted) (Sink := list string)
         leadership threeOutcomes (scriptedState [Ok emptyResponse])) = Ok [] /\
  fst (generateIceBreakerOptions (platform := scripted) (Sink := list string)
         1%Z (scriptedState [Ok emptyResponse])) = Ok (JArr []).
Proof. repeat split. Qed.

Lemma generated_outcome_ids_are_distinct_witness :
  exists outs st',
    generateOutcomes (platform := scripted) leadership
      (scriptedState [Ok (jsonResponse threeOutcomesResponse)])
      = (Ok outs, st') /\
    NoDup (map lo_id outs) /\
    List.length outs = 3.
Proof.
  destruct (generated_outcome_ids_are_distinct (platform := scripted)
              leadership
              (scriptedState [Ok (jsonResponse threeOutcomesResponse)]))
    as [Hreturned Hreturns].
  destruct (Hreturns (jsonResponse threeOutcomesResponse)
              [JObj [("text", JStr "Apply active listening in meetings.")];
               JObj [("text", JStr "Demonstrate constructive feedback.")];
               JObj [("text", JStr "Analyze a coaching conversation.")]]
              eq_refl eq_refl eq_refl eq_refl)
    as (outs & st' & Hrun & Hlen & _).
  exists outs, st'. split; [exact Hrun|]. split; [|exact Hlen].
  apply (Hreturned outs st' Hrun).
Defined.

(** An item without text, which the response schema allows: the outcome is
    there, and its text is [undefined]. *)
Example outcome_without_text_is_kept :
  fst (generateOutcomes (platform := scripted) (Sink := list string) leadership
         (scriptedState
            [Ok (jsonResponse
                   (JArr [JObj [("text", JStr "Apply active listening.")];
                          JObj []]))]))
  = Ok [ {| lo_id := "lo-1700000000000-0";
            lo_text := JStr "Apply active listening." |};
         {| lo_id := "lo-1700000000001-1"; lo_text := JUndefined |} ] /\
  outcomesTextOf
    [ {| lo_id := "lo-1700000000000-0";
         lo_text := JStr "Apply active listening." |};
      {| lo_id := "lo-1700000000001-1"; lo_text := JUndefined |} ]
  = "1. Apply active listening." ++ lf ++ "2. undefined".
Proof. split; reflexivity. Qed.

(** The outcomes of that response, with the ids that a clock that ticks
    between two readings gives them. *)
Example generated_outcomes_ex :
  fst (generateOutcomes (platform := scripted) (Sink := list string) leadership
         (scriptedState [Ok (jsonResponse threeOutcomesResponse)]))
  = Ok threeOutcomes.
Proof. reflexivity. Qed.

Lemma skeleton_carries_structure_only_witness :
  exists days st',
    generateCourseStructure (platform := scripted) leadership threeOutcomes
      (scriptedState [Ok (jsonResponse structureWithoutIds)])
      = (Ok days, st') /\
    Forall (fun day =>
              Forall (fun module => JS.get "methodology" module
                                      = JStr EmptyString) (modules day))
      days.
Proof.
  destruct (generateCourseStructure (platform := scripted) leadership
              threeOutcomes
              (scriptedState [Ok (jsonResponse structureWithoutIds)]))
    as [[days|e] st'] eqn:E.
  - exists days, st'. split; [reflexivity|].
    eapply Forall_impl;
      [|apply (skeleton_carries_structure_only (platform := scripted)
                 leadership threeOutcomes _ days st' E)].
    intros day (_ & _ & _ & _ & H).
    eapply Forall_impl; [|exact H]. intros module (_ & _ & Hm & _). exact Hm.
  - vm_compute in E. discriminate E.
Defined.

Lemma structureWithoutIds_withoutIds :
  withoutIds [JObj [("dayNumber", JNum 1);
                    ("modules",
                     JArr [JObj [("title", JStr "Listening");
                                 ("duration", JStr "1 hour");
                                 ("methodology", JStr "Lecture")];
                           JObj [("title", JStr "Feedback");
                                 ("duration", JStr "2 hours")]])];
              JObj [("dayNumber", JNum 2);
                    ("modules",
                     JArr [JObj [("title", JStr "Coaching");
                                 ("duration", JStr "3 hours")]])]].
Proof.
  intros d ms m Hd Hms Hm x Hx.
  destruct Hd as [<-|[<-|[]]]; simpl in Hms; injection Hms as <-;
    simpl in Hm; repeat destruct Hm as [<-|Hm]; try contradiction;
    simpl in Hx; injection Hx as <-; reflexivity.
Qed.

Lemma minted_module_ids_are_distinct_witness :
  exists days st',
    generateCourseStructure (platform := scripted) leadership threeOutcomes
      (scriptedState [Ok (jsonResponse structureWithoutIds)])
      = (Ok days, st') /\
    NoDup (moduleIds days).
Proof.
  destruct (generateCourseStructure (platform := scripted) leadership
              threeOutcomes
              (scriptedState [Ok (jsonResponse structureWithoutIds)]))
    as [[days|e] st'] eqn:E.
  - exists days, st'. split; [reflexivity|].
    apply (minted_module_ids_are_distinct (platform := scripted) leadership
             threeOutcomes _ days st' _ E eq_refl
             structureWithoutIds_withoutIds).
  - vm_compute in E. discriminate E.
Defined.

(** The ids of that skeleton. *)
Example minted_ids_ex :
  match fst (generateCourseStructure (platform := scripted)
               (Sink := list string) leadership threeOutcomes
               (scriptedState [Ok (jsonResponse structureWithoutIds)])) with
  | Ok days => moduleIds days
  | Throw _ => []
  end
  = [JStr "d0-m0-1700000000000"; JStr "d0-m1-1700000000001";
     JStr "d1-m0-1700000000002"].
Proof. reflexivity. Qed.

(** ** The component *)

(** The handlers of views 1 to 4 one after the other, each on the state the
    one before left: the wizard goes from step 1 to step 5. *)
Example handlers_ex :
  let s1 := snd (Component.generateSuggestedOutcomes
                   (starting [Ok (jsonResponse threeOutcomesResponse);
                              Ok (jsonResponse structureWithoutIds);
                              Ok (jsonResponse (JArr []))])) in
  let s2 := snd (Component.generateStructure s1) in
  let s3 := snd (Component.prepareIceBreakers s2) in
  let s4 := snd (Component.generateFinal s3) in
  map (fun s => Component.wizardOf (Component.data s)) [s1; s2; s3; s4]
  = [ {| App.step := 2; App.maxStepReached := 2; App.hasPlan := false |};
      {| App.step := 3; App.maxStepReached := 3; App.hasPlan := false |};
      {| App.step := 4; App.maxStepReached := 4; App.hasPlan := false |};
      {| App.step := 5; App.maxStepReached := 5; App.hasPlan := true |} ] /\
  map (fun s => Component.status (Component.data s)) [s1; s2; s3; s4]
  = [IDLE; IDLE; IDLE; IDLE].
Proof. vm_compute. split; reflexivity. Qed.

Lemma outcomes_fall_back_to_one_empty_outcome_witness :
  let s := starting [Throw (RemoteFailure "503 Service Unavailable")] in
  Component.step (Component.data (snd (Component.generateSuggestedOutcomes s)))
    = 2 /\
  Component.outcomes_
    (Component.data (snd (Component.generateSuggestedOutcomes s)))
    = [{| lo_id := "1"; lo_text := JStr EmptyString |}].
Proof.
  destruct (outcomes_fall_back_to_one_empty_outcome (platform := scripted)
              (starting [Throw (RemoteFailure "503 Service Unavailable")]))
    as (H1 & H2 & _).
  - discriminate.
  - split; [exact H1|exact H2].
Defined.

(** The remote capability answers with an item that has no text: the
    handler shows two outcomes and no error. *)
Example outcome_without_text_is_shown :
  let s := starting
             [Ok (jsonResponse
                    (JArr [JObj [("text", JStr "Apply active listening.")];
                           JObj []]))] in
  Component.outcomes_
    (Component.data (snd (Component.generateSuggestedOutcomes s)))
  = [ {| lo_id := "lo-1700000000000-0";
         lo_text := JStr "Apply active listening." |};
      {| lo_id := "lo-1700000000001-1"; lo_text := JUndefined |} ] /\
  Component.error
    (Component.data (snd (Component.generateSuggestedOutcomes s))) = None.
Proof. split; reflexivity. Qed.

(** The structure call fails: the outcomes and the step stay. *)
Example failed_structure_ex :
  let s := Component.onData (Component.setStep 2)
             (structuring [Throw (RemoteFailure "503 Service Unavailable")]) in
  Component.data (snd (Component.generateStructure s))
  = Component.setError (Some "Failed to outline structure") (Component.data s).
Proof. reflexivity. Qed.

Lemma module_edit_touches_one_property_witness :
  exists day' module',
    nth_error
      (Component.structure
         (Component.data
            (snd (Component.updateModuleTitle 0 1 "Giving Feedback"
                    (structuring [])))))
      0 = Some day' /\
    nth_error (modules day') 1 = Some module' /\
    JS.get "title" module' = JStr "Giving Feedback" /\
    JS.get "id" module' = JStr "d0-m1-1700000000000".
Proof.
  destruct (module_edit_touches_one_property (platform := scripted) "title" 0 1
              "Giving Feedback" (structuring []) skeletonDay1 feedback
              eq_refl eq_refl)
    as (day' & module' & _ & Hd & Hm & Ht & Hk & _).
  exists day', module'. repeat split; try assumption.
  rewrite Hk; [reflexivity|discriminate].
Defined.

Lemma added_module_can_be_removed_witness :
  Component.structure
    (Component.data
       (snd (Component.removeModule 0 2
               (snd (Component.addModule 0 (structuring []))))))
  = twoDays.
Proof.
  exact (proj2 (added_module_can_be_removed (platform := scripted) 0
                  (structuring []) skeletonDay1 eq_refl)).
Defined.

(** An edit of a day that is not there throws and changes nothing. *)
Example edit_out_of_range_ex :
  Component.edit (Component.AddModule 2) (structuring [])
  = (Throw TypeError, structuring []).
Proof. reflexivity. Qed.

Lemma what_the_trainer_fixed_reaches_the_plan_witness :
  exists plan day' module',
    Component.coursePlan
      (Component.data
         (snd (Component.generateFinal
                 (snd (Component.updateModuleTitle 0 1 "Giving Feedback"
                         (structuring oneFailure))))))
      = Some plan /\
    nth_error (schedule plan) 0 = Some day' /\
    nth_error (modules day') 1 = Some module' /\
    JS.get "title" module' = JStr "Giving Feedback".
Proof.
  destruct (what_the_trainer_fixed_reaches_the_plan (platform := scripted) 0 1
              "Giving Feedback" nameGame (structuring oneFailure)
              skeletonDay1 feedback eq_refl eq_refl eq_refl)
    as ((plan & day' & module' & H1 & _ & H3 & H4 & H5 & _) & _).
  exists plan, day', module'. repeat split; assumption.
Defined.

(** A saved course is loaded: the plan is the saved one, and the structure
    has its modules without their content. *)
Example load_ex :
  let s := snd (Component.handleLoad finishedPlan (structuring [])) in
  Component.coursePlan (Component.data s) = Some finishedPlan /\
  map (fun day => map (JS.get "title") (modules day))
      (Component.structure (Component.data s))
    = [[JStr "Listening"; JStr "Feedback"]; []; [JStr "Coaching"]] /\
  map (fun day => map (JS.get "subModules") (modules day))
      (Component.structure (Component.data s))
    = [[JArr []; JArr []]; []; [JArr []]].
Proof. repeat split. Qed.

Lemma regeneration_overwrites_the_plan_witness :
  exists plan,
    Component.coursePlan
      (Component.data
         (snd (Component.generateFinal
                 (Component.onData
                    (Component.setCoursePlan (Some (asPlan savedLeadership)))
                    (structuring oneFailure)))))
      = Some plan /\
    plan_id plan = None.
Proof.
  destruct (regeneration_overwrites_the_plan (platform := scripted)
              (Some (asPlan savedLeadership)) (structuring oneFailure) eq_refl)
    as (Hsame & plan & Hp & Hid & _).
  exists plan. split; [|exact Hid].
  rewrite Hsame. exact Hp.
Defined.

Lemma threeOutcomes_NoDup : NoDup (map lo_id threeOutcomes).
Proof.
  repeat constructor; simpl; intuition discriminate.
Qed.

Lemma outcome_rows_are_edited_by_id_witness :
  Component.outcomes_
    (Component.data
       (snd (Component.editOutcome "lo-1700000000001-1"
               "Give constructive feedback." (structuring []))))
  = [{| lo_id := "lo-1700000000000-0";
        lo_text := JStr "Apply active listening in meetings." |};
     {| lo_id := "lo-1700000000001-1";
        lo_text := JStr "Give constructive feedback." |};
     {| lo_id := "lo-1700000000002-2";
        lo_text := JStr "Analyze a coaching conversation." |}].
Proof.
  exact (proj1 (outcome_rows_are_edited_by_id (platform := scripted)
                  (structuring []) 1
                  {| lo_id := "lo-1700000000001-1";
                     lo_text := JStr "Demonstrate constructive feedback." |}
                  "Give constructive feedback."
                  threeOutcomes_NoDup eq_refl)).
Defined.

(** ** The table *)

(** The title cell of the module numbered 3 is edited: the module keeps its
    id, and the plan its other modules. *)
Example module_cell_ex :
  match TableEdit.updateModule 2 0 "title" (JStr "Coaching at work")
          finishedPlan with
  | Ok plan' =>
      map (fun day => map (fun m => (JS.get "id" m, JS.get "title" m))
                          (modules day)) (schedule plan')
  | Throw _ => []
  end
  = [[(JStr "a", JStr "Listening"); (JStr "b", JStr "Feedback")]; [];
     [(JStr "c", JStr "Coaching at work")]].
Proof. reflexivity. Qed.

Lemma numbering_survives_edits_witness :
  exists plan' rows',
    TableEdit.applyEdit (TableEdit.RemoveSubModule 0 0 0) finishedPlan
      = Ok plan' /\
    SessionPlanTable.render plan' = Ok rows' /\
    map (map SessionPlanTable.label) rows' = [["1."; "2."]; []; ["3."]].
Proof.
  destruct (numbering_survives_edits (TableEdit.RemoveSubModule 0 0 0)
              finishedPlan
              [ [ {| SessionPlanTable.label := "1.";
                     SessionPlanTable.subLabels := ["1.1"; "1.2"] |};
                  {| SessionPlanTable.label := "2.";
                     SessionPlanTable.subLabels := ["2.1"] |} ];
                [];
                [ {| SessionPlanTable.label := "3.";
                     SessionPlanTable.subLabels := ["3.1"; "3.2"; "3.3"] |} ] ])
    as (plan' & rows' & H1 & _ & _ & H4 & H5 & _).
  - simpl. eexists _, _. split; [reflexivity|]. split; [reflexivity|].
    simpl. lia.
  - reflexivity.
  - exists plan', rows'. repeat split; assumption.
Defined.

(** After the removal the sub-points of module 1 are numbered anew. *)
Example sub_module_removed_ex :
  match TableEdit.applyEdit (TableEdit.RemoveSubModule 0 0 0) finishedPlan with
  | Ok plan' => SessionPlanTable.render plan'
  | Throw e => Throw e
  end
  = Ok [ [ {| SessionPlanTable.label := "1.";
              SessionPlanTable.subLabels := ["1.1"] |};
           {| SessionPlanTable.label := "2.";
              SessionPlanTable.subLabels := ["2.1"] |} ];
         [];
         [ {| SessionPlanTable.label := "3.";
              SessionPlanTable.subLabels := ["3.1"; "3.2"; "3.3"] |} ] ].
Proof. reflexivity. Qed.

Lemma review_questions_round_trip_witness :
  exists plan' day',
    TableEdit.updateCell 0 TableEdit.ReviewQuestions
      ("What did you learn?" ++ lf ++ "What will you try?") finishedPlan
      = Ok plan' /\
    nth_error (schedule plan') 0 = Some day' /\
    reviewQuestions day'
      = JArr [JStr "What did you learn?"; JStr "What will you try?"] /\
    SessionPlanTable.reviewQuestionsText day'
      = Ok ("What did you learn?" ++ lf ++ "What will you try?").
Proof.
  destruct (nth_error (schedule finishedPlan) 0) as [day|] eqn:Hd;
    [|discriminate Hd].
  destruct (review_questions_round_trip 0
              ("What did you learn?" ++ lf ++ "What will you try?")
              finishedPlan day Hd)
    as (plan' & day' & q & qs & H1 & H2 & H3 & H4 & _).
  exists plan', day'. repeat split; try assumption.
  vm_compute in H1. injection H1 as <-.
  vm_compute in H2. injection H2 as <-. reflexivity.
Defined.

(** Clearing the text area leaves one empty question. *)
Example cleared_questions_ex :
  TableEdit.split_lf EmptyString = [EmptyString].
Proof. reflexivity. Qed.

(** ** The course store *)

Lemma saved_courses_are_listed_newest_first_witness :
  exists list,
    Db.getAllCourses (browser := scriptedBrowser) scriptedDisk
      = (Ok list, scriptedDisk) /\
    StronglySorted
      (fun a b => (saved_lastModified b <= saved_lastModified a)%Z) list /\
    map saved_id list = ["course-b"; "course-a"].
Proof.
  exists [savedNegotiation; savedLeadership].
  split; [reflexivity|]. split; [|reflexivity].
  apply (saved_courses_are_listed_newest_first (browser := scriptedBrowser)
           scriptedDisk [savedNegotiation; savedLeadership] scriptedDisk
           eq_refl).
Defined.

Lemma twoCourses_keyed : Db.keyed twoCourses.
Proof. repeat constructor. Qed.

Lemma saving_keeps_one_record_per_course_witness :
  exists db',
    Db.saveCourseToDB (browser := scriptedBrowser)
      (TableEdit.updateBasics TableEdit.CourseTitle "Leadership 102"
         (asPlan savedLeadership)) scriptedDisk
      = (Ok "course-a", db') /\
    map saved_id (Db.courses db') = ["course-a"; "course-b"] /\
    exists r,
      In r (Db.courses db') /\ saved_id r = "course-a" /\
      courseTitle (saved_basics r) = "Leadership 102".
Proof.
  destruct (Db.saveCourseToDB (browser := scriptedBrowser)
              (TableEdit.updateBasics TableEdit.CourseTitle "Leadership 102"
                 (asPlan savedLeadership)) scriptedDisk)
    as [[id|e] db'] eqn:E.
  - destruct (saving_keeps_one_record_per_course (browser := scriptedBrowser)
                (TableEdit.updateBasics TableEdit.CourseTitle "Leadership 102"
                   (asPlan savedLeadership)) scriptedDisk twoCourses_keyed)
      as [Hok _].
    destruct (Hok id db' E) as (_ & Hid & (r & Hr & Hrid & Hb & _) & _ & Hkeys & _).
    rewrite (Hid _ _ eq_refl) in *.
    exists db'. split; [reflexivity|]. split.
    + apply Hkeys. simpl. auto.
    + exists r. repeat split; try assumption. now rewrite Hb.
  - vm_compute in E. discriminate E.
Defined.

(** A plan without id is saved as a new course, under a fresh id. *)
Example saved_as_new_ex :
  let saved := Db.saveCourseToDB (browser := scriptedBrowser) finishedPlan
                 scriptedDisk in
  fst saved = Ok "uuid-1700000000000" /\
  map saved_id (Db.courses (snd saved))
    = ["course-a"; "course-b"; "uuid-1700000000000"].
Proof. vm_compute. split; reflexivity. Qed.

Lemma loaded_course_is_saved_in_place_witness :
  let s1 := snd (Saved.onUI (Component.handleLoad (asPlan savedLeadership))
                   browsing) in
  let s2 := snd (Saved.onUI
                   (Component.modify
                      (Component.setCoursePlan
                         (Some (TableEdit.updateBasics TableEdit.CourseTitle
                                  "Leadership 102" (asPlan savedLeadership)))))
                   s1) in
  map saved_id (Saved.disk (snd (Saved.handleSave (browser := scriptedBrowser) s2)))
    = ["course-a"; "course-b"].
Proof.
  destruct (loaded_course_is_saved_in_place (browser := scriptedBrowser)
              savedLeadership
              (TableEdit.EditBasics TableEdit.CourseTitle "Leadership 102")
              (TableEdit.updateBasics TableEdit.CourseTitle "Leadership 102"
                 (asPlan savedLeadership))
              browsing twoCourses_keyed)
    as (_ & H & _).
  - simpl. auto.
  - discriminate.
  - reflexivity.
  - exact H.
Defined.

(** The same course saved, listed, deleted. *)
Example save_list_delete_ex :
  let s1 := snd (Saved.onUI (Component.handleLoad finishedPlan) browsing) in
  let s2 := snd (Saved.handleSave (browser := scriptedBrowser) s1) in
  let s3 := snd (Saved.handleDelete (browser := scriptedBrowser) "course-b"
                   true s2) in
  Saved.alerts s2 = ["Course saved successfully!"] /\
  map plan_id (Component.savedCourses (Component.data (Saved.ui s2)))
    = [Some "uuid-1700000000000"; Some "course-b"; Some "course-a"] /\
  map saved_id (Saved.disk s3) = ["course-a"; "uuid-1700000000000"] /\
  Component.coursePlan (Component.data (Saved.ui s3)) = Some finishedPlan.
Proof. vm_compute. repeat split. Qed.

(** The download names of a plan; a run of spaces, a tab and a no-break
    space (C2 A0) give one underscore. *)
Example download_name_ex :
  Db.downloadName finishedPlan "md" = "Leadership_101_TTT.md" /\
  Db.underscored false
    (list_ascii_of_string
       ("Team  Work" ++ String "009" (String "194" (String "160" "2025"))))
    = list_ascii_of_string "Team_Work_2025".
Proof. split; reflexivity. Qed.
